(** * SafeWalk-SF: session-event record / replay subsystem

    Shallow embedding of the cache store ([web/lib/cache/storage.ts]), the
    cache recorder ([createRecorder], [recordEvent], [finalizeRecording]),
    the cache player ([web/lib/cache/player.ts]), the application-state
    store ([web/store/agentStore.ts]) and the live event handler of the
    WebSocket hook ([useSafeSFWebSocket]), followed by the properties
    established about them.

    Conventions of the embedding:
    - run-time JavaScript values are the type [value]; TypeScript casts
      ([x as T]) are erased, as they are at run time;
    - payload numbers are integers ([Z]): row counts, durations and delays
      are counts of rows or of milliseconds;
    - strings are sequences of code units below 256;
    - a JavaScript exception is the [None] outcome of the [Eff] monad, which
      keeps the effects performed before the throw;
    - an array that is shared by reference (the events of a recorder) lives
      in the [heap] of the browser state, and objects hold its location;
    - [Date.now()] and [new Date()] readings are explicit arguments;
    - browser built-ins that are not code of the repository ([JSON.parse],
      [JSON.stringify], [Date.prototype.toISOString], the storage quota, the
      string coercion of non-string values) are the operations of the class
      [Platform]. *)

From Stdlib Require Import ZArith QArith Qround List String Ascii Bool Lia SpecFloat.
From stdpp Require Import base strings gmap list pretty.
Import ListNotations.

Set Warnings "-register-all".

Local Open Scope string_scope.
Local Open Scope Z_scope.

(* ================================================================== *)
(** ** JavaScript values *)
(* ================================================================== *)

Module JS.

Inductive value : Type :=
| VUndef
| VNull
| VBool (b : bool)
| VNum (n : Z)
| VStr (s : string)
| VArr (items : list value)
| VObj (fields : list (string * value)).

(** [Record<string, unknown>]: the fields of an object. *)
Definition obj : Type := list (string * value).

(** [o.k] on an object: [undefined] when the key is absent. *)
Fixpoint field (k : string) (o : obj) : value :=
  match o with
  | [] => VUndef
  | (k', v) :: rest => if String.eqb k k' then v else field k rest
  end.

(** [v.k] on an arbitrary value: a [TypeError] ([None]) on [null] and
    [undefined]; arrays and strings expose [length]. *)
Definition prop (v : value) (k : string) : option value :=
  match v with
  | VUndef | VNull => None
  | VObj o => Some (field k o)
  | VArr l => Some (if String.eqb k "length" then VNum (Z.of_nat (List.length l)) else VUndef)
  | VStr s => Some (if String.eqb k "length" then VNum (Z.of_nat (String.length s)) else VUndef)
  | VBool _ | VNum _ => Some VUndef
  end.

(** [v.k] where [v] is known not to be [null] or [undefined]. *)
Definition get (v : value) (k : string) : value :=
  match prop v k with Some x => x | None => VUndef end.

(** ToBoolean. *)
Definition truthy (v : value) : bool :=
  match v with
  | VUndef | VNull => false
  | VBool b => b
  | VNum n => negb (n =? 0)
  | VStr s => negb (String.eqb s "")
  | VArr _ | VObj _ => true
  end.

(** [a || b] *)
Definition or (a b : value) : value := if truthy a then a else b.

(** [a ?? b] *)
Definition coalesce (a b : value) : value :=
  match a with
  | VUndef | VNull => b
  | _ => a
  end.

(** [a === b].  Arrays and objects compare by reference; two payloads
    obtained from different messages are never the same reference, so the
    comparison is [false] on them. *)
Definition strict_eq (a b : value) : bool :=
  match a, b with
  | VUndef, VUndef => true
  | VNull, VNull => true
  | VBool x, VBool y => Bool.eqb x y
  | VNum x, VNum y => x =? y
  | VStr x, VStr y => String.eqb x y
  | _, _ => false
  end.

(** *** Strings (code units below 256) *)

Definition charCodeAt (c : ascii) : Z := Z.of_nat (nat_of_ascii c).

(** The letters with a lower-case form: [A]-[Z], and U+00C0-U+00DE
    without the multiplication sign U+00D7. *)
Definition lower_ascii (c : ascii) : ascii :=
  let n := nat_of_ascii c in
  if (((65 <=? n) && (n <=? 90))
      || ((192 <=? n) && (n <=? 222) && negb (n =? 215)))%nat
  then ascii_of_nat (n + 32) else c.

Fixpoint toLowerCase (s : string) : string :=
  match s with
  | EmptyString => EmptyString
  | String c rest => String (lower_ascii c) (toLowerCase rest)
  end.

(** White space removed by [String.prototype.trim]: TAB, LF, VT, FF, CR,
    SPACE and the no-break space U+00A0. *)
Definition is_space (c : ascii) : bool :=
  let n := nat_of_ascii c in
  (((9 <=? n) && (n <=? 13)) || (n =? 32) || (n =? 160))%nat.

Fixpoint trimStart (s : string) : string :=
  match s with
  | EmptyString => EmptyString
  | String c rest => if is_space c then trimStart rest else s
  end.

Fixpoint string_rev_onto (s acc : string) : string :=
  match s with
  | EmptyString => acc
  | String c rest => string_rev_onto rest (String c acc)
  end.

Definition string_rev (s : string) : string := string_rev_onto s EmptyString.

Definition trim (s : string) : string :=
  string_rev (trimStart (string_rev (trimStart s))).

(** [s.slice(0, n)] *)
Definition slice0 (n : nat) (s : string) : string := String.substring 0 n s.

(** [s.includes(t)] *)
Definition str_includes (s t : string) : bool :=
  match String.index 0 t s with Some _ => true | None => false end.

(** [Number.prototype.toString(36)] on a non-negative integer. *)
Definition digit36 (d : Z) : ascii :=
  if d <? 10 then ascii_of_nat (Z.to_nat (48 + d)) else ascii_of_nat (Z.to_nat (87 + d)).

Fixpoint toString36_fuel (fuel : nat) (n : Z) (acc : string) : string :=
  match fuel with
  | O => acc
  | S fuel' =>
      let acc' := String (digit36 (n mod 36)) acc in
      if n <? 36 then acc' else toString36_fuel fuel' (n / 36) acc'
  end.

Definition toString36 (n : Z) : string :=
  toString36_fuel (S (Z.to_nat (Z.log2 n))) n EmptyString.

(** ToInt32: the wrap-around applied by the bitwise operators. *)
Definition ToInt32 (z : Z) : Z := (z + 2 ^ 31) mod 2 ^ 32 - 2 ^ 31.

End JS.

Export JS.

(* ================================================================== *)
(** ** Cache types ([web/lib/cache/types.ts]) *)
(* ================================================================== *)

Inductive CacheEventType : Type :=
| session_started
| agent_spawned
| tool_called
| tool_result
| data_received
| agent_complete
| session_complete
| session_error
| final_result.

Definition type_name (t : CacheEventType) : string :=
  match t with
  | session_started => "session_started"
  | agent_spawned => "agent_spawned"
  | tool_called => "tool_called"
  | tool_result => "tool_result"
  | data_received => "data_received"
  | agent_complete => "agent_complete"
  | session_complete => "session_complete"
  | session_error => "session_error"
  | final_result => "final_result"
  end.

Module CacheEvent.
Record t : Type := mk {
  type : CacheEventType;
  data : obj;
  timestamp : Z;
  delay : Z
}.

Definition to_value (e : t) : value :=
  VObj [("type", VStr (type_name (type e)));
        ("data", VObj (data e));
        ("timestamp", VNum (timestamp e));
        ("delay", VNum (delay e))].
End CacheEvent.

(** A reference to a JavaScript array of events.  The recorder and the
    recording it returns hold such a reference, not the array itself. *)
Definition loc : Type := nat.

Module SessionCache.
Record t : Type := mk {
  promptHash : string;
  prompt : string;
  events : loc;
  recordedAt : string;
  totalDuration : Z;
  isComplete : bool
}.
End SessionCache.

Module CacheRecorder.
Record t : Type := mk {
  promptHash : string;
  prompt : string;
  events : loc;
  startTime : Z;
  lastEventTime : Z;
  isFinalized : bool
}.
End CacheRecorder.

(* ================================================================== *)
(** ** The browser: storage, arrays, console *)
(* ================================================================== *)

(** What the cache modules and the WebSocket hook print.  Each constructor
    stands for one [console] call of the source; its arguments are the
    interpolated or listed values. *)
Inductive Diagnostic : Type :=
| Log_CacheHit (prompt30 : string) (n : value)
    (* console.log(`[Cache] Hit for "${prompt.slice(0, 30)}..." (${n} events)`) *)
| Error_CacheRead
    (* console.error('[Cache] Error reading cache:', error) *)
| Log_CacheSaved (prompt30 : string) (n : nat)
    (* console.log(`[Cache] Saved "${cache.prompt.slice(0, 30)}..." (${n} events)`) *)
| Error_CacheSave
    (* console.error('[Cache] Error saving cache:', error) *)
| Warn_RecorderFinalized
    (* console.warn('[CacheRecorder] Cannot record to finalized recorder') *)
| Log_Recorded (type : CacheEventType) (delay : Z)
    (* console.log(`[CacheRecorder] Recorded ${type} (delay: ${delay}ms)`) *)
| Log_Finalized (n : nat) (totalDuration : Z)
    (* console.log(`[CacheRecorder] Finalized recording (${n} events, ${d}ms)`) *)
| Log_WS_SessionStarted (request_id : value)
    (* console.log('[WS] Session started:', message.request_id) *)
| Log_WS_AgentSpawned (id type : value)
    (* console.log('[WS] Agent spawned:', agent.id, agent.type) *)
| Log_WS_ToolCalled (agent_id name : value)
    (* console.log('[WS] Tool called:', message.agent_id, toolCall.name) *)
| Log_WS_ToolResult (agent_id row_count : value)
    (* console.log('[WS] Tool result:', message.agent_id, message.row_count) *)
| Log_WS_DataReceived (row_count : value)
    (* console.log('[WS] Data received:', message.row_count, 'rows') *)
| Log_WS_AgentComplete (agent_id : value)
    (* console.log('[WS] Agent complete:', message.agent_id) *)
| Log_WS_SessionComplete (duration_ms : value)
    (* console.log('[WS] Session complete:', message.duration_ms, 'ms') *)
| Error_WS_SessionError (error : value)
    (* console.error('[WS] Session error:', message.error) *)
| Log_WS_FinalResult
    (* console.log('[WS] Final result received') *)
| Error_WS_Error (error : value)
    (* console.error('[WS] Error:', message.error) *)
| Log_WS_Unknown (eventType : value) (message : obj)
    (* console.log('[WS] Unknown event:', eventType, message) *)
| Log_WS_Resetting
    (* console.log('[WS] Resetting session state for new query') *)
| Log_Cache_HitReplaying
    (* console.log('[Cache] Hit! Replaying cached session...') *)
| Log_Cache_MissRecording.
    (* console.log('[Cache] Miss. Starting live session with recording...') *)

Record World : Type := mkWorld {
  hasWindow : bool;                          (* typeof window !== 'undefined' *)
  NEXT_PUBLIC_CACHE_ENABLED : option string; (* process.env.NEXT_PUBLIC_CACHE_ENABLED *)
  localStorage : gmap string string;
  heap : list (list CacheEvent.t);           (* the event arrays, by reference *)
  console : list Diagnostic                  (* oldest first *)
}.

Definition set_localStorage (ls : gmap string string) (w : World) : World :=
  mkWorld (hasWindow w) (NEXT_PUBLIC_CACHE_ENABLED w) ls (heap w) (console w).

Definition set_heap (h : list (list CacheEvent.t)) (w : World) : World :=
  mkWorld (hasWindow w) (NEXT_PUBLIC_CACHE_ENABLED w) (localStorage w) h (console w).

Definition set_console (c : list Diagnostic) (w : World) : World :=
  mkWorld (hasWindow w) (NEXT_PUBLIC_CACHE_ENABLED w) (localStorage w) (heap w) c.

(** The array behind a reference. *)
Definition deref (h : list (list CacheEvent.t)) (l : loc) : list CacheEvent.t :=
  match h !! l with Some a => a | None => [] end.

(** Built-ins of the JavaScript platform used by the cache modules. *)
Class Platform : Type := {
  (** [JSON.parse]; [None] is a [SyntaxError]. *)
  JSON_parse : string -> option value;
  JSON_stringify : value -> string;
  (** [new Date(ms).toISOString()] *)
  toISOString : Z -> string;
  (** whether [localStorage.setItem(k, v)] fits the quota; otherwise it
      throws [QuotaExceededError] *)
  storage_accepts : gmap string string -> string -> string -> bool;
  (** string coercion of a value that is not a string *)
  ToString : value -> string
}.

(** *** Effects with exceptions *)

Module Eff.

(** A computation on the browser state; [None] is a thrown exception.
    The state changes made before a throw are kept. *)
Definition t (A : Type) : Type := World -> World * option A.

Definition ret {A} (a : A) : t A := fun w => (w, Some a).

Definition throw {A} : t A := fun w => (w, None).

Definition bind {A B} (m : t A) (k : A -> t B) : t B :=
  fun w =>
    match m w with
    | (w', Some a) => k a w'
    | (w', None) => (w', None)
    end.

(** [try { m } catch { h }] *)
Definition try_catch {A} (m h : t A) : t A :=
  fun w =>
    match m w with
    | (w', Some a) => (w', Some a)
    | (w', None) => h w'
    end.

(** an operation that throws when its result is [None] *)
Definition lift {A} (o : option A) : t A := fun w => (w, o).

Definition read {A} (f : World -> A) : t A := fun w => (w, Some (f w)).

Definition print (d : Diagnostic) : t unit :=
  fun w => (set_console (console w ++ [d])%list w, Some tt).

Fixpoint mapM {A B} (f : A -> t B) (l : list A) : t (list B) :=
  match l with
  | [] => ret []
  | x :: rest => bind (f x) (fun y => bind (mapM f rest) (fun ys => ret (y :: ys)))
  end.

End Eff.

Notation "'let*' x ':=' m 'in' k" := (Eff.bind m (fun x => k))
  (at level 10, x name, m at level 100, k at level 200).
Notation "m ';;;' k" := (Eff.bind m (fun _ => k))
  (at level 100, k at level 200, right associativity).

(* ================================================================== *)
(** ** Cache store ([web/lib/cache/storage.ts]) *)
(* ================================================================== *)

Module Storage.

Definition CACHE_PREFIX : string := "safesf_cache_".
Definition CACHE_INDEX_KEY : string := "safesf_cache_index".

(** One turn of the loop of [hashPrompt]:
    [hash = ((hash << 5) - hash) + char; hash = hash & hash]. *)
Definition hash_step (hash : Z) (c : ascii) : Z :=
  ToInt32 (ToInt32 (hash * 32) - hash + charCodeAt c).

Fixpoint hash_loop (hash : Z) (s : string) : Z :=
  match s with
  | EmptyString => hash
  | String c rest => hash_loop (hash_step hash c) rest
  end.

Definition hashPrompt (prompt : string) : string :=
  toString36 (Z.abs (hash_loop 0 prompt)).

(** [localStorage.getItem] and [localStorage.setItem]. *)
Definition getItem (k : string) : Eff.t (option string) :=
  Eff.read (fun w => localStorage w !! k).

(** [!cached]: [null] and the empty string are falsy. *)
Definition present (cached : option string) : option string :=
  match cached with
  | Some s => if String.eqb s "" then None else Some s
  | None => None
  end.

(** [Array.prototype.includes] on whatever the index parsed to: an
    array is searched, a string is searched as a string, anything else
    has no [includes] method ([TypeError]). *)
Definition includes (index : value) (h : string) : Eff.t bool :=
  match index with
  | VArr l => Eff.ret (existsb (strict_eq (VStr h)) l)
  | VStr s => Eff.ret (str_includes s h)
  | _ => Eff.throw
  end.

(** [Array.prototype.push]; only arrays have it. *)
Definition push (index : value) (h : string) : Eff.t value :=
  match index with
  | VArr l => Eff.ret (VArr (l ++ [VStr h])%list)
  | _ => Eff.throw
  end.

Section WithPlatform.

Context `{Platform}.

Definition setItem (k v : string) : Eff.t unit :=
  fun w =>
    if storage_accepts (localStorage w) k v
    then (set_localStorage (<[k := v]> (localStorage w)) w, Some tt)
    else (w, None).

(** [CACHE_PREFIX + hash] where [hash] is an element of the index. *)
Definition entry_key (hash : value) : string :=
  match hash with
  | VStr s => CACHE_PREFIX ++ s
  | _ => CACHE_PREFIX ++ ToString hash
  end.

(** The document [JSON.stringify] sees for a recording: the events are
    read through the reference at the time of the call. *)
Definition SessionCache_to_value (h : list (list CacheEvent.t))
    (cache : SessionCache.t) : value :=
  VObj [("promptHash", VStr (SessionCache.promptHash cache));
        ("prompt", VStr (SessionCache.prompt cache));
        ("events", VArr (map CacheEvent.to_value (deref h (SessionCache.events cache))));
        ("recordedAt", VStr (SessionCache.recordedAt cache));
        ("totalDuration", VNum (SessionCache.totalDuration cache));
        ("isComplete", VBool (SessionCache.isComplete cache))].

Definition isCacheEnabled (w : World) : bool :=
  if negb (hasWindow w) then false
  else match NEXT_PUBLIC_CACHE_ENABLED w with
       | Some s => String.eqb s "true"
       | None => false
       end.

(** [indexStr ? JSON.parse(indexStr) : []] *)
Definition read_index : Eff.t value :=
  let* indexStr := getItem CACHE_INDEX_KEY in
  match present indexStr with
  | Some s => Eff.lift (JSON_parse s)
  | None => Eff.ret (VArr [])
  end.

(** The body of the [try] of [getCache]. *)
Definition getCache_try (prompt key : string) : Eff.t (option value) :=
  let* cached := getItem key in
  match present cached with
  | None => Eff.ret None
  | Some s =>
      let* session := Eff.lift (JSON_parse s) in
      let* isComplete := Eff.lift (prop session "isComplete") in
      if negb (truthy isComplete) then Eff.ret None else
      let* events := Eff.lift (prop session "events") in
      if negb (truthy events) then Eff.ret None else
      let* len := Eff.lift (prop events "length") in
      if strict_eq len (VNum 0) then Eff.ret None else
      Eff.print (Log_CacheHit (slice0 30 prompt) len) ;;;
      Eff.ret (Some session)
  end.

Definition getCache (prompt : string) : Eff.t (option value) :=
  fun w =>
    if negb (hasWindow w) then (w, Some None) else
    let hash := hashPrompt (trim (toLowerCase prompt)) in
    let key := CACHE_PREFIX ++ hash in
    Eff.try_catch
      (getCache_try prompt key)
      (Eff.print Error_CacheRead ;;; Eff.ret None) w.

(** The body of the [try] of [saveCache]. *)
Definition saveCache_try (cache : SessionCache.t) (key : string) : Eff.t unit :=
  let* doc := Eff.read (fun w => SessionCache_to_value (heap w) cache) in
  setItem key (JSON_stringify doc) ;;;
  let* index := read_index in
  let* found := includes index (SessionCache.promptHash cache) in
  (if found then Eff.ret tt
   else
     let* index' := push index (SessionCache.promptHash cache) in
     setItem CACHE_INDEX_KEY (JSON_stringify index')) ;;;
  let* n := Eff.read (fun w => List.length (deref (heap w) (SessionCache.events cache))) in
  Eff.print (Log_CacheSaved (slice0 30 (SessionCache.prompt cache)) n).

Definition saveCache (cache : SessionCache.t) : Eff.t unit :=
  fun w =>
    if negb (hasWindow w) then (w, Some tt) else
    let key := CACHE_PREFIX ++ SessionCache.promptHash cache in
    Eff.try_catch
      (saveCache_try cache key)
      (Eff.print Error_CacheSave) w.

(** The callback of [index.map] in [listCachedPrompts]. *)
Definition prompt_of_entry (hash : value) : Eff.t value :=
  let* cached := getItem (entry_key hash) in
  match present cached with
  | Some s =>
      let* session := Eff.lift (JSON_parse s) in
      Eff.lift (prop session "prompt")
  | None => Eff.ret (VStr "")
  end.

(** [Array.prototype.map]; only arrays have it. *)
Definition map_index (index : value) (f : value -> Eff.t value) : Eff.t (list value) :=
  match index with
  | VArr l => Eff.mapM f l
  | _ => Eff.throw
  end.

Definition listCachedPrompts : Eff.t (list value) :=
  fun w =>
    if negb (hasWindow w) then (w, Some []) else
    Eff.try_catch
      (let* index := read_index in
       let* prompts := map_index index prompt_of_entry in
       Eff.ret (List.filter truthy prompts))
      (Eff.ret []) w.

End WithPlatform.

End Storage.

(* ================================================================== *)
(** ** Cache recorder *)
(* ================================================================== *)

Module Recorder.

(** [events: []]: a new array, at a reference not used before. *)
Definition new_array : Eff.t loc :=
  fun w => (set_heap (heap w ++ [[]])%list w, Some (List.length (heap w))).

(** [recorder.events.push(event)] *)
Definition array_push (l : loc) (e : CacheEvent.t) : Eff.t unit :=
  fun w => (set_heap (<[l := (deref (heap w) l ++ [e])%list]> (heap w)) w, Some tt).

Definition createRecorder (prompt : string) (now : Z) : Eff.t CacheRecorder.t :=
  let* events := new_array in
  Eff.ret {| CacheRecorder.promptHash := Storage.hashPrompt (trim (toLowerCase prompt));
             CacheRecorder.prompt := prompt;
             CacheRecorder.events := events;
             CacheRecorder.startTime := now;
             CacheRecorder.lastEventTime := now;
             CacheRecorder.isFinalized := false |}.

(** The recorder object is mutated in place by the source; the embedding
    returns its new state.  [now] is the reading of [Date.now()]. *)
Definition recordEvent (recorder : CacheRecorder.t) (type : CacheEventType)
    (data : obj) (now : Z) : Eff.t CacheRecorder.t :=
  if CacheRecorder.isFinalized recorder then
    Eff.print Warn_RecorderFinalized ;;;
    Eff.ret recorder
  else
    let delay := now - CacheRecorder.lastEventTime recorder in
    let event := {| CacheEvent.type := type;
                    CacheEvent.data := data;
                    CacheEvent.timestamp := now;
                    CacheEvent.delay := delay |} in
    array_push (CacheRecorder.events recorder) event ;;;
    Eff.print (Log_Recorded type delay) ;;;
    Eff.ret {| CacheRecorder.promptHash := CacheRecorder.promptHash recorder;
               CacheRecorder.prompt := CacheRecorder.prompt recorder;
               CacheRecorder.events := CacheRecorder.events recorder;
               CacheRecorder.startTime := CacheRecorder.startTime recorder;
               CacheRecorder.lastEventTime := now;
               CacheRecorder.isFinalized := false |}.

Section WithPlatform.

Context `{Platform}.

(** [date] is the reading of [new Date()], [now] the one of the
    [Date.now()] that follows it. *)
Definition finalizeRecording (recorder : CacheRecorder.t) (date now : Z)
  : Eff.t (CacheRecorder.t * SessionCache.t) :=
  let recorder' := {| CacheRecorder.promptHash := CacheRecorder.promptHash recorder;
                      CacheRecorder.prompt := CacheRecorder.prompt recorder;
                      CacheRecorder.events := CacheRecorder.events recorder;
                      CacheRecorder.startTime := CacheRecorder.startTime recorder;
                      CacheRecorder.lastEventTime := CacheRecorder.lastEventTime recorder;
                      CacheRecorder.isFinalized := true |} in
  let cache := {| SessionCache.promptHash := CacheRecorder.promptHash recorder;
                  SessionCache.prompt := CacheRecorder.prompt recorder;
                  SessionCache.events := CacheRecorder.events recorder;
                  SessionCache.recordedAt := toISOString date;
                  SessionCache.totalDuration := now - CacheRecorder.startTime recorder;
                  SessionCache.isComplete := true |} in
  Storage.saveCache cache ;;;
  let* n := Eff.read (fun w => List.length (deref (heap w) (SessionCache.events cache))) in
  Eff.print (Log_Finalized n (SessionCache.totalDuration cache)) ;;;
  Eff.ret (recorder', cache).

End WithPlatform.

End Recorder.

(* ================================================================== *)
(** ** Application state ([web/types/agent.ts], [web/store/agentStore.ts]) *)
(* ================================================================== *)

Module ToolCall.
Record t : Type := mk {
  id : string;
  name : value;
  input : value;
  status : value;
  result : value;
  rowCount : value;
  error : value
}.

(** [Partial<ToolCall>]: [None] is a key that the object literal does
    not have; [Some VUndef] is a key whose value is [undefined]. *)
Record partial : Type := mkPartial {
  p_id : option string;
  p_name : option value;
  p_input : option value;
  p_status : option value;
  p_result : option value;
  p_rowCount : option value;
  p_error : option value
}.

Definition over {A} (old : A) (new : option A) : A :=
  match new with Some x => x | None => old end.

(** [{ ...tc, ...updates }] *)
Definition spread (tc : t) (u : partial) : t :=
  {| id := over (id tc) (p_id u);
     name := over (name tc) (p_name u);
     input := over (input tc) (p_input u);
     status := over (status tc) (p_status u);
     result := over (result tc) (p_result u);
     rowCount := over (rowCount tc) (p_rowCount u);
     error := over (error tc) (p_error u) |}.

Definition with_status (st : value) (tc : t) : t :=
  {| id := id tc; name := name tc; input := input tc; status := st;
     result := result tc; rowCount := rowCount tc; error := error tc |}.
End ToolCall.

Module Agent.
(** [output] is not declared by the interface; [updateAgent] adds it. *)
Record t : Type := mk {
  id : value;
  type : value;
  description : value;
  status : value;
  inputId : value;
  toolCalls : list ToolCall.t;
  startedAt : string;
  completedAt : value;
  error : value;
  output : value
}.

Record partial : Type := mkPartial {
  p_id : option value;
  p_type : option value;
  p_description : option value;
  p_status : option value;
  p_inputId : option value;
  p_toolCalls : option (list ToolCall.t);
  p_startedAt : option string;
  p_completedAt : option value;
  p_error : option value;
  p_output : option value
}.

(** [{ ...a, ...updates }] *)
Definition spread (a : t) (u : partial) : t :=
  {| id := ToolCall.over (id a) (p_id u);
     type := ToolCall.over (type a) (p_type u);
     description := ToolCall.over (description a) (p_description u);
     status := ToolCall.over (status a) (p_status u);
     inputId := ToolCall.over (inputId a) (p_inputId u);
     toolCalls := ToolCall.over (toolCalls a) (p_toolCalls u);
     startedAt := ToolCall.over (startedAt a) (p_startedAt u);
     completedAt := ToolCall.over (completedAt a) (p_completedAt u);
     error := ToolCall.over (error a) (p_error u);
     output := ToolCall.over (output a) (p_output u) |}.

Definition with_toolCalls (tcs : list ToolCall.t) (a : t) : t :=
  {| id := id a; type := type a; description := description a;
     status := status a; inputId := inputId a; toolCalls := tcs;
     startedAt := startedAt a; completedAt := completedAt a;
     error := error a; output := output a |}.
End Agent.

Module SafetyResult.
Record t : Type := mk {
  safetyScore : value;
  rating : value;
  analysis : value;
  summary : value;
  recommendations : value;
  coordinates : value;
  data : value;
  sql : value;
  incident_breakdown : value
}.
End SafetyResult.

Inductive SessionStatus : Type := idle | running | complete | error.

Module AgentStore.

Record t : Type := mk {
  sessionId : value;
  sessionStatus : SessionStatus;
  sessionError : value;
  startTime : option Z;
  duration : value;
  agents : list Agent.t;
  finalResult : option SafetyResult.t;
  flowTrace : value
}.

Definition initialState : t :=
  {| sessionId := VNull;
     sessionStatus := idle;
     sessionError := VNull;
     startTime := None;
     duration := VNull;
     agents := [];
     finalResult := None;
     flowTrace := VArr [] |}.

Definition with_agents (l : list Agent.t) (s : t) : t :=
  {| sessionId := sessionId s; sessionStatus := sessionStatus s;
     sessionError := sessionError s; startTime := startTime s;
     duration := duration s; agents := l;
     finalResult := finalResult s; flowTrace := flowTrace s |}.

Definition setSessionStatus (status : SessionStatus) (sid err : value) (s : t) : t :=
  {| sessionId := coalesce sid (sessionId s);
     sessionStatus := status;
     sessionError := coalesce err VNull;
     startTime := startTime s; duration := duration s; agents := agents s;
     finalResult := finalResult s; flowTrace := flowTrace s |}.

Definition setStartTime (time : Z) (s : t) : t :=
  {| sessionId := sessionId s; sessionStatus := sessionStatus s;
     sessionError := sessionError s; startTime := Some time;
     duration := duration s; agents := agents s;
     finalResult := finalResult s; flowTrace := flowTrace s |}.

Definition setDuration (d : value) (s : t) : t :=
  {| sessionId := sessionId s; sessionStatus := sessionStatus s;
     sessionError := sessionError s; startTime := startTime s;
     duration := d; agents := agents s;
     finalResult := finalResult s; flowTrace := flowTrace s |}.

Definition addAgent (agent : Agent.t) (s : t) : t :=
  with_agents (agents s ++ [agent]) s.

Definition updateAgent (agentId : value) (updates : Agent.partial) (s : t) : t :=
  with_agents
    (map (fun a => if strict_eq (Agent.id a) agentId then Agent.spread a updates else a)
         (agents s)) s.

Definition addToolCall (agentId : value) (toolCall : ToolCall.t) (s : t) : t :=
  with_agents
    (map (fun a =>
            if strict_eq (Agent.id a) agentId
            then Agent.with_toolCalls (Agent.toolCalls a ++ [toolCall]) a
            else a)
         (agents s)) s.

Definition completeToolCall (agentId : value) (toolCallId : string)
    (result : ToolCall.partial) (s : t) : t :=
  with_agents
    (map (fun a =>
            if strict_eq (Agent.id a) agentId
            then Agent.with_toolCalls
                   (map (fun tc =>
                           if String.eqb (ToolCall.id tc) toolCallId
                           then ToolCall.with_status (VStr "complete") (ToolCall.spread tc result)
                           else tc)
                        (Agent.toolCalls a)) a
            else a)
         (agents s)) s.

Definition setFinalResult (r : SafetyResult.t) (s : t) : t :=
  {| sessionId := sessionId s; sessionStatus := sessionStatus s;
     sessionError := sessionError s; startTime := startTime s;
     duration := duration s; agents := agents s;
     finalResult := Some r; flowTrace := flowTrace s |}.

Definition setFlowTrace (trace : value) (s : t) : t :=
  {| sessionId := sessionId s; sessionStatus := sessionStatus s;
     sessionError := sessionError s; startTime := startTime s;
     duration := duration s; agents := agents s;
     finalResult := finalResult s; flowTrace := trace |}.

Definition reset (s : t) : t := initialState.

(** [agents.find(a => a.id === agentId)] followed by
    [agent?.toolCalls.find(tc => tc.status === 'running')], as both the
    player and the live handler write it. *)
Definition find_agent (agentId : value) (s : t) : option Agent.t :=
  List.find (fun a => strict_eq (Agent.id a) agentId) (agents s).

Definition is_running (tc : ToolCall.t) : bool :=
  strict_eq (ToolCall.status tc) (VStr "running").

Definition find_running (agent : option Agent.t) : option ToolCall.t :=
  match agent with
  | Some a => List.find is_running (Agent.toolCalls a)
  | None => None
  end.

End AgentStore.

(* ================================================================== *)
(** ** Event player ([web/lib/cache/player.ts]) *)
(* ================================================================== *)

(** The agent and tool-call literals that the player and the live handler
    both build. *)
Definition new_agent (id type description inputId : value) (startedAt : string) : Agent.t :=
  {| Agent.id := id; Agent.type := type; Agent.description := description;
     Agent.status := VStr "running"; Agent.inputId := inputId;
     Agent.toolCalls := []; Agent.startedAt := startedAt;
     Agent.completedAt := VUndef; Agent.error := VUndef; Agent.output := VUndef |}.

(** [{ id: `tool-${Date.now()}`, name, input, status: 'running' }] *)
Definition new_toolCall (now : Z) (name input : value) : ToolCall.t :=
  {| ToolCall.id := "tool-" ++ pretty now; ToolCall.name := name;
     ToolCall.input := input; ToolCall.status := VStr "running";
     ToolCall.result := VUndef; ToolCall.rowCount := VUndef;
     ToolCall.error := VUndef |}.

(** The result object built from a final payload [r]
    ([message.final_response], or the message itself for [final_result]). *)
Definition result_of (r : value) : SafetyResult.t :=
  {| SafetyResult.safetyScore := get r "safety_score";
     SafetyResult.rating := get r "rating";
     SafetyResult.analysis := or (get r "analysis") (get r "summary");
     SafetyResult.summary := get r "summary";
     SafetyResult.recommendations := or (get r "recommendations") (VArr []);
     SafetyResult.coordinates := or (get r "coordinates") (VArr []);
     SafetyResult.data := or (get r "data") (VArr []);
     SafetyResult.sql := get r "sql";
     SafetyResult.incident_breakdown := get r "incident_breakdown" |}.

Module Player.

Import AgentStore.

(** Speed multiplier, [0.15]. *)
Definition REPLAY_SPEED : Q := 15 # 100.

(** Minimum and maximum delay between events (ms). *)
Definition MIN_DELAY : Z := 50.
Definition MAX_DELAY : Z := 800.

(** [Math.round]: the nearest integer, halves towards plus infinity. *)
Definition Math_round (x : Q) : Z := Qfloor (x + (1 # 2)).

Definition scaleDelay (originalDelay : Z) : Z :=
  let scaled := Math_round (inject_Z originalDelay * REPLAY_SPEED) in
  Z.max MIN_DELAY (Z.min MAX_DELAY scaled).

(** What a replay does, in order: suspensions and event applications. *)
Inductive Step : Type :=
| Sleep (ms : Z)
| Apply (event : CacheEvent.t).

Section WithPlatform.

Context `{Platform}.

(** [now] is the clock reading used by the branch (each branch reads
    the clock at most once). *)
Definition processEvent (now : Z) (event : CacheEvent.t) (s : AgentStore.t)
  : AgentStore.t :=
  let data := CacheEvent.data event in
  match CacheEvent.type event with
  | session_started =>
      let s1 := setSessionStatus running (field "request_id" data) VUndef s in
      addAgent
        (new_agent (or (field "request_id" data) (VStr "orchestrator"))
                   (VStr "orchestrator")
                   (or (field "description" data) (VStr "Processing query"))
                   VUndef
                   (toISOString now)) s1
  | agent_spawned =>
      addAgent
        (new_agent (field "agent_id" data)
                   (or (field "agent_type" data) (VStr "data-agent"))
                   (field "description" data)
                   (field "input_id" data)
                   (toISOString now)) s
  | tool_called =>
      if truthy (field "agent_id" data) then
        addToolCall (field "agent_id" data)
          (new_toolCall now (or (field "tool_name" data) (VStr "unknown"))
                            (or (field "tool_input" data) (VObj []))) s
      else s
  | tool_result =>
      if truthy (field "agent_id" data) then
        let agent := find_agent (field "agent_id" data) s in
        match find_running agent with
        | Some runningTool =>
            completeToolCall (field "agent_id" data) (ToolCall.id runningTool)
              {| ToolCall.p_id := None; ToolCall.p_name := None;
                 ToolCall.p_input := None;
                 ToolCall.p_status := Some (VStr "complete");
                 ToolCall.p_result := None;
                 ToolCall.p_rowCount := Some (field "row_count" data);
                 ToolCall.p_error := None |} s
        | None => s
        end
      else s
  | data_received => s
  | agent_complete =>
      if truthy (field "agent_id" data) then
        updateAgent (field "agent_id" data)
          {| Agent.p_id := None; Agent.p_type := None;
             Agent.p_description := None;
             Agent.p_status := Some (VStr "complete");
             Agent.p_inputId := None; Agent.p_toolCalls := None;
             Agent.p_startedAt := None;
             Agent.p_completedAt := Some (VStr (toISOString now));
             Agent.p_error := None;
             Agent.p_output := Some (field "output_summary" data) |} s
      else s
  | session_complete =>
      let s1 := setSessionStatus complete VUndef VUndef s in
      let s2 := if truthy (field "duration_ms" data)
                then setDuration (field "duration_ms" data) s1 else s1 in
      let s3 := if truthy (field "flow_trace" data)
                then setFlowTrace (field "flow_trace" data) s2 else s2 in
      if truthy (field "final_response" data)
      then setFinalResult (result_of (field "final_response" data)) s3
      else s3
  | final_result =>
      let s1 := setSessionStatus complete VUndef VUndef s in
      let s2 := if truthy (field "duration_ms" data)
                then setDuration (field "duration_ms" data) s1 else s1 in
      let s3 := if truthy (field "flow_trace" data)
                then setFlowTrace (field "flow_trace" data) s2 else s2 in
      setFinalResult (result_of (VObj data)) s3
  | session_error =>
      setSessionStatus error VUndef (field "error" data) s
  end.

(** The loop of [replayCache] from index [i] on.  [clock i] is the clock
    reading while event [i] is processed. *)
Fixpoint replay_from (clock : nat -> Z) (i : nat) (events : list CacheEvent.t)
    (s : AgentStore.t) : AgentStore.t * list Step :=
  match events with
  | [] => (s, [])
  | event :: rest =>
      let wait := if (0 <? i)%nat
                  then [Sleep (scaleDelay (CacheEvent.delay event))]
                  else [] in
      let s' := processEvent (clock i) event s in
      let (s'', trace) := replay_from clock (S i) rest s' in
      (s'', (wait ++ Apply event :: trace)%list)
  end.

(** [start] is the reading of [Date.now()] before the loop; the events
    are read through the reference held by the recording. *)
Definition replayCache (h : list (list CacheEvent.t)) (cache : SessionCache.t)
    (start : Z) (clock : nat -> Z) (s : AgentStore.t)
  : AgentStore.t * list Step :=
  replay_from clock 0 (deref h (SessionCache.events cache)) (setStartTime start s).

End WithPlatform.

End Player.

(* ================================================================== *)
(** ** Live event handler (the WebSocket hook [useSafeSFWebSocket]) *)
(* ================================================================== *)

Module Live.

Import AgentStore.

Definition type_of_name (s : string) : option CacheEventType :=
  if String.eqb s "session_started" then Some session_started
  else if String.eqb s "agent_spawned" then Some agent_spawned
  else if String.eqb s "tool_called" then Some tool_called
  else if String.eqb s "tool_result" then Some tool_result
  else if String.eqb s "data_received" then Some data_received
  else if String.eqb s "agent_complete" then Some agent_complete
  else if String.eqb s "session_complete" then Some session_complete
  else if String.eqb s "session_error" then Some session_error
  else if String.eqb s "final_result" then Some final_result
  else None.

(** The cases of the [switch] of [handleEvent]: the nine recordable types,
    ['error'], ['pong'], and [default]. *)
Inductive LiveType : Type :=
| Recordable (t : CacheEventType)
| ErrorMessage
| Pong
| Unknown.

Definition classify (eventType : value) : LiveType :=
  match eventType with
  | VStr s =>
      match type_of_name s with
      | Some t => Recordable t
      | None =>
          if String.eqb s "error" then ErrorMessage
          else if String.eqb s "pong" then Pong
          else Unknown
      end
  | _ => Unknown
  end.

(** The clock readings of one call of the handler, in the order in which
    the source takes them: [Date.now()] in [recordEvent], the reading of
    the [switch], then [new Date()] and [Date.now()] in
    [finalizeRecording].  Nothing is assumed about how they compare. *)
Record Clock : Type := mkClock {
  at_record : Z;
  at_switch : Z;
  at_finalize_date : Z;
  at_finalize : Z
}.

(** The state held by the hook: the application store and
    [recorderRef.current]. *)
Record t : Type := mk {
  store : AgentStore.t;
  recorderRef : option CacheRecorder.t
}.

(** How [startSession] ends: by replaying the cached document, or by
    sending the query to the live connection. *)
Inductive Started : Type :=
| Replaying (cached : value)
| Querying (query : string).

Section WithPlatform.

Context `{Platform}.

(** The effect of the [switch] on the application store; [now] is the
    clock reading of the case that is taken. *)
Definition dispatch (message : obj) (now : Z) (s : AgentStore.t) : AgentStore.t :=
  match classify (field "type" message) with
  | Recordable session_started =>
      let s1 := setSessionStatus running (field "request_id" message) VUndef s in
      let s2 := setStartTime now s1 in
      addAgent
        (new_agent (or (field "request_id" message) (VStr "orchestrator"))
                   (VStr "orchestrator")
                   (or (field "description" message) (VStr "Processing query"))
                   VUndef
                   (toISOString now)) s2
  | Recordable agent_spawned =>
      addAgent
        (new_agent (or (field "agent_id" message) (VStr ("agent-" ++ pretty now)))
                   (or (field "agent_type" message) (VStr "data-agent"))
                   (field "description" message)
                   (field "input_id" message)
                   (toISOString now)) s
  | Recordable tool_called =>
      let toolCall := new_toolCall now (or (field "tool_name" message) (VStr "unknown"))
                                       (or (field "tool_input" message) (VObj [])) in
      if truthy (field "agent_id" message)
      then addToolCall (field "agent_id" message) toolCall s
      else s
  | Recordable tool_result =>
      if truthy (field "agent_id" message) then
        (* Find the last running tool call for this agent *)
        let agent := find_agent (field "agent_id" message) s in
        match find_running agent with
        | Some runningTool =>
            let resultData :=
              or (or (or (field "tool_result" message) (field "data" message))
                     (field "coordinates" message)) VNull in
            completeToolCall (field "agent_id" message) (ToolCall.id runningTool)
              {| ToolCall.p_id := None; ToolCall.p_name := None;
                 ToolCall.p_input := None;
                 ToolCall.p_status := Some (VStr "complete");
                 ToolCall.p_result := Some resultData;
                 ToolCall.p_rowCount := Some (field "row_count" message);
                 ToolCall.p_error := None |} s
        | None => s
        end
      else s
  | Recordable data_received => s
  | Recordable agent_complete =>
      if truthy (field "agent_id" message) then
        updateAgent (field "agent_id" message)
          {| Agent.p_id := None; Agent.p_type := None;
             Agent.p_description := None;
             Agent.p_status :=
               Some (if strict_eq (field "status" message) (VStr "completed")
                     then VStr "complete" else field "status" message);
             Agent.p_inputId := None; Agent.p_toolCalls := None;
             Agent.p_startedAt := None;
             Agent.p_completedAt := Some (VStr (toISOString now));
             Agent.p_error := None;
             Agent.p_output := Some (field "output_summary" message) |} s
      else s
  | Recordable session_complete =>
      let s1 := setSessionStatus complete VUndef VUndef s in
      let s2 := if truthy (field "duration_ms" message)
                then setDuration (field "duration_ms" message) s1 else s1 in
      let s3 := if truthy (field "flow_trace" message)
                then setFlowTrace (field "flow_trace" message) s2 else s2 in
      if truthy (field "final_response" message)
      then setFinalResult (result_of (field "final_response" message)) s3
      else s3
  | Recordable session_error =>
      setSessionStatus error VUndef (field "error" message) s
  | Recordable final_result =>
      let s1 := setSessionStatus complete VUndef VUndef s in
      let s2 := if truthy (field "duration_ms" message)
                then setDuration (field "duration_ms" message) s1 else s1 in
      let s3 := if truthy (field "flow_trace" message)
                then setFlowTrace (field "flow_trace" message) s2 else s2 in
      setFinalResult (result_of (VObj message)) s3
  | ErrorMessage =>
      setSessionStatus error VUndef (field "error" message) s
  | Pong => s
  | Unknown => s
  end.

(** The [console] call of the case that is taken; ['pong'] has none. *)
Definition console_call (message : obj) (now : Z) : option Diagnostic :=
  match classify (field "type" message) with
  | Recordable session_started =>
      Some (Log_WS_SessionStarted (field "request_id" message))
  | Recordable agent_spawned =>
      Some (Log_WS_AgentSpawned
              (or (field "agent_id" message) (VStr ("agent-" ++ pretty now)))
              (or (field "agent_type" message) (VStr "data-agent")))
  | Recordable tool_called =>
      Some (Log_WS_ToolCalled (field "agent_id" message)
              (or (field "tool_name" message) (VStr "unknown")))
  | Recordable tool_result =>
      Some (Log_WS_ToolResult (field "agent_id" message) (field "row_count" message))
  | Recordable data_received =>
      Some (Log_WS_DataReceived (field "row_count" message))
  | Recordable agent_complete =>
      Some (Log_WS_AgentComplete (field "agent_id" message))
  | Recordable session_complete =>
      Some (Log_WS_SessionComplete (field "duration_ms" message))
  | Recordable session_error =>
      Some (Error_WS_SessionError (field "error" message))
  | Recordable final_result => Some Log_WS_FinalResult
  | ErrorMessage => Some (Error_WS_Error (field "error" message))
  | Pong => None
  | Unknown => Some (Log_WS_Unknown (field "type" message) message)
  end.

Definition print_call (call : option Diagnostic) : Eff.t unit :=
  match call with
  | Some d => Eff.print d
  | None => Eff.ret tt
  end.

(** [if (shouldRecord && recorderRef.current && !recorderRef.current.isFinalized)] *)
Definition record_if_active (message : obj) (shouldRecord : bool) (now : Z)
    (ref : option CacheRecorder.t) : Eff.t (option CacheRecorder.t) :=
  match ref with
  | Some recorder =>
      if shouldRecord && negb (CacheRecorder.isFinalized recorder) then
        match classify (field "type" message) with
        | Recordable eventType =>
            let* recorder' := Recorder.recordEvent recorder eventType message now in
            Eff.ret (Some recorder')
        | _ => Eff.ret ref
        end
      else Eff.ret ref
  | None => Eff.ret None
  end.

(** [if (recorderRef.current && !recorderRef.current.isFinalized)
       { finalizeRecording(recorderRef.current); recorderRef.current = null; }] *)
Definition finalize_if_active (date now : Z) (ref : option CacheRecorder.t)
  : Eff.t (option CacheRecorder.t) :=
  match ref with
  | Some recorder =>
      if negb (CacheRecorder.isFinalized recorder) then
        Recorder.finalizeRecording recorder date now ;;;
        Eff.ret None
      else Eff.ret ref
  | None => Eff.ret None
  end.

(** The store actions of the [switch] print nothing, so its one [console]
    call is placed after them; in the two cases that end a session it
    follows the finalization, as in the source. *)
Definition handleEvent (message : obj) (shouldRecord : bool) (clock : Clock) (st : t)
  : Eff.t t :=
  let* ref := record_if_active message shouldRecord (at_record clock) (recorderRef st) in
  let store' := dispatch message (at_switch clock) (store st) in
  let* ref' :=
    match classify (field "type" message) with
    | Recordable session_complete | Recordable final_result =>
        finalize_if_active (at_finalize_date clock) (at_finalize clock) ref
    | _ => Eff.ret ref
    end in
  print_call (console_call message (at_switch clock)) ;;;
  Eff.ret {| store := store'; recorderRef := ref' |}.

(** [startSession], up to the point where it either replays the cached
    document or sends the query. *)
Definition startSession (query : string) (now : Z) (st : t) : Eff.t (t * Started) :=
  Eff.print Log_WS_Resetting ;;;
  let store0 := reset (store st) in
  fun w =>
    if Storage.isCacheEnabled w then
      (let* cached := Storage.getCache query in
       match cached with
       | Some c =>
           Eff.print Log_Cache_HitReplaying ;;;
           Eff.ret ({| store := store0; recorderRef := recorderRef st |}, Replaying c)
       | None =>
           Eff.print Log_Cache_MissRecording ;;;
           let* recorder := Recorder.createRecorder query now in
           Eff.ret ({| store := store0; recorderRef := Some recorder |}, Querying query)
       end) w
    else
      Eff.ret ({| store := store0; recorderRef := recorderRef st |}, Querying query) w.

End WithPlatform.

End Live.

(* ================================================================== *)
(** ** A concrete platform, for evaluating the code on examples *)
(* ================================================================== *)

Module Demo.

Definition dquote : string := String (ascii_of_nat 34) EmptyString.

(** JSON text of a value (strings are printed without escapes). *)
Fixpoint print (v : value) : string :=
  match v with
  | VUndef => "undefined"
  | VNull => "null"
  | VBool true => "true"
  | VBool false => "false"
  | VNum n => pretty n
  | VStr s => dquote ++ s ++ dquote
  | VArr l =>
      "[" ++ (fix items (l : list value) : string :=
                match l with
                | [] => ""
                | [x] => print x
                | x :: rest => print x ++ "," ++ items rest
                end) l ++ "]"
  | VObj o =>
      "{" ++ (fix fields (o : list (string * value)) : string :=
                match o with
                | [] => ""
                | [(k, x)] => dquote ++ k ++ dquote ++ ":" ++ print x
                | (k, x) :: rest => dquote ++ k ++ dquote ++ ":" ++ print x ++ "," ++ fields rest
                end) o ++ "}"
  end.

(** A parser that knows the documents [docs]: the text of one of them
    parses to it, any other text is a syntax error. *)
Definition parse_among (docs : list value) (s : string) : option value :=
  List.find (fun v => String.eqb (print v) s) docs.

(** The platform: every write fits the quota, and a time stamp is
    rendered as its number of milliseconds. *)
Definition platform (docs : list value) : Platform :=
  {| JSON_parse := parse_among docs;
     JSON_stringify := print;
     toISOString := fun ms => "epoch+" ++ pretty ms ++ "ms";
     storage_accepts := fun _ _ _ => true;
     ToString := print |}.

(** A browser with an empty storage and no arrays. *)
Definition browser (flag : option string) : World :=
  {| hasWindow := true;
     NEXT_PUBLIC_CACHE_ENABLED := flag;
     localStorage := ∅;
     heap := [];
     console := [] |}.

End Demo.

(* ================================================================== *)
(** ** Statements of the specification *)
(* ================================================================== *)

(** The wait of the specification:
    [clamp(round(delay * REPLAY_SPEED), MIN_DELAY, MAX_DELAY)] with
    [REPLAY_SPEED = 0.15], [MIN_DELAY = 50], [MAX_DELAY = 800]. *)
Definition clamp (x lo hi : Z) : Z :=
  if x <? lo then lo else if hi <? x then hi else x.

Definition spec_wait (delay : Z) : Z :=
  clamp (Qfloor (inject_Z delay * (15 # 100) + (1 # 2))) 50 800.

(** The schedule of the specification: the first event at once, every
    later event after its wait. *)
Definition spec_schedule (events : list CacheEvent.t) : list Player.Step :=
  match events with
  | [] => []
  | first :: rest =>
      Player.Apply first ::
      flat_map (fun e => [Player.Sleep (spec_wait (CacheEvent.delay e)); Player.Apply e]) rest
  end.

(** *** The same computation in IEEE 754 binary64

    The source multiplies in double precision.  [scaleDelay_binary64]
    evaluates [Math.round(originalDelay * 0.15)] on binary64 numbers, to
    compare it with the exact [Player.scaleDelay]. *)

Definition b64_of_Z (z : Z) : SpecFloat.spec_float :=
  SpecFloat.binary_normalize 53 1024 z 0 false.

(** The double nearest to [0.15]: [5404319552844595 * 2^-55]. *)
Definition b64_REPLAY_SPEED : SpecFloat.spec_float :=
  SpecFloat.S754_finite false 5404319552844595 (-55).

(** [Math.round] of a double; [None] on infinities and NaN. *)
Definition b64_round (x : SpecFloat.spec_float) : option Z :=
  match x with
  | SpecFloat.S754_zero _ => Some 0
  | SpecFloat.S754_finite s m e =>
      let n := if s then Z.neg m else Z.pos m in
      Some (if 0 <=? e then n * 2 ^ e else (2 * n + 2 ^ (- e)) / 2 ^ (1 - e))
  | _ => None
  end.

Definition scaleDelay_binary64 (d : Z) : option Z :=
  match b64_round (SpecFloat.SFmul 53 1024 (b64_of_Z d) b64_REPLAY_SPEED) with
  | Some scaled => Some (Z.max Player.MIN_DELAY (Z.min Player.MAX_DELAY scaled))
  | None => None
  end.

(** *** Replay against the live handler *)

(** The event that the live handler records for [message]: the recorder
    stores the whole message as the event's [data]. *)
Definition recorded_as (message : obj) (e : CacheEvent.t) : Prop :=
  CacheEvent.data e = message /\
  Live.classify (field "type" message) = Live.Recordable (CacheEvent.type e).

(** The events applied by a replay, in the order of their application. *)
Fixpoint applied (trace : list Player.Step) : list CacheEvent.t :=
  match trace with
  | [] => []
  | Player.Sleep _ :: rest => applied rest
  | Player.Apply e :: rest => e :: applied rest
  end.

(** A tool event that has nothing to act on: it names no agent, or (for a
    result) its agent is not in the store or has no running tool call. *)
Inductive no_target (e : CacheEvent.t) (s : AgentStore.t) : Prop :=
| no_agent_id :
    CacheEvent.type e = tool_called \/ CacheEvent.type e = tool_result ->
    field "agent_id" (CacheEvent.data e) = VUndef ->
    no_target e s
| agent_absent :
    CacheEvent.type e = tool_result ->
    AgentStore.find_agent (field "agent_id" (CacheEvent.data e)) s = None ->
    no_target e s
| no_running_tool (a : Agent.t) :
    CacheEvent.type e = tool_result ->
    AgentStore.find_agent (field "agent_id" (CacheEvent.data e)) s = Some a ->
    Forall (fun tc => AgentStore.is_running tc = false) (Agent.toolCalls a) ->
    no_target e s.

(** *** Example data *)

Module Example.

Definition running_tool (id name : string) : ToolCall.t :=
  {| ToolCall.id := id; ToolCall.name := VStr name; ToolCall.input := VObj [];
     ToolCall.status := VStr "running"; ToolCall.result := VUndef;
     ToolCall.rowCount := VUndef; ToolCall.error := VUndef |}.

Definition agent_with (id : string) (tools : list ToolCall.t) : Agent.t :=
  {| Agent.id := VStr id; Agent.type := VStr "data-agent";
     Agent.description := VStr "Query incidents"; Agent.status := VStr "running";
     Agent.inputId := VUndef; Agent.toolCalls := tools;
     Agent.startedAt := "epoch+1000ms"; Agent.completedAt := VUndef;
     Agent.error := VUndef; Agent.output := VUndef |}.

Definition store_with (l : list Agent.t) : AgentStore.t :=
  AgentStore.with_agents l
    (AgentStore.setSessionStatus running (VStr "req-1") VUndef AgentStore.initialState).

(** One agent with one running tool call. *)
Definition one_tool : AgentStore.t :=
  store_with [agent_with "agent-1" [running_tool "tool-1000" "query_incidents"]].

(** One agent with two running tool calls; ["tool-2000"] was added last. *)
Definition two_tools : AgentStore.t :=
  store_with [agent_with "agent-1" [running_tool "tool-1000" "query_incidents";
                                    running_tool "tool-2000" "query_collisions"]].

(** A [tool_result] message that carries its result rows. *)
Definition tool_result_message : obj :=
  [("type", VStr "tool_result"); ("agent_id", VStr "agent-1");
   ("row_count", VNum 3);
   ("tool_result", VArr [VStr "row-1"; VStr "row-2"; VStr "row-3"])].

(** An [agent_complete] message that reports a failure. *)
Definition agent_failed_message : obj :=
  [("type", VStr "agent_complete"); ("agent_id", VStr "agent-1");
   ("status", VStr "error")].

Definition event_of (type : CacheEventType) (message : obj) (delay : Z) : CacheEvent.t :=
  {| CacheEvent.type := type; CacheEvent.data := message;
     CacheEvent.timestamp := 5000; CacheEvent.delay := delay |}.

(** Tool events without a target. *)
Definition tool_called_without_agent : CacheEvent.t :=
  event_of tool_called [("type", VStr "tool_called"); ("tool_name", VStr "geocode")] 40.

Definition tool_result_unknown_agent : CacheEvent.t :=
  event_of tool_result [("type", VStr "tool_result"); ("agent_id", VStr "agent-9")] 40.

Definition idle_agent_store : AgentStore.t :=
  store_with [agent_with "agent-1" []].

Definition tool_result_agent_1 : CacheEvent.t :=
  event_of tool_result [("type", VStr "tool_result"); ("agent_id", VStr "agent-1")] 40.

End Example.

(** Views of the store used in the statements. *)
Definition tool_statuses (s : AgentStore.t) : list (list (string * value)) :=
  map (fun a => map (fun tc => (ToolCall.id tc, ToolCall.status tc)) (Agent.toolCalls a))
      (AgentStore.agents s).

Definition tool_results (s : AgentStore.t) : list (list value) :=
  map (fun a => map ToolCall.result (Agent.toolCalls a)) (AgentStore.agents s).

Definition agent_statuses (s : AgentStore.t) : list value :=
  map Agent.status (AgentStore.agents s).

(** *** The cache store *)

(** The storage key under which [getCache] looks a prompt up. *)
Definition key_of_prompt (prompt : string) : string :=
  Storage.CACHE_PREFIX ++ Storage.hashPrompt (trim (toLowerCase prompt)).

Module StoreExample.

(** A complete recording of one event, as a stored document. *)
Definition recording (prompt : string) (complete : bool) (events : list value) : value :=
  VObj [("promptHash", VStr (Storage.hashPrompt (trim (toLowerCase prompt))));
        ("prompt", VStr prompt);
        ("events", VArr events);
        ("recordedAt", VStr "epoch+9000ms");
        ("totalDuration", VNum 1700);
        ("isComplete", VBool complete)].

Definition started : value :=
  CacheEvent.to_value
    {| CacheEvent.type := session_started;
       CacheEvent.data := [("type", VStr "session_started"); ("request_id", VStr "req-1")];
       CacheEvent.timestamp := 7300; CacheEvent.delay := 0 |}.

Definition valid : value := recording "Is Union Square safe at night?" true [started].
Definition incomplete : value := recording "Is Union Square safe at night?" false [started].
Definition empty : value := recording "Is Union Square safe at night?" true [].

Definition docs : list value := [valid; incomplete; empty].

Definition platform : Platform := Demo.platform docs.

(** A browser whose storage holds [text] for the prompt. *)
Definition browser_with (flag : option string) (text : string) : World :=
  set_localStorage
    (<[key_of_prompt "Is Union Square safe at night?" := text]> ∅)
    (Demo.browser flag).

End StoreExample.

(** C5 as the specification states it: with the flag off, every [get]
    is absent and every [save] leaves the storage as it was. *)
Definition disabled_store_is_inert (P : Platform) (w : World) : Prop :=
  Storage.isCacheEnabled w = false ->
  (forall prompt, snd (Storage.getCache prompt w) = Some None) /\
  (forall cache, localStorage (fst (Storage.saveCache cache w)) = localStorage w).

(** The state [w'] is the state [w] with [out] printed: nothing but the
    console differs. *)
Definition prints (w w' : World) (out : list Diagnostic) : Prop :=
  hasWindow w' = hasWindow w
  /\ NEXT_PUBLIC_CACHE_ENABLED w' = NEXT_PUBLIC_CACHE_ENABLED w
  /\ localStorage w' = localStorage w
  /\ heap w' = heap w
  /\ console w' = (console w ++ out)%list.

(** The lines of a [console] call that may be absent. *)
Definition lines (call : option Diagnostic) : list Diagnostic :=
  match call with
  | Some d => [d]
  | None => []
  end.

(** The browser with another value of [NEXT_PUBLIC_CACHE_ENABLED]. *)
Definition set_flag (flag : option string) (w : World) : World :=
  mkWorld (hasWindow w) flag (localStorage w) (heap w) (console w).

(** What the secondary index parses to: the empty array when there is no
    index, [None] when the stored text is not JSON. *)
Definition stored_index `{Platform} (ls : gmap string string) : option value :=
  match Storage.present (ls !! Storage.CACHE_INDEX_KEY) with
  | Some s => JSON_parse s
  | None => Some (VArr [])
  end.

(** The index is an array that lists [hash]. *)
Definition index_lists `{Platform} (ls : gmap string string) (hash : string) : Prop :=
  exists l, stored_index ls = Some (VArr l) /\ In (VStr hash) l.

(** The two ways [saveCache] ends: its last [console.log], or the
    [console.error] of its [catch]. *)
Definition save_done (cache : SessionCache.t) (w : World) : World * option unit :=
  (set_console
     (console w ++ [Log_CacheSaved (slice0 30 (SessionCache.prompt cache))
                      (List.length (deref (heap w) (SessionCache.events cache)))]) w,
   Some tt).

Definition save_failed (w : World) : World * option unit :=
  (set_console (console w ++ [Error_CacheSave]) w, Some tt).

(** *** The recorder *)

(** The recorder after [recorder.isFinalized = true]. *)
Definition sealed (recorder : CacheRecorder.t) : CacheRecorder.t :=
  {| CacheRecorder.promptHash := CacheRecorder.promptHash recorder;
     CacheRecorder.prompt := CacheRecorder.prompt recorder;
     CacheRecorder.events := CacheRecorder.events recorder;
     CacheRecorder.startTime := CacheRecorder.startTime recorder;
     CacheRecorder.lastEventTime := CacheRecorder.lastEventTime recorder;
     CacheRecorder.isFinalized := true |}.

(** The recording that a finalization at clock readings [date] and [now]
    builds.  Its [events] is the reference held by the recorder. *)
Definition snapshot `{Platform} (recorder : CacheRecorder.t) (date now : Z)
  : SessionCache.t :=
  {| SessionCache.promptHash := CacheRecorder.promptHash recorder;
     SessionCache.prompt := CacheRecorder.prompt recorder;
     SessionCache.events := CacheRecorder.events recorder;
     SessionCache.recordedAt := toISOString date;
     SessionCache.totalDuration := now - CacheRecorder.startTime recorder;
     SessionCache.isComplete := true |}.

(** C3 as the specification states it, on aliasing: once the recording is
    returned, a push onto the recorder's array does not change the events
    of the recording. *)
Definition returns_independent_copy (P : Platform) (recorder : CacheRecorder.t)
    (date now : Z) (w : World) : Prop :=
  forall w' recorder' cache,
    Recorder.finalizeRecording recorder date now w = (w', Some (recorder', cache)) ->
    SessionCache.events cache <> CacheRecorder.events recorder' /\
    forall e w'',
      Recorder.array_push (CacheRecorder.events recorder') e w' = (w'', Some tt) ->
      deref (heap w'') (SessionCache.events cache) =
      deref (heap w') (SessionCache.events cache).

(** C4 as the specification states it: a second finalization returns
    normally, leaves the index as it was, and either changes nothing in the
    storage or returns the snapshot of the first. *)
Definition second_finalize_is_noop (P : Platform) (recorder : CacheRecorder.t)
    (date1 now1 date2 now2 : Z) (w : World) : Prop :=
  forall w1 recorder1 cache1,
    Recorder.finalizeRecording recorder date1 now1 w = (w1, Some (recorder1, cache1)) ->
    exists w2 recorder2 cache2,
      Recorder.finalizeRecording recorder1 date2 now2 w1 = (w2, Some (recorder2, cache2))
      /\ localStorage w2 !! Storage.CACHE_INDEX_KEY =
         localStorage w1 !! Storage.CACHE_INDEX_KEY
      /\ (localStorage w2 = localStorage w1 \/ cache2 = cache1).

Module RecorderExample.

Definition query : string := "Is Union Square safe at night?".

Definition started_message : obj :=
  [("type", VStr "session_started"); ("request_id", VStr "req-1")].

(** A recorder created at 7000 ms that recorded one event at 7300 ms,
    and the browser it lives in. *)
Definition recorded_event : CacheEvent.t :=
  {| CacheEvent.type := session_started; CacheEvent.data := started_message;
     CacheEvent.timestamp := 7300; CacheEvent.delay := 300 |}.

Definition recorder : CacheRecorder.t :=
  {| CacheRecorder.promptHash := "uykxbx";
     CacheRecorder.prompt := query;
     CacheRecorder.events := 0%nat;
     CacheRecorder.startTime := 7000;
     CacheRecorder.lastEventTime := 7300;
     CacheRecorder.isFinalized := false |}.

Definition world : World :=
  {| hasWindow := true;
     NEXT_PUBLIC_CACHE_ENABLED := Some "true";
     localStorage := ∅;
     heap := [[recorded_event]];
     console := [Log_Recorded session_started 300] |}.

(** A platform whose parser knows the index that lists the recorder. *)
Definition platform : Platform :=
  Demo.platform [VArr [VStr (CacheRecorder.promptHash recorder)]].

Definition late_event : CacheEvent.t :=
  {| CacheEvent.type := data_received; CacheEvent.data := [("type", VStr "data_received")];
     CacheEvent.timestamp := 9500; CacheEvent.delay := 500 |}.

End RecorderExample.

(** *** Listing the cached prompts *)

(** What loading the entry of an index element gives: its [prompt], the
    empty string when there is no entry, [None] when the entry cannot be
    read (its text is not JSON, or it is the JSON [null]). *)
Definition load_prompt `{Platform} (ls : gmap string string) (hash : value)
  : option value :=
  match Storage.present (ls !! Storage.entry_key hash) with
  | Some s =>
      match JSON_parse s with
      | Some session => prop session "prompt"
      | None => None
      end
  | None => Some (VStr "")
  end.

Fixpoint load_all `{Platform} (ls : gmap string string) (index : list value)
  : option (list value) :=
  match index with
  | [] => Some []
  | hash :: rest =>
      match load_prompt ls hash with
      | Some p =>
          match load_all ls rest with
          | Some ps => Some (p :: ps)
          | None => None
          end
      | None => None
      end
  end.




Module ListExample.

Definition index_of (hashes : list string) : value := VArr (map VStr hashes).

Definition platform : Platform :=
  Demo.platform [StoreExample.valid; index_of ["uykxbx"; "zzz"]; VNull].

(** A storage with the index [hashes] and the valid recording of the
    prompt (hash ["uykxbx"]); [other] is the text stored for hash ["zzz"]. *)
Definition browser (other : option string) : World :=
  let ls0 : gmap string string :=
    <[Storage.CACHE_INDEX_KEY := Demo.print (index_of ["uykxbx"; "zzz"])]>
      (<["safesf_cache_uykxbx" := Demo.print StoreExample.valid]> ∅) in
  set_localStorage
    (match other with
     | Some text => <["safesf_cache_zzz" := text]> ls0
     | None => ls0
     end)
    (Demo.browser (Some "true")).

End ListExample.

(** Several appends in a row, each on the recorder left by the previous
    one. *)
Fixpoint record_all (recorder : CacheRecorder.t)
    (appends : list (CacheEventType * obj * Z)) : Eff.t CacheRecorder.t :=
  match appends with
  | [] => Eff.ret recorder
  | (type, data, now) :: rest =>
      let* recorder' := Recorder.recordEvent recorder type data now in
      record_all recorder' rest
  end.

(** *** A live session, end to end *)

(** The live handler applied to the messages of a session, each with the
    clock readings of its handling. *)
Fixpoint run_live `{Platform} (messages : list (obj * Live.Clock)) (st : Live.t)
  : Eff.t Live.t :=
  match messages with
  | [] => Eff.ret st
  | (message, clock) :: rest =>
      let* st' := Live.handleEvent message true clock st in
      run_live rest st'
  end.

Module SessionExample.

(** The handling of a message that arrives at [t]: one millisecond passes
    between two readings of the clock. *)
Definition ticking (t : Z) : Live.Clock := Live.mkClock t (t + 1) (t + 2) (t + 3).

Definition messages : list (obj * Live.Clock) :=
  [([("type", VStr "session_started"); ("request_id", VStr "req-1")], ticking 7000);
   ([("type", VStr "agent_spawned"); ("agent_id", VStr "agent-1");
     ("agent_type", VStr "data-agent")], ticking 7100);
   ([("type", VStr "tool_called"); ("agent_id", VStr "agent-1");
     ("tool_name", VStr "query_incidents")], ticking 7200);
   (Example.tool_result_message, ticking 7900);
   ([("type", VStr "session_complete"); ("duration_ms", VNum 1000)], ticking 8000)].

(** The session as [startSession] starts it on a cache miss: a fresh
    store and a recorder created at 6990 ms; then the five messages. *)
Definition live : World * option Live.t :=
  (let* started := Live.startSession (H := Demo.platform []) RecorderExample.query 6990
                     {| Live.store := AgentStore.initialState; Live.recorderRef := None |} in
   run_live (H := Demo.platform []) messages (fst started))
    (Demo.browser (Some "true")).

(** The events that the session left in the recorder's array. *)
Definition recorded : list CacheEvent.t := deref (heap (fst live)) 0%nat.

Definition live_store : AgentStore.t :=
  match snd live with
  | Some st => Live.store st
  | None => AgentStore.initialState
  end.

(** The replay of the recorded events on a fresh store, event [i] being
    processed at [20000 + 100 * i] ms. *)
Definition replayed_store : AgentStore.t :=
  fst (Player.replay_from (H := Demo.platform [])
         (fun i => 20000 + 100 * Z.of_nat i) 0 recorded
         (AgentStore.setStartTime 20000 AgentStore.initialState)).

End SessionExample.

(* ================================================================== *)
(** ** Further code of the cache modules *)
(* ================================================================== *)

(** *** [clearAllCache] ([web/lib/cache/storage.ts]) *)







(** *** Views used in the statements *)

(** The normal form of a prompt: [prompt.toLowerCase().trim()]. *)
Definition normalize (prompt : string) : string := trim (toLowerCase prompt).

(** The total time a replay is suspended. *)
Fixpoint total_wait (trace : list Player.Step) : Z :=
  match trace with
  | [] => 0
  | Player.Sleep ms :: rest => ms + total_wait rest
  | Player.Apply _ :: rest => total_wait rest
  end.

(** The events that register an agent. *)
Definition registers_agent (e : CacheEvent.t) : bool :=
  match CacheEvent.type e with
  | session_started | agent_spawned => true
  | _ => false
  end.

(** The events that [recordEvent] appends for the appends [(type, data,
    now)], the previous event (or the creation) having been at [last]. *)
Fixpoint events_of_appends (last : Z) (appends : list (CacheEventType * obj * Z))
  : list CacheEvent.t :=
  match appends with
  | [] => []
  | (type, data, now) :: rest =>
      {| CacheEvent.type := type; CacheEvent.data := data;
         CacheEvent.timestamp := now; CacheEvent.delay := now - last |}
      :: events_of_appends now rest
  end.

(** The clock reading of the last append, [last] when there is none. *)
Fixpoint last_time (last : Z) (appends : list (CacheEventType * obj * Z)) : Z :=
  match appends with
  | [] => last
  | (_, _, now) :: rest => last_time now rest
  end.

(** The clock readings of the appends never go back. *)
Fixpoint clock_monotone (last : Z) (appends : list (CacheEventType * obj * Z)) : Prop :=
  match appends with
  | [] => True
  | (_, _, now) :: rest => last <= now /\ clock_monotone now rest
  end.

(** The value of a string of base-36 digits ([0]-[9], [a]-[z]), read from
    the left onto [acc]. *)
Definition digit_value (c : ascii) : Z :=
  let n := Z.of_nat (nat_of_ascii c) in
  if n <? 58 then n - 48 else n - 87.

Fixpoint parse36_onto (s : string) (acc : Z) : Z :=
  match s with
  | EmptyString => acc
  | String c rest => parse36_onto rest (acc * 36 + digit_value c)
  end.

Definition parse36 (s : string) : Z := parse36_onto s 0.

(** The id under which an event registers an agent, if it registers one. *)
Definition registered_id (e : CacheEvent.t) : option value :=
  match CacheEvent.type e with
  | session_started =>
      Some (or (field "request_id" (CacheEvent.data e)) (VStr "orchestrator"))
  | agent_spawned => Some (field "agent_id" (CacheEvent.data e))
  | _ => None
  end.

Fixpoint registered_ids (events : list CacheEvent.t) : list value :=
  match events with
  | [] => []
  | e :: rest =>
      match registered_id e with
      | Some id => id :: registered_ids rest
      | None => registered_ids rest
      end
  end.

(** The session part of the application state: everything but the agents. *)
Definition session_fields (s : AgentStore.t)
  : value * SessionStatus * value * option Z * value * option SafetyResult.t * value :=
  (AgentStore.sessionId s, AgentStore.sessionStatus s, AgentStore.sessionError s,
   AgentStore.startTime s, AgentStore.duration s, AgentStore.finalResult s,
   AgentStore.flowTrace s).

Module RoundTripExample.

(** The document of the example recorder finalized at 9000 ms, and a
    platform whose parser knows it and the index that lists it. *)
Definition doc : value :=
  Storage.SessionCache_to_value (heap RecorderExample.world)
    (snapshot (H := Demo.platform []) RecorderExample.recorder 9000 9000).

Definition platform : Platform :=
  Demo.platform [doc; VArr [VStr "uykxbx"]].

End RoundTripExample.


Module ClearExample.


Definition no_window : World := mkWorld false (Some "true") ∅ [] [].

End ClearExample.

(** The sum of the delays of a sequence of events. *)
Definition sum_delays (events : list CacheEvent.t) : Z :=
  fold_right (fun e acc => CacheEvent.delay e + acc) 0 events.

(** The state of a live recorder: its array exists, and the delays
    recorded so far add up to the time between its creation and its last
    event. *)
Definition recorder_consistent (w : World) (recorder : CacheRecorder.t) : Prop :=
  (CacheRecorder.events recorder < List.length (heap w))%nat
  /\ sum_delays (deref (heap w) (CacheRecorder.events recorder)) =
     CacheRecorder.lastEventTime recorder - CacheRecorder.startTime recorder.

(** A string that does not begin with white space. *)
Definition starts_clean (s : string) : Prop :=
  match s with
  | EmptyString => True
  | String c _ => is_space c = false
  end.

(** The tool call that a [tool_called] event with payload [called],
    processed at [now], leaves once a [tool_result] with payload [result]
    has completed it in the player. *)
Definition completed_toolCall (now : Z) (called result : obj) : ToolCall.t :=
  {| ToolCall.id := "tool-" ++ pretty now;
     ToolCall.name := or (field "tool_name" called) (VStr "unknown");
     ToolCall.input := or (field "tool_input" called) (VObj []);
     ToolCall.status := VStr "complete";
     ToolCall.result := VUndef;
     ToolCall.rowCount := field "row_count" result;
     ToolCall.error := VUndef |}.

(** The appends that the live handler makes for the messages of a session:
    one for every message whose type is one of the nine recordable types,
    with the whole message as data and the reading of [recordEvent] as
    time. *)
Fixpoint recordable_appends (messages : list (obj * Live.Clock))
  : list (CacheEventType * obj * Z) :=
  match messages with
  | [] => []
  | (message, clock) :: rest =>
      match Live.classify (field "type" message) with
      | Live.Recordable type =>
          (type, message, Live.at_record clock) :: recordable_appends rest
      | _ => recordable_appends rest
      end
  end.

(** A message that does not end the session. *)
Definition not_terminal (m : obj * Live.Clock) : Prop :=
  Live.classify (field "type" (fst m)) <> Live.Recordable session_complete /\
  Live.classify (field "type" (fst m)) <> Live.Recordable final_result.

(* ================================================================== *)
(** * Properties *)
(* ================================================================== *)

(** ** Delay scaling and the replay schedule *)

Lemma scaleDelay_clamp (d : Z) : Player.scaleDelay d = spec_wait d.
Proof.
  unfold Player.scaleDelay, spec_wait, clamp, Player.Math_round,
    Player.REPLAY_SPEED, Player.MIN_DELAY, Player.MAX_DELAY.
  set (x := Qfloor _).
  destruct (Z.ltb_spec x 50); destruct (Z.ltb_spec 800 x); lia.
Qed.

Lemma scaleDelay_bounds (d : Z) :
  Player.MIN_DELAY <= Player.scaleDelay d <= Player.MAX_DELAY.
Proof.
  unfold Player.scaleDelay, Player.MIN_DELAY, Player.MAX_DELAY. lia.
Qed.

(** For every delay up to 5400 ms, double precision gives the wait of the
    exact computation (from 5330 ms on, the exact wait is the maximum). *)
Lemma scaleDelay_binary64_agrees :
  forallb (fun n => match scaleDelay_binary64 (Z.of_nat n) with
                    | Some x => x =? Player.scaleDelay (Z.of_nat n)
                    | None => false
                    end) (seq 0 (Z.to_nat 5401)) = true.
Proof. vm_compute. reflexivity. Qed.

Section Replay.

Context `{Platform}.

Lemma replay_from_later (clock : nat -> Z) (events : list CacheEvent.t) :
  forall (i : nat) (s : AgentStore.t),
    (0 < i)%nat ->
    snd (Player.replay_from clock i events s) =
    flat_map (fun e => [Player.Sleep (spec_wait (CacheEvent.delay e)); Player.Apply e]) events.
Proof.
  induction events as [|e rest IH]; intros i s Hi; [reflexivity|].
  cbn [Player.replay_from flat_map].
  specialize (IH (S i) (Player.processEvent (clock i) e s) ltac:(lia)).
  destruct (Player.replay_from clock (S i) rest _) as [s'' trace].
  cbn [snd] in *. rewrite IH.
  destruct i; [lia|]. cbn. now rewrite scaleDelay_clamp.
Qed.

Lemma replay_from_schedule (clock : nat -> Z) (events : list CacheEvent.t)
    (s : AgentStore.t) :
  snd (Player.replay_from clock 0 events s) = spec_schedule events.
Proof.
  destruct events as [|e rest]; [reflexivity|].
  cbn [Player.replay_from spec_schedule].
  pose proof (replay_from_later clock rest 1 (Player.processEvent (clock 0%nat) e s)
                ltac:(lia)) as IH.
  destruct (Player.replay_from clock 1 rest _) as [s'' trace].
  cbn [snd] in *. now rewrite IH.
Qed.

End Replay.

(** C2. Replaying a recording applies the event at index 0 at once and
    waits [clamp(round(delay * 0.15), 50, 800)] before each later event;
    a stored delay of 1200 waits 180, one of 10 waits 50 and one of 100000
    waits 800. *)
Theorem replay_waits_scaled_and_clamped :
  (forall (P : Platform) (h : list (list CacheEvent.t)) (cache : SessionCache.t)
          (start : Z) (clock : nat -> Z) (s : AgentStore.t),
      snd (Player.replayCache h cache start clock s) =
      spec_schedule (deref h (SessionCache.events cache)))
  /\ Player.REPLAY_SPEED = 15 # 100
  /\ Player.MIN_DELAY = 50
  /\ Player.MAX_DELAY = 800
  /\ Player.scaleDelay 1200 = 180
  /\ Player.scaleDelay 10 = 50
  /\ Player.scaleDelay 100000 = 800.
Proof.
  split; [|repeat split].
  intros P h cache start clock s. unfold Player.replayCache.
  apply replay_from_schedule.
Qed.

(** ** The player and the live handler *)

Section PlayerAndLive.

Context `{Platform}.

Lemma find_none_of_Forall {A} (p : A -> bool) (l : list A) :
  Forall (fun x => p x = false) l -> List.find p l = None.
Proof.
  induction 1 as [|x l Hx _ IH]; [reflexivity|].
  cbn. now rewrite Hx.
Qed.

Lemma replay_from_applied (clock : nat -> Z) (events : list CacheEvent.t) :
  forall (i : nat) (s : AgentStore.t),
    applied (snd (Player.replay_from clock i events s)) = events.
Proof.
  induction events as [|e rest IH]; intros i s; [reflexivity|].
  cbn [Player.replay_from].
  specialize (IH (S i) (Player.processEvent (clock i) e s)).
  destruct (Player.replay_from clock (S i) rest _) as [s'' trace].
  cbn [snd] in *. destruct (0 <? i)%nat; cbn; now rewrite IH.
Qed.

Lemma replay_from_store (clock : nat -> Z) (events : list CacheEvent.t) :
  forall (i : nat) (s : AgentStore.t),
    fst (Player.replay_from clock i events s) =
    fold_left (fun st ke => Player.processEvent (clock (fst ke)) (snd ke) st)
              (combine (seq i (List.length events)) events) s.
Proof.
  induction events as [|e rest IH]; intros i s; [reflexivity|].
  cbn [Player.replay_from].
  specialize (IH (S i) (Player.processEvent (clock i) e s)).
  destruct (Player.replay_from clock (S i) rest _) as [s'' trace].
  cbn [fst] in *. now rewrite IH.
Qed.

(** Replay applies every stored event exactly once, in stored order. *)
Lemma replay_applies_each_event_once (h : list (list CacheEvent.t))
    (cache : SessionCache.t) (start : Z) (clock : nat -> Z) (s : AgentStore.t) :
  let events := deref h (SessionCache.events cache) in
  applied (snd (Player.replayCache h cache start clock s)) = events /\
  fst (Player.replayCache h cache start clock s) =
  fold_left (fun st ke => Player.processEvent (clock (fst ke)) (snd ke) st)
            (combine (seq 0 (List.length events)) events)
            (AgentStore.setStartTime start s).
Proof.
  cbn zeta. unfold Player.replayCache. split.
  - apply replay_from_applied.
  - apply replay_from_store.
Qed.

(** On the event types other than [agent_spawned], [tool_result] and
    [agent_complete], the player changes the store as the live handler
    does, up to the start time that the live handler sets on
    [session_started]. *)
Lemma replay_agrees_with_live (message : obj) (e : CacheEvent.t) (now : Z)
    (s : AgentStore.t) :
  recorded_as message e ->
  match CacheEvent.type e with
  | agent_spawned | tool_result | agent_complete => True
  | session_started =>
      Live.dispatch message now s =
      AgentStore.setStartTime now (Player.processEvent now e s)
  | _ => Live.dispatch message now s = Player.processEvent now e s
  end.
Proof.
  intros [Hdata Hclass]. unfold Live.dispatch, Player.processEvent.
  rewrite Hclass, Hdata.
  destruct (CacheEvent.type e); try exact I; try reflexivity.
Qed.

End PlayerAndLive.

(** C10. During replay a [tool_called] or [tool_result] event without an
    [agent_id], and a [tool_result] event whose agent is not in the store
    or has no running tool call, leave the store unchanged. *)
Theorem replay_tool_event_without_target_is_inert
    (P : Platform) (now : Z) (e : CacheEvent.t) (s : AgentStore.t) :
  no_target e s -> Player.processEvent now e s = s.
Proof.
  intros [Htype Hid | Htype Hfind | a Htype Hfind Hnone]; unfold Player.processEvent.
  - destruct Htype as [-> | ->]; now rewrite Hid.
  - rewrite Htype, Hfind. cbn. now destruct (truthy _).
  - rewrite Htype, Hfind. cbn.
    rewrite (find_none_of_Forall _ _ Hnone). now destruct (truthy _).
Qed.

Lemma replay_tool_event_without_target_is_inert_witness :
  Player.processEvent (H := Demo.platform []) 7000
    Example.tool_called_without_agent Example.one_tool = Example.one_tool
  /\ Player.processEvent (H := Demo.platform []) 7000
    Example.tool_result_unknown_agent Example.one_tool = Example.one_tool
  /\ Player.processEvent (H := Demo.platform []) 7000
    Example.tool_result_agent_1 Example.idle_agent_store = Example.idle_agent_store.
Proof.
  split; [|split].
  - apply (replay_tool_event_without_target_is_inert (Demo.platform []) 7000
             Example.tool_called_without_agent Example.one_tool).
    apply no_agent_id; [left|]; reflexivity.
  - apply (replay_tool_event_without_target_is_inert (Demo.platform []) 7000
             Example.tool_result_unknown_agent Example.one_tool).
    apply agent_absent; reflexivity.
  - apply (replay_tool_event_without_target_is_inert (Demo.platform []) 7000
             Example.tool_result_agent_1 Example.idle_agent_store).
    apply (no_running_tool _ _ (Example.agent_with "agent-1" []));
      [reflexivity | reflexivity | constructor].
Defined.

(** The tool call selected on a [tool_result] is the first one, in order
    of addition, that is still running. *)
Lemma find_running_is_first (a : Agent.t) (tc : ToolCall.t) :
  AgentStore.find_running (Some a) = Some tc ->
  exists before after,
    Agent.toolCalls a = (before ++ tc :: after)%list /\
    Forall (fun x => AgentStore.is_running x = false) before /\
    AgentStore.is_running tc = true.
Proof.
  cbn. induction (Agent.toolCalls a) as [|x l IH]; [discriminate|].
  cbn. destruct (AgentStore.is_running x) eqn:Hx.
  - intros [= ->]. exists [], l. repeat split; [constructor | exact Hx].
  - intros Hfind. destruct (IH Hfind) as (before & after & -> & Hb & Ht).
    exists (x :: before), after. repeat split; [constructor; assumption | exact Ht].
Qed.

(** C7. Evaluation at an agent with two running tool calls: the
    [tool_result] event completes ["tool-1000"], the one added first, and
    the most recently added ["tool-2000"] stays running, both in the player
    and in the live handler. *)
Theorem tool_result_completes_first_running_tool (P : Platform) (now : Z) :
  tool_statuses Example.two_tools =
    [[("tool-1000", VStr "running"); ("tool-2000", VStr "running")]]
  /\ tool_statuses
       (Player.processEvent now
          (Example.event_of tool_result Example.tool_result_message 40)
          Example.two_tools) =
     [[("tool-1000", VStr "complete"); ("tool-2000", VStr "running")]]
  /\ tool_statuses (Live.dispatch Example.tool_result_message now Example.two_tools) =
     [[("tool-1000", VStr "complete"); ("tool-2000", VStr "running")]].
Proof. repeat split. Qed.

(** C1. Evaluation at a recorded [tool_result] that carries its result
    and at a recorded [agent_complete] that reports status ["error"]: the
    live handler attaches the result and writes the reported status, the
    player attaches no result and writes ["complete"], so replay leaves a
    store different from the one the live handler leaves. *)
Theorem replay_differs_from_live (P : Platform) (now : Z) :
  let result_event := Example.event_of tool_result Example.tool_result_message 40 in
  let failed_event := Example.event_of agent_complete Example.agent_failed_message 40 in
  recorded_as Example.tool_result_message result_event
  /\ tool_results (Live.dispatch Example.tool_result_message now Example.one_tool) =
     [[VArr [VStr "row-1"; VStr "row-2"; VStr "row-3"]]]
  /\ tool_results (Player.processEvent now result_event Example.one_tool) = [[VUndef]]
  /\ Player.processEvent now result_event Example.one_tool <>
     Live.dispatch Example.tool_result_message now Example.one_tool
  /\ recorded_as Example.agent_failed_message failed_event
  /\ agent_statuses (Live.dispatch Example.agent_failed_message now Example.one_tool) =
     [VStr "error"]
  /\ agent_statuses (Player.processEvent now failed_event Example.one_tool) =
     [VStr "complete"]
  /\ Player.processEvent now failed_event Example.one_tool <>
     Live.dispatch Example.agent_failed_message now Example.one_tool.
Proof.
  cbn zeta. repeat split.
  - intros Heq. apply (f_equal tool_results) in Heq. discriminate Heq.
  - intros Heq. apply (f_equal agent_statuses) in Heq. discriminate Heq.
Qed.

(** End to end: a live session of five messages, recorded from its
    start, and the replay of what it recorded.  The recording holds the five
    events in their order; the live store holds the rows of the tool result,
    the replayed store holds none. *)
Lemma live_session_replay_loses_tool_result :
  map CacheEvent.type SessionExample.recorded =
    [session_started; agent_spawned; tool_called; tool_result; session_complete]
  /\ map CacheEvent.data SessionExample.recorded = map fst SessionExample.messages
  /\ tool_results SessionExample.live_store =
     [[]; [VArr [VStr "row-1"; VStr "row-2"; VStr "row-3"]]]
  /\ tool_results SessionExample.replayed_store = [[]; [VUndef]].
Proof. vm_compute. repeat split. Qed.

(** ** The recorder *)

(** C9. An append to a finalized recorder returns normally, leaves the
    recorder, its events, the other arrays and the storage as they were,
    and prints one warning. *)
Theorem append_after_finalize_is_inert
    (recorder : CacheRecorder.t) (type : CacheEventType) (data : obj) (now : Z)
    (w : World) :
  CacheRecorder.isFinalized recorder = true ->
  exists w',
    Recorder.recordEvent recorder type data now w = (w', Some recorder)
    /\ heap w' = heap w
    /\ List.length (deref (heap w') (CacheRecorder.events recorder)) =
       List.length (deref (heap w) (CacheRecorder.events recorder))
    /\ localStorage w' = localStorage w
    /\ console w' = (console w ++ [Warn_RecorderFinalized])%list.
Proof.
  intros Hfin. unfold Recorder.recordEvent. rewrite Hfin.
  eexists. split; [reflexivity|]. repeat split.
Qed.

Lemma append_after_finalize_is_inert_witness :
  exists w',
    Recorder.recordEvent (sealed RecorderExample.recorder) data_received
      [("type", VStr "data_received")] 9500 RecorderExample.world =
    (w', Some (sealed RecorderExample.recorder))
    /\ heap w' = heap RecorderExample.world
    /\ List.length (deref (heap w') (CacheRecorder.events (sealed RecorderExample.recorder))) =
       List.length (deref (heap RecorderExample.world)
                      (CacheRecorder.events (sealed RecorderExample.recorder)))
    /\ localStorage w' = localStorage RecorderExample.world
    /\ console w' = (console RecorderExample.world ++ [Warn_RecorderFinalized])%list.
Proof.
  apply (append_after_finalize_is_inert (sealed RecorderExample.recorder) data_received
           [("type", VStr "data_received")] 9500 RecorderExample.world).
  reflexivity.
Defined.

(** Any number of appends to a finalized recorder leaves the recorder and
    the arrays as they were. *)
Lemma appends_after_finalize_are_inert
    (recorder : CacheRecorder.t) (appends : list (CacheEventType * obj * Z)) :
  CacheRecorder.isFinalized recorder = true ->
  forall w : World,
    snd (record_all recorder appends w) = Some recorder
    /\ heap (fst (record_all recorder appends w)) = heap w
    /\ localStorage (fst (record_all recorder appends w)) = localStorage w.
Proof.
  intros Hfin. induction appends as [|[[type data] now] rest IH]; intros w.
  - repeat split.
  - cbn [record_all]. unfold Eff.bind, Recorder.recordEvent. rewrite Hfin.
    unfold Eff.print, Eff.ret. cbn.
    destruct (IH (set_console (console w ++ [Warn_RecorderFinalized]) w))
      as (Hret & Hheap & Hls).
    repeat split; assumption.
Qed.

(** ** The cache store *)

Ltac eff_unfold :=
  unfold Eff.try_catch, Eff.bind, Eff.lift, Eff.read, Eff.ret, Eff.throw, Eff.print in *.

Section StorageProps.

Context `{Platform}.

Lemma getCache_try_cases (prompt key : string) (w : World) :
  Storage.getCache_try prompt key w =
  match Storage.present (localStorage w !! key) with
  | None => (w, Some None)
  | Some s =>
      match JSON_parse s with
      | None => (w, None)
      | Some session =>
          match prop session "isComplete" with
          | None => (w, None)
          | Some isComplete =>
              if negb (truthy isComplete) then (w, Some None) else
              match prop session "events" with
              | None => (w, None)
              | Some events =>
                  if negb (truthy events) then (w, Some None) else
                  match prop events "length" with
                  | None => (w, None)
                  | Some len =>
                      if strict_eq len (VNum 0) then (w, Some None)
                      else (set_console (console w ++ [Log_CacheHit (slice0 30 prompt) len]) w,
                            Some (Some session))
                  end
              end
          end
      end
  end.
Proof.
  unfold Storage.getCache_try, Storage.getItem. eff_unfold.
  destruct (Storage.present _); [|reflexivity].
  destruct (JSON_parse _); [|reflexivity].
  destruct (prop _ "isComplete"); [|reflexivity].
  destruct (negb _); [reflexivity|].
  destruct (prop _ "events") as [events|]; [|reflexivity].
  destruct (negb _); [reflexivity|].
  destruct (prop events "length"); [|reflexivity].
  destruct (strict_eq _ _); reflexivity.
Qed.

(** [getCache] never throws and never writes to the storage. *)
Lemma getCache_total (prompt : string) (w : World) :
  exists w' r, Storage.getCache prompt w = (w', Some r)
               /\ localStorage w' = localStorage w
               /\ heap w' = heap w.
Proof.
  unfold Storage.getCache. destruct (negb (hasWindow w)); [now exists w, None|].
  unfold Eff.try_catch at 1. rewrite getCache_try_cases. eff_unfold.
  destruct (Storage.present _); [|now exists w, None].
  destruct (JSON_parse _) as [session|]; [|now eexists _, None].
  destruct (prop session "isComplete"); [|now eexists _, None].
  destruct (negb _); [now exists w, None|].
  destruct (prop session "events") as [events|]; [|now eexists _, None].
  destruct (negb _); [now exists w, None|].
  destruct (prop events "length"); [|now eexists _, None].
  destruct (strict_eq _ _); [now exists w, None|].
  now eexists _, (Some session).
Qed.

Lemma getCache_absent_cases (prompt : string) (w : World) :
  (localStorage w !! key_of_prompt prompt = None ->
   snd (Storage.getCache prompt w) = Some None)
  /\ (forall s, localStorage w !! key_of_prompt prompt = Some s ->
                JSON_parse s = None ->
                snd (Storage.getCache prompt w) = Some None)
  /\ (forall s session,
         localStorage w !! key_of_prompt prompt = Some s ->
         JSON_parse s = Some session ->
         truthy (get session "isComplete") = false ->
         snd (Storage.getCache prompt w) = Some None)
  /\ (forall s session,
         localStorage w !! key_of_prompt prompt = Some s ->
         JSON_parse s = Some session ->
         get session "events" = VArr [] ->
         snd (Storage.getCache prompt w) = Some None).
Proof.
  unfold key_of_prompt.
  assert (Hgen : forall s,
             localStorage w !! (Storage.CACHE_PREFIX ++
               Storage.hashPrompt (trim (toLowerCase prompt)))%string = Some s ->
             match JSON_parse s with
             | None => True
             | Some session =>
                 truthy (get session "isComplete") = false \/
                 get session "events" = VArr []
             end ->
             snd (Storage.getCache prompt w) = Some None).
  { intros s Hs Hdoc. unfold Storage.getCache.
    destruct (negb (hasWindow w)); [reflexivity|].
    unfold Eff.try_catch at 1. rewrite getCache_try_cases, Hs. eff_unfold.
    unfold Storage.present. destruct (String.eqb s ""); [reflexivity|].
    destruct (JSON_parse s) as [session|]; [|reflexivity].
    unfold get in Hdoc.
    destruct (prop session "isComplete") as [ic|]; [|reflexivity].
    destruct (truthy ic) eqn:Hic; [|reflexivity]. cbn [negb].
    destruct Hdoc as [Hdoc | Hdoc]; [discriminate|].
    destruct (prop session "events") as [ev|]; [|reflexivity].
    subst ev. reflexivity. }
  split; [|split; [|split]].
  - intros Hnone. unfold Storage.getCache.
    destruct (negb (hasWindow w)); [reflexivity|].
    unfold Eff.try_catch at 1. now rewrite getCache_try_cases, Hnone.
  - intros s Hs Hparse. apply (Hgen s Hs). now rewrite Hparse.
  - intros s session Hs Hparse Hic. apply (Hgen s Hs). rewrite Hparse. now left.
  - intros s session Hs Hparse Hev. apply (Hgen s Hs). rewrite Hparse. now right.
Qed.

End StorageProps.

(** C6. [getCache] returns absent when there is no stored entry, when
    the entry does not parse, when its [isComplete] is false and when its
    [events] is the empty sequence; in every state it returns normally. *)
Theorem getCache_validity_gate (P : Platform) (prompt : string) (w : World) :
  (exists w' r, Storage.getCache prompt w = (w', Some r))
  /\ (localStorage w !! key_of_prompt prompt = None ->
      snd (Storage.getCache prompt w) = Some None)
  /\ (forall s, localStorage w !! key_of_prompt prompt = Some s ->
                JSON_parse s = None ->
                snd (Storage.getCache prompt w) = Some None)
  /\ (forall s session,
         localStorage w !! key_of_prompt prompt = Some s ->
         JSON_parse s = Some session ->
         truthy (get session "isComplete") = false ->
         snd (Storage.getCache prompt w) = Some None)
  /\ (forall s session,
         localStorage w !! key_of_prompt prompt = Some s ->
         JSON_parse s = Some session ->
         get session "events" = VArr [] ->
         snd (Storage.getCache prompt w) = Some None).
Proof.
  split; [|apply getCache_absent_cases].
  destruct (getCache_total prompt w) as (w' & r & Heq & _). eauto.
Qed.

Lemma getCache_validity_gate_witness :
  let q := "Is Union Square safe at night?" in
  snd (Storage.getCache (H := StoreExample.platform) q (Demo.browser (Some "true")))
    = Some None
  /\ snd (Storage.getCache (H := StoreExample.platform) q
            (StoreExample.browser_with (Some "true") "{oops")) = Some None
  /\ snd (Storage.getCache (H := StoreExample.platform) q
            (StoreExample.browser_with (Some "true")
               (Demo.print StoreExample.incomplete))) = Some None
  /\ snd (Storage.getCache (H := StoreExample.platform) q
            (StoreExample.browser_with (Some "true")
               (Demo.print StoreExample.empty))) = Some None.
Proof.
  cbn zeta. split; [|split; [|split]].
  - apply (proj1 (proj2 (getCache_validity_gate StoreExample.platform
             "Is Union Square safe at night?" (Demo.browser (Some "true"))))).
    vm_compute. reflexivity.
  - apply (proj1 (proj2 (proj2 (getCache_validity_gate StoreExample.platform
             "Is Union Square safe at night?"
             (StoreExample.browser_with (Some "true") "{oops")))) "{oops").
    + vm_compute. reflexivity.
    + vm_compute. reflexivity.
  - apply (proj1 (proj2 (proj2 (proj2 (getCache_validity_gate StoreExample.platform
             "Is Union Square safe at night?"
             (StoreExample.browser_with (Some "true")
                (Demo.print StoreExample.incomplete))))))
             (Demo.print StoreExample.incomplete) StoreExample.incomplete).
    + vm_compute. reflexivity.
    + vm_compute. reflexivity.
    + vm_compute. reflexivity.
  - apply (proj2 (proj2 (proj2 (proj2 (getCache_validity_gate StoreExample.platform
             "Is Union Square safe at night?"
             (StoreExample.browser_with (Some "true")
                (Demo.print StoreExample.empty))))))
             (Demo.print StoreExample.empty) StoreExample.empty).
    + vm_compute. reflexivity.
    + vm_compute. reflexivity.
    + vm_compute. reflexivity.
Defined.

Section SaveProps.
Context `{Platform}.

Lemma read_index_eq (w : World) :
  Storage.read_index w = (w, stored_index (localStorage w)).
Proof.
  unfold Storage.read_index, stored_index, Storage.getItem. eff_unfold.
  destruct (Storage.present _); reflexivity.
Qed.

Lemma saveCache_cases (cache : SessionCache.t) (w : World) :
  hasWindow w = true ->
  let hash := SessionCache.promptHash cache in
  let key := (Storage.CACHE_PREFIX ++ hash)%string in
  let doc := JSON_stringify (Storage.SessionCache_to_value (heap w) cache) in
  Storage.saveCache cache w =
  if storage_accepts (localStorage w) key doc then
    let w1 := set_localStorage (<[key := doc]> (localStorage w)) w in
    match stored_index (localStorage w1) with
    | Some (VArr l) =>
        if existsb (strict_eq (VStr hash)) l then save_done cache w1
        else
          let index' := JSON_stringify (VArr (l ++ [VStr hash])) in
          if storage_accepts (localStorage w1) Storage.CACHE_INDEX_KEY index'
          then save_done cache
                 (set_localStorage (<[Storage.CACHE_INDEX_KEY := index']> (localStorage w1)) w1)
          else save_failed w1
    | Some (VStr s) => if str_includes s hash then save_done cache w1 else save_failed w1
    | _ => save_failed w1
    end
  else save_failed w.
Proof.
  intros Hwin. cbn zeta. unfold Storage.saveCache. rewrite Hwin. cbn [negb].
  unfold Storage.saveCache_try, Eff.try_catch, Eff.bind at 1 2 3.
  unfold Eff.read at 1. unfold Storage.setItem at 1.
  destruct (storage_accepts _ _ _); [|reflexivity].
  rewrite read_index_eq.
  destruct (stored_index _) as [index|]; [|reflexivity].
  destruct index as [| |b|n|s|l|o]; try reflexivity.
  - unfold Storage.includes. eff_unfold.
    destruct (str_includes s _); reflexivity.
  - unfold Storage.includes, Storage.push. eff_unfold.
    destruct (existsb _ l); [reflexivity|].
    unfold Storage.setItem.
    destruct (storage_accepts _ _ _); reflexivity.
Qed.

Lemma stored_index_insert_ne (ls : gmap string string) (k v : string) :
  k <> Storage.CACHE_INDEX_KEY ->
  stored_index (<[k := v]> ls) = stored_index ls.
Proof.
  intros Hne. unfold stored_index. now rewrite lookup_insert_ne.
Qed.

Lemma existsb_listed (hash : string) (l : list value) :
  existsb (strict_eq (VStr hash)) l = true <-> In (VStr hash) l.
Proof.
  rewrite existsb_exists. split.
  - intros (x & Hin & Heq). destruct x; try discriminate.
    cbn in Heq. apply String.eqb_eq in Heq. now subst.
  - intros Hin. exists (VStr hash). split; [exact Hin|].
    cbn. apply String.eqb_refl.
Qed.

(** [saveCache] never throws and touches neither the arrays nor the
    configuration. *)
Lemma saveCache_total (cache : SessionCache.t) (w : World) :
  exists w', Storage.saveCache cache w = (w', Some tt)
             /\ heap w' = heap w
             /\ hasWindow w' = hasWindow w
             /\ NEXT_PUBLIC_CACHE_ENABLED w' = NEXT_PUBLIC_CACHE_ENABLED w.
Proof.
  destruct (hasWindow w) eqn:Hwin.
  - rewrite (saveCache_cases cache w Hwin). cbn zeta.
    unfold save_done, save_failed.
    destruct (storage_accepts _ _ _); [|eexists; repeat split; exact Hwin].
    destruct (stored_index _) as [[| |b|n|s|l|o]|];
      try (eexists; repeat split; exact Hwin).
    + destruct (str_includes _ _); eexists; repeat split; exact Hwin.
    + destruct (existsb _ l); [eexists; repeat split; exact Hwin|].
      destruct (storage_accepts _ _ _); eexists; repeat split; exact Hwin.
  - unfold Storage.saveCache. rewrite Hwin. exists w. repeat split. exact Hwin.
Qed.

(** What [saveCache] does to the storage, for a recording whose entry key
    is not the key of the index. *)
Lemma saveCache_storage (cache : SessionCache.t) (w : World) :
  let hash := SessionCache.promptHash cache in
  let key := (Storage.CACHE_PREFIX ++ hash)%string in
  let doc := JSON_stringify (Storage.SessionCache_to_value (heap w) cache) in
  let ls' := localStorage (fst (Storage.saveCache cache w)) in
  key <> Storage.CACHE_INDEX_KEY ->
  (forall k, k <> key -> k <> Storage.CACHE_INDEX_KEY -> ls' !! k = localStorage w !! k)
  /\ (ls' !! key = Some doc \/ ls' = localStorage w)
  /\ (index_lists (localStorage w) hash ->
      ls' !! Storage.CACHE_INDEX_KEY = localStorage w !! Storage.CACHE_INDEX_KEY)
  /\ (ls' !! Storage.CACHE_INDEX_KEY <> localStorage w !! Storage.CACHE_INDEX_KEY ->
      exists l, stored_index (localStorage w) = Some (VArr l)
                /\ ~ In (VStr hash) l
                /\ ls' !! Storage.CACHE_INDEX_KEY =
                   Some (JSON_stringify (VArr (l ++ [VStr hash])))).
Proof.
  cbn zeta. intros Hkey.
  destruct (hasWindow w) eqn:Hwin;
    [|unfold Storage.saveCache; rewrite Hwin; cbn;
      repeat split; [now right | congruence]].
  rewrite (saveCache_cases cache w Hwin). cbn zeta.
  unfold save_done, save_failed.
  set (key := (Storage.CACHE_PREFIX ++ SessionCache.promptHash cache)%string) in *.
  set (doc := JSON_stringify _).
  destruct (storage_accepts (localStorage w) key doc);
    [|cbn; repeat split; [now right | congruence]].
  cbn [localStorage set_localStorage].
  rewrite (stored_index_insert_ne _ _ _ Hkey).
  assert (Hentry : forall k, k <> key -> k <> Storage.CACHE_INDEX_KEY ->
            (<[key := doc]> (localStorage w) : gmap string string) !! k = localStorage w !! k).
  { intros k Hk _. now rewrite lookup_insert_ne. }
  assert (Hidx : (<[key := doc]> (localStorage w) : gmap string string)
                   !! Storage.CACHE_INDEX_KEY = localStorage w !! Storage.CACHE_INDEX_KEY).
  { now rewrite lookup_insert_ne. }
  assert (Hdoc : (<[key := doc]> (localStorage w) : gmap string string) !! key = Some doc).
  { apply lookup_insert_eq. }
  destruct (stored_index (localStorage w)) as [[| |b|n|s|l|o]|] eqn:Hindex;
    try (cbn; repeat split;
         [exact Hentry | now left | intros _; exact Hidx | intros Hne; now elim Hne]).
  - destruct (str_includes _ _); cbn; repeat split;
      [exact Hentry | now left | intros _; exact Hidx | intros Hne; now elim Hne
      |exact Hentry | now left | intros _; exact Hidx | intros Hne; now elim Hne].
  - destruct (existsb (strict_eq (VStr (SessionCache.promptHash cache))) l) eqn:Hfound.
    + cbn; repeat split;
        [exact Hentry | now left | intros _; exact Hidx | intros Hne; now elim Hne].
    + assert (Hnotin : ~ In (VStr (SessionCache.promptHash cache)) l).
      { intros Hin. apply existsb_listed in Hin. congruence. }
      destruct (storage_accepts _ _ _); cbn [fst localStorage set_localStorage set_console].
      * repeat split.
        -- intros k Hk Hki. rewrite lookup_insert_ne by congruence. now apply Hentry.
        -- left. rewrite lookup_insert_ne by congruence. exact Hdoc.
        -- intros (l' & Hl' & Hin). congruence.
        -- intros _. exists l. repeat split; [exact Hnotin|]. apply lookup_insert_eq.
      * repeat split;
          [exact Hentry | now left | intros _; exact Hidx | intros Hne; now elim Hne].
Qed.

(** The storage after [saveCache], for a recording that the index
    already lists: the entry is written when there is a window and the
    write fits the quota, and nothing else changes. *)
Lemma saveCache_listed (cache : SessionCache.t) (w : World) :
  let hash := SessionCache.promptHash cache in
  let key := (Storage.CACHE_PREFIX ++ hash)%string in
  let doc := JSON_stringify (Storage.SessionCache_to_value (heap w) cache) in
  key <> Storage.CACHE_INDEX_KEY ->
  index_lists (localStorage w) hash ->
  localStorage (fst (Storage.saveCache cache w)) =
  if hasWindow w && storage_accepts (localStorage w) key doc
  then <[key := doc]> (localStorage w)
  else localStorage w.
Proof.
  cbn zeta. intros Hkey (l & Hindex & Hin).
  destruct (hasWindow w) eqn:Hwin;
    [|unfold Storage.saveCache; rewrite Hwin; reflexivity].
  rewrite (saveCache_cases cache w Hwin). cbn zeta. cbn [andb].
  destruct (storage_accepts _ _ _); [|reflexivity].
  cbn [localStorage set_localStorage].
  rewrite (stored_index_insert_ne _ _ _ Hkey), Hindex.
  apply existsb_listed in Hin. rewrite Hin. reflexivity.
Qed.

End SaveProps.

(** ** Finalization *)

Section FinalizeProps.

Context `{Platform}.

Lemma finalizeRecording_cases (recorder : CacheRecorder.t) (date now : Z) (w : World) :
  exists w1,
    Storage.saveCache (snapshot recorder date now) w = (w1, Some tt)
    /\ heap w1 = heap w
    /\ Recorder.finalizeRecording recorder date now w =
       (set_console
          (console w1 ++
             [Log_Finalized (List.length (deref (heap w) (CacheRecorder.events recorder)))
                            (now - CacheRecorder.startTime recorder)]) w1,
        Some (sealed recorder, snapshot recorder date now)).
Proof.
  destruct (saveCache_total (snapshot recorder date now) w) as (w1 & Hsave & Hheap & _).
  exists w1. split; [exact Hsave|]. split; [exact Hheap|].
  unfold Recorder.finalizeRecording. fold (snapshot recorder date now).
  fold (sealed recorder). eff_unfold. rewrite Hsave. cbn. now rewrite Hheap.
Qed.

Lemma entry_key_not_index (hash : string) :
  hash <> "index" -> (Storage.CACHE_PREFIX ++ hash)%string <> Storage.CACHE_INDEX_KEY.
Proof.
  intros Hne Heq. apply Hne. cbn in Heq. now injection Heq.
Qed.

End FinalizeProps.

(** The example recorder is the one that [createRecorder] and one
    [recordEvent] produce. *)
Lemma example_recorder_is_reached :
  (let* recorder := Recorder.createRecorder RecorderExample.query 7000 in
   Recorder.recordEvent recorder session_started RecorderExample.started_message 7300)
    (Demo.browser (Some "true"))
  = (RecorderExample.world, Some RecorderExample.recorder).
Proof. vm_compute. reflexivity. Qed.

(** C3 (as stated) fails: the recording returned for the example
    recorder holds the recorder's own array, and a push onto that array
    shows in the recording. *)
Lemma finalize_returns_alias :
  ~ returns_independent_copy RecorderExample.platform RecorderExample.recorder
      9000 9000 RecorderExample.world
  /\ exists w' recorder' cache,
       Recorder.finalizeRecording (H := RecorderExample.platform)
         RecorderExample.recorder 9000 9000 RecorderExample.world =
       (w', Some (recorder', cache))
       /\ SessionCache.events cache = CacheRecorder.events recorder'
       /\ deref (heap w') (SessionCache.events cache) = [RecorderExample.recorded_event]
       /\ deref (heap (fst (Recorder.array_push (CacheRecorder.events recorder')
                              RecorderExample.late_event w')))
                (SessionCache.events cache) =
          [RecorderExample.recorded_event; RecorderExample.late_event].
Proof.
  split.
  - intros Hclaim.
    destruct (Hclaim _ _ _ eq_refl) as [Hne _].
    apply Hne. reflexivity.
  - do 3 eexists. split; [reflexivity|]. repeat split.
Qed.

(** C3, amended. [finalizeRecording] seals the recorder, builds the
    recording with [isComplete = true], [recordedAt] the ISO form of the
    date and [totalDuration] the time since [startTime], saves it through
    [saveCache] and returns it.  The returned recording holds the same
    array reference as the recorder; appends through [recordEvent] no longer
    reach that array, and the saved text does not follow later changes of
    the array. *)
Theorem finalize_seals_saves_and_shares_events
    (P : Platform) (recorder : CacheRecorder.t) (date now : Z) (w : World) :
  exists w1 w',
    Storage.saveCache (snapshot recorder date now) w = (w1, Some tt)
    /\ Recorder.finalizeRecording recorder date now w =
       (w', Some (sealed recorder, snapshot recorder date now))
    /\ localStorage w' = localStorage w1
    /\ heap w' = heap w
    /\ CacheRecorder.isFinalized (sealed recorder) = true
    /\ SessionCache.isComplete (snapshot recorder date now) = true
    /\ SessionCache.recordedAt (snapshot recorder date now) = toISOString date
    /\ SessionCache.totalDuration (snapshot recorder date now) =
       now - CacheRecorder.startTime recorder
    /\ SessionCache.events (snapshot recorder date now) =
       CacheRecorder.events (sealed recorder)
    /\ (forall type data t w2,
           heap (fst (Recorder.recordEvent (sealed recorder) type data t w2)) = heap w2)
    /\ (forall e,
           localStorage (fst (Recorder.array_push (CacheRecorder.events recorder) e w')) =
           localStorage w').
Proof.
  destruct (finalizeRecording_cases recorder date now w) as (w1 & Hsave & Hheap & Hfin).
  eexists w1, _. split; [exact Hsave|]. split; [exact Hfin|].
  repeat split. exact Hheap.
Qed.

(** C4 (as stated) fails: finalizing the example recorder at 9000 ms and
    again at 12000 ms rewrites the stored entry and returns a snapshot with
    another [recordedAt] and [totalDuration]. *)
Lemma second_finalize_rewrites_and_differs :
  ~ second_finalize_is_noop RecorderExample.platform RecorderExample.recorder
      9000 9000 12000 12000 RecorderExample.world.
Proof.
  intros Hclaim.
  destruct (Hclaim _ _ _ eq_refl) as (w2 & r2 & c2 & Hfin & _ & Hsame).
  vm_compute in Hfin. injection Hfin as Hw2 _ Hc2. subst w2 c2.
  destruct Hsame as [Hls | Hc]; [|discriminate Hc].
  apply (f_equal (fun ls : gmap string string => ls !! "safesf_cache_uykxbx"%string)) in Hls.
  vm_compute in Hls. discriminate Hls.
Qed.

(** C4, amended. After a first finalization that left the recorder's hash
    in the index, a second finalization returns normally and returns a new
    snapshot: the same prompt, hash and events, with [recordedAt] and
    [totalDuration] of the second call.  It leaves the index and every other
    entry as they were.  When there is a window and the write fits the
    quota, the storage after it is the storage before it with the text of
    the new snapshot under the recorder's key; otherwise the storage is as
    it was. *)
Theorem second_finalize_keeps_index_and_rewrites_entry
    (P : Platform) (recorder : CacheRecorder.t) (date1 now1 date2 now2 : Z)
    (w : World) :
  let w1 := fst (Recorder.finalizeRecording recorder date1 now1 w) in
  let key := (Storage.CACHE_PREFIX ++ CacheRecorder.promptHash recorder)%string in
  let text :=
    JSON_stringify
      (Storage.SessionCache_to_value (heap w1) (snapshot recorder date2 now2)) in
  CacheRecorder.promptHash recorder <> "index" ->
  index_lists (localStorage w1) (CacheRecorder.promptHash recorder) ->
  exists w2,
    Recorder.finalizeRecording (sealed recorder) date2 now2 w1 =
      (w2, Some (sealed recorder, snapshot recorder date2 now2))
    /\ localStorage w2 !! Storage.CACHE_INDEX_KEY =
       localStorage w1 !! Storage.CACHE_INDEX_KEY
    /\ (forall k, k <> key -> localStorage w2 !! k = localStorage w1 !! k)
    /\ localStorage w2 =
       (if hasWindow w1 && storage_accepts (localStorage w1) key text
        then <[key := text]> (localStorage w1)
        else localStorage w1)
    /\ (hasWindow w1 = true ->
        storage_accepts (localStorage w1) key text = true ->
        localStorage w2 !! key = Some text)
    /\ heap w2 = heap w1.
Proof.
  cbn zeta. intros Hhash Hlisted.
  set (w1 := fst (Recorder.finalizeRecording recorder date1 now1 w)) in *.
  destruct (finalizeRecording_cases (sealed recorder) date2 now2 w1)
    as (w1' & Hsave & Hheap & Hfin).
  change (snapshot (sealed recorder) date2 now2) with (snapshot recorder date2 now2) in *.
  change (sealed (sealed recorder)) with (sealed recorder) in *.
  pose proof (saveCache_storage (snapshot recorder date2 now2) w1
                (entry_key_not_index _ Hhash)) as Hstore.
  cbn zeta in Hstore. rewrite Hsave in Hstore. cbn [fst] in Hstore.
  destruct Hstore as (Hothers & _ & Hindex & _).
  pose proof (saveCache_listed (snapshot recorder date2 now2) w1
                (entry_key_not_index _ Hhash) Hlisted) as Hexact.
  cbn zeta in Hexact. rewrite Hsave in Hexact. cbn [fst] in Hexact.
  eexists. split; [exact Hfin|]. cbn [localStorage set_console heap].
  split; [apply Hindex; exact Hlisted|].
  split.
  { intros k Hk.
    destruct (String.eqb_spec k Storage.CACHE_INDEX_KEY) as [-> | Hki].
    - apply Hindex; exact Hlisted.
    - apply Hothers; assumption. }
  split; [exact Hexact|].
  split; [|exact Hheap].
  intros Hwin Hacc. rewrite Hexact.
  cbn [snapshot SessionCache.promptHash] in *. rewrite Hwin, Hacc. cbn [andb].
  apply lookup_insert_eq.
Qed.

Lemma second_finalize_keeps_index_and_rewrites_entry_witness :
  let w1 := fst (Recorder.finalizeRecording (H := RecorderExample.platform)
                   RecorderExample.recorder 9000 9000 RecorderExample.world) in
  let text :=
    @JSON_stringify RecorderExample.platform
      (Storage.SessionCache_to_value (heap w1)
         (snapshot (H := RecorderExample.platform)
            RecorderExample.recorder 12000 12000)) in
  exists w2,
    Recorder.finalizeRecording (H := RecorderExample.platform)
      (sealed RecorderExample.recorder) 12000 12000 w1 =
      (w2, Some (sealed RecorderExample.recorder,
                 snapshot (H := RecorderExample.platform)
                   RecorderExample.recorder 12000 12000))
    /\ localStorage w2 !! Storage.CACHE_INDEX_KEY =
       localStorage w1 !! Storage.CACHE_INDEX_KEY
    /\ localStorage w2 = <["safesf_cache_uykxbx"%string := text]> (localStorage w1)
    /\ localStorage w2 !! "safesf_cache_uykxbx"%string = Some text
    /\ localStorage w1 !! "safesf_cache_uykxbx"%string <> Some text.
Proof.
  cbn zeta.
  destruct (second_finalize_keeps_index_and_rewrites_entry RecorderExample.platform
              RecorderExample.recorder 9000 9000 12000 12000 RecorderExample.world)
    as (w2 & Hfin & Hindex & _ & Hexact & Hwritten & _).
  - discriminate.
  - exists [VStr "uykxbx"]. split; [vm_compute; reflexivity | left; reflexivity].
  - exists w2. split; [exact Hfin|]. split; [exact Hindex|].
    split; [exact Hexact|]. split.
    + apply Hwritten; reflexivity.
    + vm_compute. discriminate.
Defined.

(** ** Listing the cached prompts *)

Section ListProps.

Context `{Platform}.

Lemma prompt_of_entry_eq (hash : value) (w : World) :
  Storage.prompt_of_entry hash w = (w, load_prompt (localStorage w) hash).
Proof.
  unfold Storage.prompt_of_entry, load_prompt, Storage.getItem. eff_unfold.
  destruct (Storage.present _); [|reflexivity].
  destruct (JSON_parse _); reflexivity.
Qed.

Lemma mapM_prompt_of_entry (index : list value) (w : World) :
  Eff.mapM Storage.prompt_of_entry index w = (w, load_all (localStorage w) index).
Proof.
  induction index as [|hash rest IH]; [reflexivity|].
  cbn [Eff.mapM load_all]. unfold Eff.bind at 1. rewrite prompt_of_entry_eq.
  destruct (load_prompt _ hash); [|reflexivity].
  unfold Eff.bind. rewrite IH.
  destruct (load_all _ rest); reflexivity.
Qed.

Lemma listCachedPrompts_cases (w : World) :
  Storage.listCachedPrompts w =
  (w, Some (if hasWindow w then
              match stored_index (localStorage w) with
              | Some (VArr index) =>
                  match load_all (localStorage w) index with
                  | Some prompts => List.filter truthy prompts
                  | None => []
                  end
              | _ => []
              end
            else [])).
Proof.
  unfold Storage.listCachedPrompts. destruct (hasWindow w); [|reflexivity].
  cbn [negb]. unfold Eff.try_catch, Eff.bind at 1. rewrite read_index_eq.
  destruct (stored_index _) as [[| |b|n|s|index|o]|]; try reflexivity.
  unfold Storage.map_index, Eff.bind. rewrite mapM_prompt_of_entry.
  destruct (load_all _ index); reflexivity.
Qed.




End ListProps.




(** ** The live handler and the cache flag *)

Section FlagProps.

Context `{Platform}.

Lemma print_call_prints (call : option Diagnostic) (w : World) :
  exists w', Live.print_call call w = (w', Some tt) /\ prints w w' (lines call).
Proof.
  destruct call as [d|]; eexists; (split; [reflexivity|]); repeat split.
  cbn. now rewrite app_nil_r.
Qed.

(** Without a recorder [handleEvent] changes the store as [Live.dispatch]
    does and only prints the line of its case. *)
Lemma handleEvent_without_recorder (message : obj) (shouldRecord : bool)
    (clock : Live.Clock) (s : AgentStore.t) (w : World) :
  exists w',
    Live.handleEvent message shouldRecord clock
      {| Live.store := s; Live.recorderRef := None |} w =
    (w', Some {| Live.store := Live.dispatch message (Live.at_switch clock) s;
                 Live.recorderRef := None |})
    /\ prints w w' (lines (Live.console_call message (Live.at_switch clock))).
Proof.
  destruct (print_call_prints (Live.console_call message (Live.at_switch clock)) w)
    as (w' & Hprint & Hsame).
  exists w'. split; [|exact Hsame].
  unfold Live.handleEvent, Live.record_if_active, Live.finalize_if_active.
  cbn [Live.recorderRef Live.store]. unfold Eff.bind, Eff.ret in *.
  destruct (Live.classify _) as [[]| | |]; now rewrite Hprint.
Qed.

(** With an active recorder, a recordable message is appended to the
    recorder's array as the event [{type, data: message, timestamp: now,
    delay: now - lastEventTime}]. *)
Lemma record_if_active_appends (message : obj) (now : Z) (recorder : CacheRecorder.t)
    (type : CacheEventType) (w : World) :
  CacheRecorder.isFinalized recorder = false ->
  Live.classify (field "type" message) = Live.Recordable type ->
  exists w' recorder',
    Live.record_if_active message true now (Some recorder) w = (w', Some (Some recorder'))
    /\ CacheRecorder.events recorder' = CacheRecorder.events recorder
    /\ CacheRecorder.lastEventTime recorder' = now
    /\ heap w' =
       <[CacheRecorder.events recorder :=
           (deref (heap w) (CacheRecorder.events recorder) ++
              [{| CacheEvent.type := type; CacheEvent.data := message;
                  CacheEvent.timestamp := now;
                  CacheEvent.delay := now - CacheRecorder.lastEventTime recorder |}])%list]>
         (heap w).
Proof.
  intros Hfin Hclass. unfold Live.record_if_active, Recorder.recordEvent.
  rewrite Hfin, Hclass. cbn [negb andb]. eff_unfold. unfold Recorder.array_push.
  eexists _, _. split; [reflexivity|]. repeat split.
Qed.

(** [handleEvent] returns normally in every state, and what it does to the
    application store is [Live.dispatch], with or without a recorder. *)
Lemma handleEvent_store (message : obj) (shouldRecord : bool) (clock : Live.Clock)
    (st : Live.t) (w : World) :
  exists w' ref',
    Live.handleEvent message shouldRecord clock st w =
    (w', Some {| Live.store := Live.dispatch message (Live.at_switch clock) (Live.store st);
                 Live.recorderRef := ref' |}).
Proof.
  unfold Live.handleEvent.
  assert (Hrec : exists w1 ref1,
             Live.record_if_active message shouldRecord (Live.at_record clock)
               (Live.recorderRef st) w = (w1, Some ref1)).
  { unfold Live.record_if_active, Recorder.recordEvent.
    destruct (Live.recorderRef st) as [recorder|]; [|now eexists _, _].
    destruct shouldRecord, (CacheRecorder.isFinalized recorder);
      cbn [negb andb]; try (now eexists _, _).
    destruct (Live.classify _); now eexists _, _. }
  destruct Hrec as (w1 & ref1 & Hrec).
  unfold Eff.bind at 1. rewrite Hrec.
  assert (Hfin : exists w2 ref2,
             Live.finalize_if_active (Live.at_finalize_date clock) (Live.at_finalize clock)
               ref1 w1 = (w2, Some ref2)).
  { unfold Live.finalize_if_active.
    destruct ref1 as [recorder|]; [|now eexists _, _].
    destruct (CacheRecorder.isFinalized recorder); cbn [negb]; [now eexists _, _|].
    destruct (finalizeRecording_cases recorder (Live.at_finalize_date clock)
                (Live.at_finalize clock) w1) as (w2 & _ & _ & Heq).
    unfold Eff.bind. rewrite Heq. now eexists _, _. }
  destruct Hfin as (w2 & ref2 & Hfin).
  assert (Hlog : forall w0, exists w3,
             Live.print_call (Live.console_call message (Live.at_switch clock)) w0 =
             (w3, Some tt)).
  { intros w0. destruct (print_call_prints
                           (Live.console_call message (Live.at_switch clock)) w0)
      as (w3 & Hprint & _). now exists w3. }
  destruct (Hlog w1) as (w3 & Hlog1). destruct (Hlog w2) as (w4 & Hlog2).
  unfold Eff.bind, Eff.ret.
  destruct (Live.classify _) as [[]| | |];
    try (rewrite Hlog1; now eexists _, _);
    rewrite Hfin, Hlog2; now eexists _, _.
Qed.

(** [getCache] and [saveCache] do not read the flag: in a browser that
    differs in the flag only, they return the same and leave the same
    state. *)
Lemma getCache_flag (flag : option string) (prompt : string) (w : World) :
  Storage.getCache prompt (set_flag flag w) =
  (set_flag flag (fst (Storage.getCache prompt w)), snd (Storage.getCache prompt w)).
Proof.
  unfold Storage.getCache. cbn [hasWindow set_flag].
  destruct (hasWindow w); cbn [negb]; [|reflexivity].
  unfold Eff.try_catch. rewrite !getCache_try_cases. cbn [localStorage set_flag].
  destruct (Storage.present _); [|reflexivity].
  destruct (JSON_parse _) as [session|]; [|reflexivity].
  destruct (prop session "isComplete"); [|reflexivity].
  destruct (negb _); [reflexivity|].
  destruct (prop session "events") as [events|]; [|reflexivity].
  destruct (negb _); [reflexivity|].
  destruct (prop events "length"); [|reflexivity].
  destruct (strict_eq _ _); reflexivity.
Qed.

Lemma saveCache_flag (flag : option string) (cache : SessionCache.t) (w : World) :
  Storage.saveCache cache (set_flag flag w) =
  (set_flag flag (fst (Storage.saveCache cache w)), snd (Storage.saveCache cache w)).
Proof.
  destruct (hasWindow w) eqn:Hwin;
    [|unfold Storage.saveCache; cbn [hasWindow set_flag]; now rewrite Hwin].
  rewrite (saveCache_cases cache (set_flag flag w) Hwin).
  rewrite (saveCache_cases cache w Hwin). cbn zeta.
  unfold save_done, save_failed. cbn [localStorage heap set_flag].
  destruct (storage_accepts _ _ _); [|reflexivity].
  cbn [localStorage set_localStorage set_flag].
  destruct (stored_index _) as [[| |b|n|s|l|o]|]; try reflexivity.
  - destruct (str_includes _ _); reflexivity.
  - destruct (existsb _ l); [reflexivity|].
    destruct (storage_accepts _ _ _); reflexivity.
Qed.

(** With the flag off, [startSession] goes straight to the query. *)
Lemma startSession_flag_off (query : string) (now : Z) (st : Live.t) (w : World) :
  Storage.isCacheEnabled w = false ->
  exists w',
    Live.startSession query now st w =
    (w', Some ({| Live.store := AgentStore.initialState;
                  Live.recorderRef := Live.recorderRef st |},
               Live.Querying query))
    /\ prints w w' [Log_WS_Resetting].
Proof.
  intros Hoff. unfold Live.startSession, Eff.bind, Eff.print.
  change (Storage.isCacheEnabled (set_console (console w ++ [Log_WS_Resetting]) w))
    with (Storage.isCacheEnabled w).
  rewrite Hoff. eexists. split; [reflexivity|]. repeat split.
Qed.

End FlagProps.

(** C5 (as stated) fails: with the flag set to ["false"] in a browser,
    [getCache] still returns the stored recording and [saveCache] still
    writes the entry and the index. *)
Lemma disabled_flag_does_not_stop_get_and_save :
  let w := StoreExample.browser_with (Some "false") (Demo.print StoreExample.valid) in
  ~ disabled_store_is_inert StoreExample.platform w
  /\ Storage.isCacheEnabled w = false
  /\ snd (Storage.getCache (H := StoreExample.platform)
            "Is Union Square safe at night?" w) = Some (Some StoreExample.valid)
  /\ localStorage
       (fst (Storage.saveCache (H := StoreExample.platform)
               (snapshot (H := StoreExample.platform) RecorderExample.recorder 9000 9000)
               (set_heap [[RecorderExample.recorded_event]] (Demo.browser (Some "false")))))
       !! Storage.CACHE_INDEX_KEY <> None.
Proof.
  cbn zeta. split; [|split; [|split]].
  - intros Hclaim. destruct (Hclaim eq_refl) as [Hget _].
    specialize (Hget "Is Union Square safe at night?").
    vm_compute in Hget. discriminate Hget.
  - reflexivity.
  - vm_compute. reflexivity.
  - vm_compute. discriminate.
Qed.

(** C5, amended. Without a window (where the flag reads as off) every
    [getCache] is absent and every [saveCache] changes nothing.  The flag
    itself is not read by the store: in two browsers that differ in the flag
    only, [getCache] and [saveCache] return the same and leave the same
    state.  When the flag is off, [startSession] resets the application
    store, keeps the recorder reference and goes on to send the query; up to
    there it only prints its first line (no [getCache] has printed a hit,
    whatever the storage holds, and no array was made for a recorder).  A
    live event handled without a recorder only prints the line of its case:
    the index, the entries and the arrays stay as they were. *)
Theorem cache_flag_gates_the_session (P : Platform) (w : World) :
  (hasWindow w = false ->
   Storage.isCacheEnabled w = false
   /\ (forall prompt, Storage.getCache prompt w = (w, Some None))
   /\ (forall cache, Storage.saveCache cache w = (w, Some tt)))
  /\ (forall flag prompt,
         Storage.getCache prompt (set_flag flag w) =
         (set_flag flag (fst (Storage.getCache prompt w)),
          snd (Storage.getCache prompt w)))
  /\ (forall flag cache,
         Storage.saveCache cache (set_flag flag w) =
         (set_flag flag (fst (Storage.saveCache cache w)),
          snd (Storage.saveCache cache w)))
  /\ (Storage.isCacheEnabled w = false ->
      (forall query now st,
          exists w',
            Live.startSession query now st w =
            (w', Some ({| Live.store := AgentStore.initialState;
                          Live.recorderRef := Live.recorderRef st |},
                       Live.Querying query))
            /\ prints w w' [Log_WS_Resetting])
      /\ (forall message shouldRecord clock s,
             exists w',
               Live.handleEvent message shouldRecord clock
                 {| Live.store := s; Live.recorderRef := None |} w =
               (w', Some {| Live.store := Live.dispatch message (Live.at_switch clock) s;
                            Live.recorderRef := None |})
               /\ prints w w'
                    (lines (Live.console_call message (Live.at_switch clock))))).
Proof.
  split; [|split; [|split]].
  - intros Hwin. unfold Storage.isCacheEnabled, Storage.getCache, Storage.saveCache.
    rewrite Hwin. repeat split.
  - intros flag prompt. apply getCache_flag.
  - intros flag cache. apply saveCache_flag.
  - intros Hoff. split.
    + intros query now st. now apply startSession_flag_off.
    + intros. apply handleEvent_without_recorder.
Qed.

Lemma cache_flag_gates_the_session_witness :
  let no_window := mkWorld false (Some "true") ∅ [] [] in
  let flag_off := StoreExample.browser_with (Some "false") (Demo.print StoreExample.valid) in
  (Storage.isCacheEnabled no_window = false
   /\ (forall prompt,
          Storage.getCache (H := StoreExample.platform) prompt no_window =
          (no_window, Some None))
   /\ (forall cache,
          Storage.saveCache (H := StoreExample.platform) cache no_window =
          (no_window, Some tt)))
  /\ (forall query now st,
         exists w',
           Live.startSession (H := StoreExample.platform) query now st flag_off =
           (w', Some ({| Live.store := AgentStore.initialState;
                         Live.recorderRef := Live.recorderRef st |},
                      Live.Querying query))
           /\ localStorage w' = localStorage flag_off
           /\ console w' = [Log_WS_Resetting])
  /\ (exists w',
         Live.handleEvent (H := StoreExample.platform)
           [("type", VStr "session_complete"); ("duration_ms", VNum 1000)] true
           (Live.mkClock 9000 9001 9002 9003)
           {| Live.store := AgentStore.initialState; Live.recorderRef := None |}
           flag_off =
         (w', Some {| Live.store :=
                        Live.dispatch (H := StoreExample.platform)
                          [("type", VStr "session_complete"); ("duration_ms", VNum 1000)]
                          9001 AgentStore.initialState;
                      Live.recorderRef := None |})
         /\ localStorage w' = localStorage flag_off
         /\ console w' = [Log_WS_SessionComplete (VNum 1000)]).
Proof.
  cbn zeta. split; [|split].
  - apply (proj1 (cache_flag_gates_the_session StoreExample.platform
                    (mkWorld false (Some "true") ∅ [] []))).
    reflexivity.
  - intros query now st.
    destruct (proj1 (proj2 (proj2 (proj2
                (cache_flag_gates_the_session StoreExample.platform
                   (StoreExample.browser_with (Some "false")
                      (Demo.print StoreExample.valid))))) eq_refl) query now st)
      as (w' & Heq & _ & _ & Hls & _ & Hconsole).
    exists w'. split; [exact Heq|]. split; [exact Hls | exact Hconsole].
  - destruct (proj2 (proj2 (proj2 (proj2
                (cache_flag_gates_the_session StoreExample.platform
                   (StoreExample.browser_with (Some "false")
                      (Demo.print StoreExample.valid))))) eq_refl)
                [("type", VStr "session_complete"); ("duration_ms", VNum 1000)] true
                (Live.mkClock 9000 9001 9002 9003) AgentStore.initialState)
      as (w' & Heq & _ & _ & Hls & _ & Hconsole).
    exists w'. split; [exact Heq|]. split; [exact Hls | exact Hconsole].
Defined.

(* ================================================================== *)
(** * Further properties *)
(* ================================================================== *)

(** ** Delay scaling *)

Lemma Math_round_monotone (x y : Q) :
  (x <= y)%Q -> Player.Math_round x <= Player.Math_round y.
Proof.
  intros Hxy. unfold Player.Math_round. apply Qfloor_resp_le.
  apply Qplus_le_compat; [exact Hxy | apply Qle_refl].
Qed.

Lemma scaled_monotone (d1 d2 : Z) :
  d1 <= d2 ->
  Player.Math_round (inject_Z d1 * Player.REPLAY_SPEED) <=
  Player.Math_round (inject_Z d2 * Player.REPLAY_SPEED).
Proof.
  intros Hle. apply Math_round_monotone.
  apply Qmult_le_compat_r; [now rewrite <- Zle_Qle | discriminate].
Qed.

(** X1. Every replay wait lies between 50 and 800 ms and grows with the
    stored delay; stored delays up to 336 ms all wait 50 ms and stored
    delays from 5330 ms on all wait 800 ms. *)
Theorem scaleDelay_bounded_monotone_saturating :
  (forall d, 50 <= Player.scaleDelay d <= 800)
  /\ (forall d1 d2, d1 <= d2 -> Player.scaleDelay d1 <= Player.scaleDelay d2)
  /\ (forall d, d <= 336 -> Player.scaleDelay d = 50)
  /\ (forall d, 5330 <= d -> Player.scaleDelay d = 800)
  /\ Player.scaleDelay 337 = 51
  /\ Player.scaleDelay 5329 = 799.
Proof.
  assert (Hmono : forall d1 d2, d1 <= d2 -> Player.scaleDelay d1 <= Player.scaleDelay d2).
  { intros d1 d2 Hle. unfold Player.scaleDelay. cbn zeta.
    pose proof (scaled_monotone d1 d2 Hle). lia. }
  assert (Hbound : forall d, 50 <= Player.scaleDelay d <= 800).
  { intros d. pose proof (scaleDelay_bounds d).
    unfold Player.MIN_DELAY, Player.MAX_DELAY in *. lia. }
  repeat split; try apply Hbound; try exact Hmono.
  - intros d Hd. pose proof (Hmono d 336 Hd) as Hle.
    change (Player.scaleDelay 336) with 50 in Hle.
    pose proof (Hbound d). lia.
  - intros d Hd. pose proof (Hmono 5330 d Hd) as Hle.
    change (Player.scaleDelay 5330) with 800 in Hle.
    pose proof (Hbound d). lia.
Qed.

Lemma scaleDelay_bounded_monotone_saturating_witness :
  Player.scaleDelay 100 <= Player.scaleDelay 4000
  /\ Player.scaleDelay 0 = 50
  /\ Player.scaleDelay 60000 = 800.
Proof.
  destruct scaleDelay_bounded_monotone_saturating as (_ & Hmono & Hlow & Hhigh & _).
  split; [apply Hmono; lia|]. split; [apply Hlow; lia | apply Hhigh; lia].
Defined.

(** ** What a replay does to the store *)

Lemma total_wait_later (events : list CacheEvent.t) :
  50 * Z.of_nat (List.length events) <=
  total_wait (flat_map (fun e => [Player.Sleep (spec_wait (CacheEvent.delay e));
                                  Player.Apply e]) events)
  <= 800 * Z.of_nat (List.length events).
Proof.
  induction events as [|e rest IH]; [cbn; lia|].
  cbn [flat_map List.length app total_wait].
  rewrite <- scaleDelay_clamp.
  pose proof (scaleDelay_bounds (CacheEvent.delay e)) as Hb.
  unfold Player.MIN_DELAY, Player.MAX_DELAY in Hb. lia.
Qed.

(** X2. A replay of [n] events is suspended [n - 1] times (never before
    the first event), for a total between [50 (n - 1)] and [800 (n - 1)]
    ms, whatever the stored delays are; an empty recording is replayed
    without any step at all. *)
Theorem replay_total_wait_bounds
    (P : Platform) (h : list (list CacheEvent.t)) (cache : SessionCache.t)
    (start : Z) (clock : nat -> Z) (s : AgentStore.t) :
  let events := deref h (SessionCache.events cache) in
  let trace := snd (Player.replayCache h cache start clock s) in
  50 * Z.of_nat (Nat.pred (List.length events)) <= total_wait trace
    <= 800 * Z.of_nat (Nat.pred (List.length events))
  /\ List.length trace = (2 * List.length events - 1)%nat.
Proof.
  cbn zeta. unfold Player.replayCache. rewrite replay_from_schedule.
  destruct (deref h (SessionCache.events cache)) as [|e rest].
  - cbn. repeat split; lia.
  - cbn [spec_schedule total_wait List.length Nat.pred].
    split; [apply total_wait_later|].
    cbn [List.length]. clear. induction rest as [|x rest IH]; [reflexivity|].
    cbn [flat_map List.length app] in *. lia.
Qed.

Section StoreFrame.

Context `{Platform}.

Lemma map_id_updated (f : Agent.t -> Agent.t) (agentId : value) (l : list Agent.t) :
  (forall a, Agent.id (f a) = Agent.id a) ->
  map Agent.id (map (fun a => if strict_eq (Agent.id a) agentId then f a else a) l) =
  map Agent.id l.
Proof.
  intros Hf. rewrite map_map. apply map_ext. intros a.
  destruct (strict_eq _ _); [apply Hf | reflexivity].
Qed.

Lemma processEvent_ids (now : Z) (e : CacheEvent.t) (s : AgentStore.t) :
  map Agent.id (AgentStore.agents (Player.processEvent now e s)) =
  (map Agent.id (AgentStore.agents s) ++
     match registered_id e with Some id => [id] | None => [] end)%list.
Proof.
  unfold Player.processEvent, registered_id.
  destruct (CacheEvent.type e); cbn [AgentStore.agents AgentStore.addAgent
    AgentStore.with_agents AgentStore.setSessionStatus];
    try (now rewrite map_app);
    try (now rewrite app_nil_r);
    try (repeat match goal with
                | |- context [if ?b then _ else _] => destruct b
                end; cbn; now rewrite app_nil_r).
  - destruct (truthy _); [|now rewrite app_nil_r].
    cbn. rewrite app_nil_r. now apply map_id_updated.
  - destruct (truthy _); [|now rewrite app_nil_r].
    destruct (AgentStore.find_running _); [|now rewrite app_nil_r].
    cbn. rewrite app_nil_r. now apply map_id_updated.
  - destruct (truthy _); [|now rewrite app_nil_r].
    cbn. rewrite app_nil_r. now apply map_id_updated.
Qed.

Lemma replay_from_ids (clock : nat -> Z) (events : list CacheEvent.t) :
  forall (i : nat) (s : AgentStore.t),
    map Agent.id (AgentStore.agents (fst (Player.replay_from clock i events s))) =
    (map Agent.id (AgentStore.agents s) ++ registered_ids events)%list.
Proof.
  induction events as [|e rest IH]; intros i s.
  - cbn. now rewrite app_nil_r.
  - cbn [Player.replay_from registered_ids].
    specialize (IH (S i) (Player.processEvent (clock i) e s)).
    destruct (Player.replay_from clock (S i) rest _) as [s'' trace].
    cbn [fst] in *. rewrite IH, processEvent_ids.
    destruct (registered_id e); [now rewrite <- app_assoc | now rewrite app_nil_r].
Qed.

End StoreFrame.

(** X3. A replay never removes, renames or reorders agents: the ids of
    the agents after it are the ids before it, followed by one id for every
    [session_started] event (its [request_id], or ['orchestrator']) and
    every [agent_spawned] event (its [agent_id]), in the order of the
    events.  Ids are not deduplicated. *)
Theorem replay_registers_agents_in_event_order
    (P : Platform) (h : list (list CacheEvent.t)) (cache : SessionCache.t)
    (start : Z) (clock : nat -> Z) (s : AgentStore.t) :
  map Agent.id (AgentStore.agents (fst (Player.replayCache h cache start clock s))) =
  (map Agent.id (AgentStore.agents s) ++
     registered_ids (deref h (SessionCache.events cache)))%list.
Proof.
  unfold Player.replayCache. now rewrite replay_from_ids.
Qed.

(** X4. Frame of the event effects.  In the player: an agent or tool
    event ([agent_spawned], [tool_called], [tool_result], [agent_complete],
    [data_received]) leaves the session part of the store as it was, and a
    session end ([session_complete], [final_result], [session_error])
    leaves the agents as they were, so agents still running stay running
    after the session has ended. *)
Theorem processEvent_frame
    (P : Platform) (now : Z) (e : CacheEvent.t) (s : AgentStore.t) :
  match CacheEvent.type e with
  | session_started => True
  | agent_spawned | tool_called | tool_result | agent_complete | data_received =>
      session_fields (Player.processEvent now e s) = session_fields s
  | session_complete | final_result | session_error =>
      AgentStore.agents (Player.processEvent now e s) = AgentStore.agents s
  end.
Proof.
  unfold Player.processEvent, session_fields.
  destruct (CacheEvent.type e); try exact I; try reflexivity;
    repeat match goal with
           | |- context [if ?b then _ else _] => destruct b
           | |- context [match ?x with Some _ => _ | None => _ end] => destruct x
           end; reflexivity.
Qed.

(** X5. Where replay is faithful.  For a recorded message, the player
    changes the store exactly as the live handler did on [tool_called],
    [data_received], [session_complete], [final_result] and
    [session_error]; on [session_started] up to the start time that the
    live handler sets; on [agent_spawned] when the message has an
    [agent_id]; on [agent_complete] when the reported status is
    ['completed']; on [tool_result] when no running tool call is found. *)
Theorem replay_matches_live_when
    (P : Platform) (message : obj) (e : CacheEvent.t) (now : Z) (s : AgentStore.t) :
  recorded_as message e ->
  match CacheEvent.type e with
  | session_started =>
      Live.dispatch message now s =
      AgentStore.setStartTime now (Player.processEvent now e s)
  | agent_spawned =>
      truthy (field "agent_id" message) = true ->
      Live.dispatch message now s = Player.processEvent now e s
  | agent_complete =>
      field "status" message = VStr "completed" ->
      Live.dispatch message now s = Player.processEvent now e s
  | tool_result =>
      AgentStore.find_running
        (AgentStore.find_agent (field "agent_id" message) s) = None ->
      Live.dispatch message now s = Player.processEvent now e s
  | _ => Live.dispatch message now s = Player.processEvent now e s
  end.
Proof.
  intros [Hdata Hclass]. unfold Live.dispatch, Player.processEvent.
  rewrite Hclass, Hdata.
  destruct (CacheEvent.type e); try reflexivity.
  - intros Hid. unfold or. now rewrite Hid.
  - intros Hnone. now rewrite Hnone.
  - intros Hstatus. now rewrite Hstatus.
Qed.

Lemma replay_matches_live_when_witness :
  let spawned := [("type", VStr "agent_spawned"); ("agent_id", VStr "agent-2");
                  ("agent_type", VStr "summary-agent")] in
  let completed := [("type", VStr "agent_complete"); ("agent_id", VStr "agent-1");
                    ("status", VStr "completed")] in
  Live.dispatch (H := Demo.platform []) spawned 7000 Example.one_tool =
    Player.processEvent (H := Demo.platform []) 7000
      (Example.event_of agent_spawned spawned 40) Example.one_tool
  /\ Live.dispatch (H := Demo.platform []) completed 7000 Example.one_tool =
     Player.processEvent (H := Demo.platform []) 7000
       (Example.event_of agent_complete completed 40) Example.one_tool
  /\ Live.dispatch (H := Demo.platform []) Example.tool_result_message 7000
       Example.idle_agent_store =
     Player.processEvent (H := Demo.platform []) 7000
       (Example.event_of tool_result Example.tool_result_message 40)
       Example.idle_agent_store.
Proof.
  cbn zeta. split; [|split].
  - apply (replay_matches_live_when (Demo.platform [])
             [("type", VStr "agent_spawned"); ("agent_id", VStr "agent-2");
              ("agent_type", VStr "summary-agent")]
             (Example.event_of agent_spawned
                [("type", VStr "agent_spawned"); ("agent_id", VStr "agent-2");
                 ("agent_type", VStr "summary-agent")] 40)
             7000 Example.one_tool).
    + split; reflexivity.
    + reflexivity.
  - apply (replay_matches_live_when (Demo.platform [])
             [("type", VStr "agent_complete"); ("agent_id", VStr "agent-1");
              ("status", VStr "completed")]
             (Example.event_of agent_complete
                [("type", VStr "agent_complete"); ("agent_id", VStr "agent-1");
                 ("status", VStr "completed")] 40)
             7000 Example.one_tool).
    + split; reflexivity.
    + reflexivity.
  - apply (replay_matches_live_when (Demo.platform []) Example.tool_result_message
             (Example.event_of tool_result Example.tool_result_message 40)
             7000 Example.idle_agent_store).
    + split; reflexivity.
    + reflexivity.
Defined.

(** ** The cache store, continued *)

Lemma strict_eq_zero (v : value) : strict_eq v (VNum 0) = false <-> v <> VNum 0.
Proof.
  destruct v; cbn; try (split; [discriminate | reflexivity]).
  rewrite Z.eqb_neq. split; [congruence|]. intros Hne Heq. apply Hne. now subst.
Qed.

Lemma getCache_hit_cases (P : Platform) (prompt : string) (w : World) (session : value) :
  snd (Storage.getCache prompt w) = Some (Some session) <->
  hasWindow w = true /\
  exists s,
    localStorage w !! key_of_prompt prompt = Some s
    /\ s <> ""
    /\ JSON_parse s = Some session
    /\ truthy (get session "isComplete") = true
    /\ truthy (get session "events") = true
    /\ get (get session "events") "length" <> VNum 0.
Proof.
  unfold Storage.getCache, key_of_prompt.
  destruct (hasWindow w); cbn [negb];
    [|split; [discriminate | intros [Hw _]; discriminate]].
  unfold Eff.try_catch at 1. rewrite getCache_try_cases. eff_unfold.
  unfold Storage.present, get.
  destruct (localStorage w !! _) as [s|];
    [|split; [discriminate | intros (_ & s & Hs & _); discriminate]].
  destruct (String.eqb_spec s "") as [-> | Hne];
    [split; [discriminate | intros (_ & s & [= <-] & Hs & _); now elim Hs]|].
  destruct (JSON_parse s) as [doc|] eqn:Hparse;
    [|split; [discriminate | intros (_ & s' & [= <-] & _ & Hp & _); congruence]].
  assert (Hrest :
    forall r : World * option (option value),
      (snd r = Some (Some session) <->
       doc = session /\
       truthy (match prop doc "isComplete" with Some x => x | None => VUndef end) = true /\
       truthy (match prop doc "events" with Some x => x | None => VUndef end) = true /\
       match prop (match prop doc "events" with Some x => x | None => VUndef end) "length"
       with Some x => x | None => VUndef end <> VNum 0) ->
      (snd r = Some (Some session) <->
       true = true /\
       exists s0, Some s = Some s0 /\ s0 <> "" /\ JSON_parse s0 = Some session /\
         truthy (match prop session "isComplete" with Some x => x | None => VUndef end) = true /\
         truthy (match prop session "events" with Some x => x | None => VUndef end) = true /\
         match prop (match prop session "events" with Some x => x | None => VUndef end) "length"
         with Some x => x | None => VUndef end <> VNum 0)).
  { intros r Hr. rewrite Hr. split.
    - intros (-> & H1 & H2 & H3). split; [reflexivity|]. exists s. repeat split; assumption.
    - intros (_ & s0 & [= <-] & _ & Hp & H1 & H2 & H3).
      rewrite Hparse in Hp. injection Hp as ->. repeat split; assumption. }
  apply Hrest. clear Hrest.
  destruct (prop doc "isComplete") as [ic|];
    [|cbn; split; [discriminate | intros (_ & Hf & _); discriminate]].
  destruct (truthy ic) eqn:Hic; cbn [negb];
    [|cbn; split; [discriminate | intros (_ & Hf & _); discriminate]].
  destruct (prop doc "events") as [ev|];
    [|cbn; split; [discriminate | intros (_ & _ & Hf & _); discriminate]].
  destruct (truthy ev) eqn:Hev; cbn [negb];
    [|cbn; split; [discriminate | intros (_ & _ & Hf & _); discriminate]].
  destruct (prop ev "length") as [len|] eqn:Hprop;
    [|destruct ev; cbn in Hev, Hprop; discriminate].
  destruct (strict_eq len (VNum 0)) eqn:Hlen; cbn [snd].
  - split; [discriminate|]. intros (_ & _ & _ & Hne0).
    apply strict_eq_zero in Hne0. congruence.
  - apply strict_eq_zero in Hlen. split.
    + intros [= ->]. repeat split. exact Hlen.
    + intros (-> & _). reflexivity.
Qed.



Section RoundTrip.

Context `{Platform}.

(** Once the entry write is accepted, the entry holds the text of the
    recording, whatever happens to the index afterwards. *)
Lemma saveCache_entry_written (cache : SessionCache.t) (w : World) (fields : obj) :
  let key := (Storage.CACHE_PREFIX ++ SessionCache.promptHash cache)%string in
  let text := JSON_stringify (Storage.SessionCache_to_value (heap w) cache) in
  hasWindow w = true ->
  storage_accepts (localStorage w) key text = true ->
  text <> "" ->
  JSON_parse text = Some (VObj fields) ->
  localStorage (fst (Storage.saveCache cache w)) !! key = Some text.
Proof.
  cbn zeta. intros Hwin Hacc Hne Hparse.
  rewrite (saveCache_cases cache w Hwin). cbn zeta. rewrite Hacc. clear Hacc.
  set (key := (Storage.CACHE_PREFIX ++ SessionCache.promptHash cache)%string) in *.
  set (text := JSON_stringify _) in *.
  assert (Hdoc : (<[key := text]> (localStorage w) : gmap string string) !! key = Some text)
    by apply lookup_insert_eq.
  unfold save_done, save_failed.
  cbn [localStorage set_localStorage].
  destruct (String.eqb_spec key Storage.CACHE_INDEX_KEY) as [Heq | Hkey].
  - assert (Hidx : stored_index (<[key := text]> (localStorage w)) = Some (VObj fields)).
    { unfold stored_index. rewrite <- Heq, Hdoc. unfold Storage.present.
      destruct (String.eqb_spec text ""); [contradiction | exact Hparse]. }
    rewrite Hidx. exact Hdoc.
  - destruct (stored_index _) as [[| |b|n|s|l|o]|]; try exact Hdoc.
    + destruct (str_includes _ _); exact Hdoc.
    + destruct (existsb _ l); [exact Hdoc|].
      destruct (storage_accepts _ _ _); [|exact Hdoc].
      cbn [fst localStorage set_localStorage set_console].
      rewrite lookup_insert_ne by congruence. exact Hdoc.
Qed.

End RoundTrip.

(** X7. Round trip of a recording.  In a browser, when the entry write
    fits the storage and the platform parses the written text back to the
    document, a recorder with at least one event that is finalized is found
    again by [getCache], under every query whose normal form has the
    recorder's hash; [getCache] returns the document of the snapshot, with
    the recorded events in their order. *)
Theorem finalized_recording_is_retrievable
    (P : Platform) (recorder : CacheRecorder.t) (date now : Z) (w : World)
    (query : string) :
  let doc := Storage.SessionCache_to_value (heap w) (snapshot recorder date now) in
  hasWindow w = true ->
  CacheRecorder.promptHash recorder = Storage.hashPrompt (normalize query) ->
  deref (heap w) (CacheRecorder.events recorder) <> [] ->
  storage_accepts (localStorage w) (key_of_prompt query) (JSON_stringify doc) = true ->
  JSON_stringify doc <> "" ->
  JSON_parse (JSON_stringify doc) = Some doc ->
  snd (Storage.getCache query
         (fst (Recorder.finalizeRecording recorder date now w))) = Some (Some doc)
  /\ get doc "events" =
     VArr (map CacheEvent.to_value (deref (heap w) (CacheRecorder.events recorder))).
Proof.
  cbn zeta. intros Hwin Hhash Hevents Hacc Hne Hparse.
  split; [|reflexivity].
  destruct (finalizeRecording_cases recorder date now w) as (w1 & Hsave & Hheap & Hfin).
  rewrite Hfin. cbn [fst].
  destruct (saveCache_total (snapshot recorder date now) w) as (w1' & Hsave' & _ & Hwin1 & _).
  rewrite Hsave in Hsave'. injection Hsave' as <-.
  apply getCache_hit_cases. cbn [hasWindow set_console localStorage].
  split; [congruence|].
  exists (JSON_stringify
            (Storage.SessionCache_to_value (heap w) (snapshot recorder date now))).
  split.
  - unfold key_of_prompt in *. fold (normalize query) in *. rewrite <- Hhash in *.
    pose proof (fun fields =>
                  saveCache_entry_written (snapshot recorder date now) w fields Hwin Hacc Hne)
      as Hw.
    cbn zeta in Hw. rewrite Hsave in Hw. cbn [fst] in Hw.
    eapply Hw. exact Hparse.
  - split; [exact Hne|]. split; [exact Hparse|].
    cbn. repeat split.
    destruct (deref (heap w) (CacheRecorder.events recorder)); [contradiction|].
    cbn. discriminate.
Qed.

Lemma finalized_recording_is_retrievable_witness :
  snd (Storage.getCache (H := RoundTripExample.platform)
         "  Is Union Square SAFE at night? "
         (fst (Recorder.finalizeRecording (H := RoundTripExample.platform)
                 RecorderExample.recorder 9000 9000 RecorderExample.world))) =
    Some (Some RoundTripExample.doc)
  /\ get RoundTripExample.doc "events" =
     VArr [CacheEvent.to_value RecorderExample.recorded_event].
Proof.
  apply (finalized_recording_is_retrievable RoundTripExample.platform
           RecorderExample.recorder 9000 9000 RecorderExample.world
           "  Is Union Square SAFE at night? ").
  - reflexivity.
  - vm_compute. reflexivity.
  - discriminate.
  - reflexivity.
  - vm_compute. discriminate.
  - vm_compute. reflexivity.
Defined.

(** X8. [saveCache] changes at most two keys of the storage: the entry
    of the recording and the index.  It leaves the index as it is when the
    index already lists the hash, and when it does change the index, the
    index was an array that did not list the hash and the new index is that
    array with the hash appended: a hash is never listed twice by saving. *)
Theorem saveCache_touches_entry_and_index_only
    (P : Platform) (cache : SessionCache.t) (w : World) :
  let hash := SessionCache.promptHash cache in
  let key := (Storage.CACHE_PREFIX ++ hash)%string in
  let ls' := localStorage (fst (Storage.saveCache cache w)) in
  hash <> "index" ->
  (forall k, k <> key -> k <> Storage.CACHE_INDEX_KEY -> ls' !! k = localStorage w !! k)
  /\ (index_lists (localStorage w) hash ->
      ls' !! Storage.CACHE_INDEX_KEY = localStorage w !! Storage.CACHE_INDEX_KEY)
  /\ (ls' !! Storage.CACHE_INDEX_KEY <> localStorage w !! Storage.CACHE_INDEX_KEY ->
      exists l, stored_index (localStorage w) = Some (VArr l)
                /\ ~ In (VStr hash) l
                /\ ls' !! Storage.CACHE_INDEX_KEY =
                   Some (JSON_stringify (VArr (l ++ [VStr hash])))).
Proof.
  cbn zeta. intros Hhash.
  pose proof (saveCache_storage cache w (entry_key_not_index _ Hhash)) as Hs.
  cbn zeta in Hs. destruct Hs as (H1 & _ & H3 & H4). repeat split; assumption.
Qed.

Lemma saveCache_touches_entry_and_index_only_witness :
  let cache := snapshot (H := RoundTripExample.platform) RecorderExample.recorder 9000 9000 in
  let w1 := fst (Storage.saveCache (H := RoundTripExample.platform) cache
                   RecorderExample.world) in
  (* first save: the index changes, from no index to the one that lists the hash *)
  localStorage w1 !! Storage.CACHE_INDEX_KEY =
    Some (@JSON_stringify RoundTripExample.platform (VArr [VStr "uykxbx"]))
  (* second save: the index is kept *)
  /\ localStorage (fst (Storage.saveCache (H := RoundTripExample.platform) cache w1))
       !! Storage.CACHE_INDEX_KEY = localStorage w1 !! Storage.CACHE_INDEX_KEY.
Proof.
  cbn zeta. split.
  - destruct (saveCache_touches_entry_and_index_only RoundTripExample.platform
                (snapshot (H := RoundTripExample.platform) RecorderExample.recorder 9000 9000)
                RecorderExample.world) as (_ & _ & Hchanged); [discriminate|].
    destruct Hchanged as (l & Hl & _ & Heq); [vm_compute; discriminate|].
    vm_compute in Hl. injection Hl as <-. exact Heq.
  - apply (saveCache_touches_entry_and_index_only RoundTripExample.platform
             (snapshot (H := RoundTripExample.platform) RecorderExample.recorder 9000 9000)
             (fst (Storage.saveCache (H := RoundTripExample.platform)
                     (snapshot (H := RoundTripExample.platform)
                        RecorderExample.recorder 9000 9000)
                     RecorderExample.world))).
    + discriminate.
    + exists [VStr "uykxbx"]. split; [vm_compute; reflexivity | left; reflexivity].
Defined.

(** ** Clearing the cache *)

Section ClearProps.

Context `{Platform}.





End ClearProps.





(** ** Recording *)

Lemma deref_push_same (h : list (list CacheEvent.t)) (l : loc) (x : list CacheEvent.t) :
  (l < List.length h)%nat -> deref (<[l := x]> h) l = x.
Proof.
  intros Hl. unfold deref. now rewrite list_lookup_insert_eq.
Qed.

Lemma deref_push_other (h : list (list CacheEvent.t)) (l l' : loc) (x : list CacheEvent.t) :
  l' <> l -> deref (<[l := x]> h) l' = deref h l'.
Proof.
  intros Hne. unfold deref. now rewrite list_lookup_insert_ne.
Qed.

Lemma sum_delays_app (a b : list CacheEvent.t) :
  sum_delays (a ++ b) = sum_delays a + sum_delays b.
Proof.
  induction a as [|e a IH]; cbn; [reflexivity|].
  unfold sum_delays in *. rewrite IH. lia.
Qed.

Lemma sum_delays_appends (last : Z) (appends : list (CacheEventType * obj * Z)) :
  sum_delays (events_of_appends last appends) = last_time last appends - last.
Proof.
  revert last. induction appends as [|[[type data] now] rest IH]; intros last.
  - cbn. lia.
  - cbn [events_of_appends last_time]. unfold sum_delays in *. cbn [fold_right].
    rewrite IH. cbn. lia.
Qed.

Lemma delays_nonnegative (last : Z) (appends : list (CacheEventType * obj * Z)) :
  clock_monotone last appends ->
  Forall (fun e => 0 <= CacheEvent.delay e) (events_of_appends last appends).
Proof.
  revert last. induction appends as [|[[type data] now] rest IH]; intros last Hmono.
  - constructor.
  - destruct Hmono as [Hle Hrest]. cbn [events_of_appends].
    constructor; [cbn; lia | now apply IH].
Qed.

Lemma record_all_live (appends : list (CacheEventType * obj * Z)) :
  forall (recorder : CacheRecorder.t) (w : World),
    CacheRecorder.isFinalized recorder = false ->
    (CacheRecorder.events recorder < List.length (heap w))%nat ->
    exists w' recorder',
      record_all recorder appends w = (w', Some recorder')
      /\ deref (heap w') (CacheRecorder.events recorder) =
         (deref (heap w) (CacheRecorder.events recorder) ++
            events_of_appends (CacheRecorder.lastEventTime recorder) appends)%list
      /\ (forall l, l <> CacheRecorder.events recorder ->
                    deref (heap w') l = deref (heap w) l)
      /\ List.length (heap w') = List.length (heap w)
      /\ localStorage w' = localStorage w
      /\ recorder' =
         {| CacheRecorder.promptHash := CacheRecorder.promptHash recorder;
            CacheRecorder.prompt := CacheRecorder.prompt recorder;
            CacheRecorder.events := CacheRecorder.events recorder;
            CacheRecorder.startTime := CacheRecorder.startTime recorder;
            CacheRecorder.lastEventTime :=
              last_time (CacheRecorder.lastEventTime recorder) appends;
            CacheRecorder.isFinalized := false |}.
Proof.
  induction appends as [|[[type data] now] rest IH]; intros recorder w Hfin Hloc.
  - exists w, recorder. cbn. rewrite app_nil_r. repeat split.
    destruct recorder; cbn in *; now subst.
  - cbn [record_all]. unfold Eff.bind at 1, Recorder.recordEvent. rewrite Hfin.
    unfold Eff.bind, Recorder.array_push, Eff.print, Eff.ret.
    cbn [heap set_heap set_console console].
    match goal with
    | |- context [record_all ?r rest ?w1] =>
        destruct (IH r w1 eq_refl) as (w' & r' & Heq & Harr & Hother & Hlen & Hls & Hr')
    end.
    { cbn [heap set_heap set_console CacheRecorder.events]. now rewrite length_insert. }
    exists w', r'. split; [exact Heq|].
    cbn [heap set_heap set_console CacheRecorder.events CacheRecorder.lastEventTime
         CacheRecorder.promptHash CacheRecorder.prompt CacheRecorder.startTime
         localStorage] in *.
    repeat split.
    + rewrite Harr, deref_push_same by exact Hloc.
      cbn [events_of_appends]. now rewrite <- app_assoc.
    + intros l Hl. rewrite (Hother l Hl). now apply deref_push_other.
    + now rewrite Hlen, length_insert.
    + exact Hls.
    + exact Hr'.
Qed.

(** X11. Appends to a live recorder.  On a recorder that is not
    finalized, a series of appends returns normally and extends the
    recorder's array, in the order of the appends, by one event per append:
    the given type and data, the clock reading as [timestamp], and the time
    since the previous append (since [lastEventTime] for the first) as
    [delay].  No other array and no stored entry changes, the recorder stays
    live, and when the clock readings never go back every recorded delay is
    non-negative. *)
Theorem appends_are_recorded_in_order
    (recorder : CacheRecorder.t) (appends : list (CacheEventType * obj * Z))
    (w : World) :
  CacheRecorder.isFinalized recorder = false ->
  (CacheRecorder.events recorder < List.length (heap w))%nat ->
  exists w' recorder',
    record_all recorder appends w = (w', Some recorder')
    /\ deref (heap w') (CacheRecorder.events recorder) =
       (deref (heap w) (CacheRecorder.events recorder) ++
          events_of_appends (CacheRecorder.lastEventTime recorder) appends)%list
    /\ (forall l, l <> CacheRecorder.events recorder ->
                  deref (heap w') l = deref (heap w) l)
    /\ localStorage w' = localStorage w
    /\ CacheRecorder.isFinalized recorder' = false
    /\ CacheRecorder.lastEventTime recorder' =
       last_time (CacheRecorder.lastEventTime recorder) appends
    /\ (clock_monotone (CacheRecorder.lastEventTime recorder) appends ->
        Forall (fun e => 0 <= CacheEvent.delay e)
               (events_of_appends (CacheRecorder.lastEventTime recorder) appends)).
Proof.
  intros Hfin Hloc.
  destruct (record_all_live appends recorder w Hfin Hloc)
    as (w' & r' & Heq & Harr & Hother & _ & Hls & ->).
  eexists w', _. split; [exact Heq|]. repeat split; try assumption.
  apply delays_nonnegative.
Qed.

Lemma appends_are_recorded_in_order_witness :
  exists w' recorder',
    record_all RecorderExample.recorder
      [(tool_called, [("type", VStr "tool_called")], 7400);
       (session_complete, [("type", VStr "session_complete")], 9000)]
      RecorderExample.world = (w', Some recorder')
    /\ map CacheEvent.delay (deref (heap w') 0%nat) = [300; 100; 1600]
    /\ CacheRecorder.lastEventTime recorder' = 9000
    /\ Forall (fun e => 0 <= CacheEvent.delay e)
         (events_of_appends 7300
            [(tool_called, [("type", VStr "tool_called")], 7400);
             (session_complete, [("type", VStr "session_complete")], 9000)]).
Proof.
  destruct (appends_are_recorded_in_order RecorderExample.recorder
              [(tool_called, [("type", VStr "tool_called")], 7400);
               (session_complete, [("type", VStr "session_complete")], 9000)]
              RecorderExample.world)
    as (w' & r' & Heq & Harr & _ & _ & _ & Hlast & Hmono).
  - reflexivity.
  - cbn. lia.
  - exists w', r'. split; [exact Heq|]. split; [|split; [exact Hlast|]].
    + change (CacheRecorder.events RecorderExample.recorder) with 0%nat in Harr.
      rewrite Harr. reflexivity.
    + apply Hmono. cbn. lia.
Defined.

(** X12. The delays of a recording add up.  A recorder made by
    [createRecorder] has an empty array of its own, and every append keeps
    this true: the sum of the recorded delays is the time between the
    creation of the recorder and its last event.  Hence the [totalDuration]
    written by a finalization at clock reading [now] is that sum plus the
    time since the last event. *)
Theorem recorded_delays_add_up (P : Platform) :
  (forall prompt now w,
      exists w' recorder,
        Recorder.createRecorder prompt now w = (w', Some recorder)
        /\ recorder_consistent w' recorder
        /\ deref (heap w') (CacheRecorder.events recorder) = []
        /\ CacheRecorder.isFinalized recorder = false
        /\ (forall l, (l < List.length (heap w))%nat ->
                      l <> CacheRecorder.events recorder /\
                      deref (heap w') l = deref (heap w) l))
  /\ (forall recorder type data now w,
         recorder_consistent w recorder ->
         exists w' recorder',
           Recorder.recordEvent recorder type data now w = (w', Some recorder')
           /\ recorder_consistent w' recorder')
  /\ (forall recorder date now w,
         recorder_consistent w recorder ->
         SessionCache.totalDuration (snapshot recorder date now) =
         sum_delays (deref (heap w) (CacheRecorder.events recorder)) +
         (now - CacheRecorder.lastEventTime recorder)).
Proof.
  split; [|split].
  - intros prompt now w. unfold Recorder.createRecorder, Recorder.new_array.
    eff_unfold. eexists _, _. split; [reflexivity|].
    unfold recorder_consistent.
    cbn [heap set_heap CacheRecorder.events CacheRecorder.isFinalized].
    assert (Hnew : deref (heap w ++ [[]]) (List.length (heap w)) = []).
    { unfold deref. rewrite lookup_app_r by lia.
      now replace (List.length (heap w) - List.length (heap w))%nat with 0%nat by lia. }
    split; [|split; [exact Hnew | split; [reflexivity|]]].
    + split; [rewrite length_app; cbn; lia|].
      cbn [CacheRecorder.events CacheRecorder.lastEventTime CacheRecorder.startTime].
      rewrite Hnew. cbn. lia.
    + intros l Hl. split; [lia|]. unfold deref. now rewrite lookup_app_l by exact Hl.
  - intros recorder type data now w [Hloc Hsum]. unfold Recorder.recordEvent.
    destruct (CacheRecorder.isFinalized recorder).
    + eexists _, _. split; [reflexivity|]. split; assumption.
    + eexists _, _. split; [reflexivity|].
      unfold recorder_consistent.
      cbn [heap set_heap set_console CacheRecorder.events CacheRecorder.lastEventTime
           CacheRecorder.startTime].
      split; [now rewrite length_insert|].
      rewrite deref_push_same by exact Hloc.
      rewrite sum_delays_app, Hsum. cbn. lia.
  - intros recorder date now w [_ Hsum]. cbn. rewrite Hsum. lia.
Qed.

Lemma recorded_delays_add_up_witness :
  recorder_consistent RecorderExample.world RecorderExample.recorder
  /\ (exists w' recorder',
         Recorder.recordEvent RecorderExample.recorder tool_called
           [("type", VStr "tool_called")] 7400 RecorderExample.world = (w', Some recorder')
         /\ recorder_consistent w' recorder')
  /\ SessionCache.totalDuration
       (snapshot (H := Demo.platform []) RecorderExample.recorder 9000 9000) =
     sum_delays (deref (heap RecorderExample.world)
                   (CacheRecorder.events RecorderExample.recorder)) +
     (9000 - CacheRecorder.lastEventTime RecorderExample.recorder).
Proof.
  assert (Hok : recorder_consistent RecorderExample.world RecorderExample.recorder).
  { split; [cbn; lia | reflexivity]. }
  split; [exact Hok|]. split.
  - apply (proj1 (proj2 (recorded_delays_add_up (Demo.platform []))) RecorderExample.recorder
             tool_called [("type", VStr "tool_called")] 7400 RecorderExample.world Hok).
  - apply (proj2 (proj2 (recorded_delays_add_up (Demo.platform []))) RecorderExample.recorder
             9000 9000 RecorderExample.world Hok).
Defined.

(** ** The live handler, continued *)

Section LiveProps.

Context `{Platform}.

Lemma saveCache_entry_written_ne (cache : SessionCache.t) (w : World) :
  let key := (Storage.CACHE_PREFIX ++ SessionCache.promptHash cache)%string in
  let text := JSON_stringify (Storage.SessionCache_to_value (heap w) cache) in
  hasWindow w = true ->
  SessionCache.promptHash cache <> "index" ->
  storage_accepts (localStorage w) key text = true ->
  localStorage (fst (Storage.saveCache cache w)) !! key = Some text.
Proof.
  cbn zeta. intros Hwin Hhash Hacc.
  pose proof (entry_key_not_index _ Hhash) as Hkey.
  rewrite (saveCache_cases cache w Hwin). cbn zeta. rewrite Hacc. clear Hacc.
  set (key := (Storage.CACHE_PREFIX ++ SessionCache.promptHash cache)%string) in *.
  set (text := JSON_stringify _) in *.
  assert (Hdoc : (<[key := text]> (localStorage w) : gmap string string) !! key = Some text)
    by apply lookup_insert_eq.
  unfold save_done, save_failed. cbn [localStorage set_localStorage].
  destruct (stored_index _) as [[| |b|n|s|l|o]|]; try exact Hdoc.
  - destruct (str_includes _ _); exact Hdoc.
  - destruct (existsb _ l); [exact Hdoc|].
    destruct (storage_accepts _ _ _); [|exact Hdoc].
    cbn [fst localStorage set_localStorage set_console].
    rewrite lookup_insert_ne by congruence. exact Hdoc.
Qed.

End LiveProps.

(** X13. The end of a live session is part of its recording.  When a
    [session_complete] or [final_result] message arrives while a recorder is
    live, the handler first appends the message to the recorder, with the
    clock reading of [recordEvent] as its time, then finalizes: the recorder
    reference is dropped, and the text written under the recorder's key
    (when the write fits, and the hash is not ['index']) is the document
    whose events are the earlier events followed by the terminal one, whose
    [recordedAt] is the date read by [finalizeRecording] and whose
    [totalDuration] runs up to the [Date.now()] read after it. *)
Theorem terminal_message_is_recorded_then_saved
    (P : Platform) (message : obj) (clock : Live.Clock) (recorder : CacheRecorder.t)
    (s : AgentStore.t) (w : World) (type : CacheEventType) :
  let terminal := {| CacheEvent.type := type; CacheEvent.data := message;
                     CacheEvent.timestamp := Live.at_record clock;
                     CacheEvent.delay :=
                       Live.at_record clock - CacheRecorder.lastEventTime recorder |} in
  let recorded := (deref (heap w) (CacheRecorder.events recorder) ++ [terminal])%list in
  let key := (Storage.CACHE_PREFIX ++ CacheRecorder.promptHash recorder)%string in
  let text :=
    JSON_stringify
      (VObj [("promptHash", VStr (CacheRecorder.promptHash recorder));
             ("prompt", VStr (CacheRecorder.prompt recorder));
             ("events", VArr (map CacheEvent.to_value recorded));
             ("recordedAt", VStr (toISOString (Live.at_finalize_date clock)));
             ("totalDuration",
              VNum (Live.at_finalize clock - CacheRecorder.startTime recorder));
             ("isComplete", VBool true)]) in
  type = session_complete \/ type = final_result ->
  Live.classify (field "type" message) = Live.Recordable type ->
  CacheRecorder.isFinalized recorder = false ->
  (CacheRecorder.events recorder < List.length (heap w))%nat ->
  hasWindow w = true ->
  CacheRecorder.promptHash recorder <> "index" ->
  storage_accepts (localStorage w) key text = true ->
  exists w',
    Live.handleEvent message true clock
      {| Live.store := s; Live.recorderRef := Some recorder |} w =
    (w', Some {| Live.store := Live.dispatch message (Live.at_switch clock) s;
                 Live.recorderRef := None |})
    /\ deref (heap w') (CacheRecorder.events recorder) = recorded
    /\ localStorage w' !! key = Some text.
Proof.
  cbn zeta. intros Htype Hclass Hfin Hloc Hwin Hhash Hacc.
  unfold Live.handleEvent, Live.record_if_active. cbn [Live.recorderRef Live.store].
  rewrite Hfin, Hclass. cbn [negb andb].
  unfold Recorder.recordEvent. rewrite Hfin.
  unfold Eff.bind at 1 2 3 4 5, Eff.print at 1, Eff.ret at 1 2, Recorder.array_push.
  cbn [heap set_heap set_console console].
  set (recorder1 := CacheRecorder.mk _ _ _ _ (Live.at_record clock) false).
  set (w1 := set_console _ _).
  set (date := Live.at_finalize_date clock). set (now := Live.at_finalize clock).
  assert (Hderef : deref (heap w1) (CacheRecorder.events recorder) =
            (deref (heap w) (CacheRecorder.events recorder) ++
               [{| CacheEvent.type := type; CacheEvent.data := message;
                   CacheEvent.timestamp := Live.at_record clock;
                   CacheEvent.delay :=
                     Live.at_record clock - CacheRecorder.lastEventTime recorder |}])%list).
  { subst w1. cbn [heap set_heap set_console]. now apply deref_push_same. }
  destruct (finalizeRecording_cases recorder1 date now w1) as (w2 & Hsave & Hheap & Hfinal).
  assert (Hfinalize : Live.finalize_if_active date now (Some recorder1) w1 =
            (set_console
               (console w2 ++
                  [Log_Finalized (List.length (deref (heap w1) (CacheRecorder.events recorder1)))
                     (now - CacheRecorder.startTime recorder1)]) w2, Some None)).
  { unfold Live.finalize_if_active. cbn [CacheRecorder.isFinalized recorder1 negb].
    unfold Eff.bind. rewrite Hfinal. reflexivity. }
  assert (Hentry : localStorage w2 !!
                     (Storage.CACHE_PREFIX ++ CacheRecorder.promptHash recorder)%string =
                   Some (JSON_stringify
                           (Storage.SessionCache_to_value (heap w1)
                              (snapshot recorder1 date now)))).
  { pose proof (saveCache_entry_written_ne (snapshot recorder1 date now) w1) as Hw.
    cbn zeta in Hw. rewrite Hsave in Hw. cbn [fst] in Hw.
    apply Hw; [exact Hwin | exact Hhash|].
    unfold Storage.SessionCache_to_value.
    cbn [snapshot SessionCache.promptHash SessionCache.prompt SessionCache.events
         SessionCache.recordedAt SessionCache.totalDuration SessionCache.isComplete
         recorder1 CacheRecorder.promptHash CacheRecorder.prompt CacheRecorder.events
         CacheRecorder.startTime].
    rewrite Hderef. exact Hacc. }
  match type of Hfinalize with
  | _ = (?w3, _) =>
      destruct (print_call_prints
                  (Live.console_call message (Live.at_switch clock)) w3)
        as (w' & Hprint & _ & _ & Hls & Hheap' & _)
  end.
  exists w'. split.
  - destruct Htype as [-> | ->]; rewrite Hfinalize; cbv beta iota;
      unfold Eff.bind, Eff.ret; rewrite Hprint; reflexivity.
  - cbn [heap localStorage set_console] in Hls, Hheap'.
    rewrite Hheap', Hheap, Hls. split; [exact Hderef|]. rewrite Hentry.
    unfold Storage.SessionCache_to_value.
    cbn [snapshot SessionCache.promptHash SessionCache.prompt SessionCache.events
         SessionCache.recordedAt SessionCache.totalDuration SessionCache.isComplete
         recorder1 CacheRecorder.promptHash CacheRecorder.prompt CacheRecorder.events
         CacheRecorder.startTime].
    now rewrite Hderef.
Qed.

Lemma terminal_message_is_recorded_then_saved_witness :
  let message := [("type", VStr "session_complete"); ("duration_ms", VNum 2000)] in
  let clock := Live.mkClock 9000 9001 9002 9004 in
  exists w',
    Live.handleEvent (H := Demo.platform []) message true clock
      {| Live.store := Example.one_tool;
         Live.recorderRef := Some RecorderExample.recorder |} RecorderExample.world =
    (w', Some {| Live.store := Live.dispatch (H := Demo.platform []) message 9001
                                 Example.one_tool;
                 Live.recorderRef := None |})
    /\ map CacheEvent.type (deref (heap w') 0%nat) = [session_started; session_complete]
    /\ map CacheEvent.timestamp (deref (heap w') 0%nat) = [7300; 9000]
    /\ option_map (fun text => (str_includes text "epoch+9002ms",
                                 str_includes text "2004"))
         (localStorage w' !! "safesf_cache_uykxbx"%string) = Some (true, true).
Proof.
  cbn zeta.
  destruct (terminal_message_is_recorded_then_saved (Demo.platform [])
              [("type", VStr "session_complete"); ("duration_ms", VNum 2000)]
              (Live.mkClock 9000 9001 9002 9004)
              RecorderExample.recorder Example.one_tool RecorderExample.world
              session_complete)
    as (w' & Heq & Harr & Hentry).
  - left. reflexivity.
  - reflexivity.
  - reflexivity.
  - cbn. lia.
  - reflexivity.
  - discriminate.
  - reflexivity.
  - exists w'. split; [exact Heq|].
    change (CacheRecorder.events RecorderExample.recorder) with 0%nat in Harr.
    rewrite Harr.
    change (Storage.CACHE_PREFIX ++ CacheRecorder.promptHash RecorderExample.recorder)%string
      with "safesf_cache_uykxbx"%string in Hentry.
    rewrite Hentry. split; [reflexivity|]. split; [reflexivity|].
    vm_compute. reflexivity.
Defined.

(** X14. Only the end of a session saves.  A message that is neither
    [session_complete] nor [final_result] never changes the storage and
    never drops or seals the recorder, so a session that ends in
    [session_error] (or in an [error] message) leaves no recording; a
    message whose type is not one of the nine recordable types ([error],
    [pong], anything unknown) is not recorded either: the recorder, the
    arrays and the storage stay as they were, and the only change of the
    browser state is the line that the handler prints for its case (an
    error line for [error], the unknown-event line for an unknown type, no
    line for [pong]). *)
Theorem only_terminal_messages_save
    (P : Platform) (message : obj) (shouldRecord : bool) (clock : Live.Clock)
    (st : Live.t) (w : World) :
  Live.classify (field "type" message) <> Live.Recordable session_complete ->
  Live.classify (field "type" message) <> Live.Recordable final_result ->
  exists w' ref',
    Live.handleEvent message shouldRecord clock st w =
    (w', Some {| Live.store := Live.dispatch message (Live.at_switch clock) (Live.store st);
                 Live.recorderRef := ref' |})
    /\ localStorage w' = localStorage w
    /\ (ref' = None <-> Live.recorderRef st = None)
    /\ (forall r', ref' = Some r' ->
          exists r, Live.recorderRef st = Some r /\
                    CacheRecorder.isFinalized r' = CacheRecorder.isFinalized r)
    /\ ((forall t, Live.classify (field "type" message) <> Live.Recordable t) ->
        prints w w' (lines (Live.console_call message (Live.at_switch clock)))
        /\ ref' = Live.recorderRef st)
    /\ (Live.classify (field "type" message) = Live.ErrorMessage ->
        console w' = (console w ++ [Error_WS_Error (field "error" message)])%list)
    /\ (Live.classify (field "type" message) = Live.Unknown ->
        console w' =
        (console w ++ [Log_WS_Unknown (field "type" message) message])%list)
    /\ (Live.classify (field "type" message) = Live.Pong -> console w' = console w).
Proof.
  intros Hsc Hfr.
  assert (Hrec : exists w1 ref1,
             Live.record_if_active message shouldRecord (Live.at_record clock)
               (Live.recorderRef st) w = (w1, Some ref1)
             /\ localStorage w1 = localStorage w
             /\ (ref1 = None <-> Live.recorderRef st = None)
             /\ (forall r', ref1 = Some r' ->
                   exists r, Live.recorderRef st = Some r /\
                             CacheRecorder.isFinalized r' = CacheRecorder.isFinalized r)
             /\ ((forall t, Live.classify (field "type" message) <> Live.Recordable t) ->
                 w1 = w /\ ref1 = Live.recorderRef st)).
  { unfold Live.record_if_active.
    destruct (Live.recorderRef st) as [recorder|] eqn:Href;
      [|exists w, None; repeat split; discriminate].
    destruct (shouldRecord && negb (CacheRecorder.isFinalized recorder)) eqn:Hguard;
      [|exists w, (Some recorder); split; [reflexivity|]; split; [reflexivity|];
        split; [split; discriminate|];
        split; [intros r' [= <-]; now exists recorder | now split]].
    destruct (Live.classify (field "type" message)) as [t| | |] eqn:Hclass;
      try (exists w, (Some recorder); split; [reflexivity|]; split; [reflexivity|];
           split; [split; discriminate|];
           split; [intros r' [= <-]; now exists recorder | now split]).
    unfold Recorder.recordEvent.
    destruct (CacheRecorder.isFinalized recorder) eqn:Hfin;
      [now rewrite andb_false_r in Hguard|].
    eff_unfold. eexists _, _. split; [reflexivity|]. split; [reflexivity|].
    split; [split; discriminate|].
    split; [intros r' [= <-]; exists recorder; split; [reflexivity | now rewrite Hfin]
           |intros Hnone; now elim (Hnone _ eq_refl)]. }
  destruct Hrec as (w1 & ref1 & Hrec & Hls1 & Hnone & Hseal & Hsame).
  destruct (print_call_prints (Live.console_call message (Live.at_switch clock)) w1)
    as (w' & Hprint & Hprints).
  exists w', ref1. split.
  { unfold Live.handleEvent. unfold Eff.bind at 1. rewrite Hrec.
    assert (Hmid : match Live.classify (field "type" message) with
                   | Live.Recordable session_complete | Live.Recordable final_result =>
                       Live.finalize_if_active (Live.at_finalize_date clock)
                         (Live.at_finalize clock) ref1
                   | _ => Eff.ret ref1
                   end = Eff.ret ref1).
    { destruct (Live.classify (field "type" message)) as [[]| | |];
        try reflexivity; congruence. }
    rewrite Hmid. unfold Eff.bind, Eff.ret. now rewrite Hprint. }
  destruct Hprints as (Hwin & Hflag & Hls & Hheap & Hconsole).
  split; [now rewrite Hls|]. split; [exact Hnone|]. split; [exact Hseal|].
  assert (Hquiet : forall c,
            Live.classify (field "type" message) = c ->
            (forall t, c <> Live.Recordable t) ->
            console w' =
            (console w ++ lines (Live.console_call message (Live.at_switch clock)))%list).
  { intros c Hc Hnot. destruct Hsame as [-> _]; [|exact Hconsole].
    intros t. rewrite Hc. apply Hnot. }
  split; [|split; [|split]].
  - intros Hnot. destruct (Hsame Hnot) as [-> ->].
    split; [|reflexivity]. repeat split; assumption.
  - intros Hc. rewrite (Hquiet _ Hc) by discriminate.
    unfold Live.console_call. now rewrite Hc.
  - intros Hc. rewrite (Hquiet _ Hc) by discriminate.
    unfold Live.console_call. now rewrite Hc.
  - intros Hc. rewrite (Hquiet _ Hc) by discriminate.
    unfold Live.console_call. rewrite Hc. cbn. now rewrite app_nil_r.
Qed.

Lemma only_terminal_messages_save_witness :
  let failed := [("type", VStr "session_error"); ("error", VStr "backend down")] in
  let clock := Live.mkClock 9000 9001 9002 9004 in
  let st := {| Live.store := Example.one_tool;
               Live.recorderRef := Some RecorderExample.recorder |} in
  (exists w' ref',
      Live.handleEvent (H := Demo.platform []) failed true clock st RecorderExample.world =
      (w', Some {| Live.store := Live.dispatch (H := Demo.platform []) failed 9001
                                   Example.one_tool;
                   Live.recorderRef := ref' |})
      /\ localStorage w' = localStorage RecorderExample.world
      /\ ref' <> None)
  /\ (console (fst (Live.handleEvent (H := Demo.platform []) [("type", VStr "pong")]
                      true clock st RecorderExample.world)) =
      console RecorderExample.world
      /\ heap (fst (Live.handleEvent (H := Demo.platform []) [("type", VStr "pong")]
                      true clock st RecorderExample.world)) =
         heap RecorderExample.world)
  /\ console (fst (Live.handleEvent (H := Demo.platform [])
                     [("type", VStr "error"); ("error", VStr "bad request")]
                     true clock st RecorderExample.world)) =
     (console RecorderExample.world ++ [Error_WS_Error (VStr "bad request")])%list
  /\ console (fst (Live.handleEvent (H := Demo.platform []) [("type", VStr "hello")]
                     true clock st RecorderExample.world)) =
     (console RecorderExample.world ++
        [Log_WS_Unknown (VStr "hello") [("type", VStr "hello")]])%list.
Proof.
  cbn zeta. split; [|split; [|split]].
  - destruct (only_terminal_messages_save (Demo.platform [])
                [("type", VStr "session_error"); ("error", VStr "backend down")] true
                (Live.mkClock 9000 9001 9002 9004)
                {| Live.store := Example.one_tool;
                   Live.recorderRef := Some RecorderExample.recorder |}
                RecorderExample.world)
      as (w' & ref' & Heq & Hls & Hnone & _); [discriminate | discriminate|].
    exists w', ref'. split; [exact Heq|]. split; [exact Hls|].
    intros Href. apply Hnone in Href. discriminate Href.
  - destruct (only_terminal_messages_save (Demo.platform [])
                [("type", VStr "pong")] true (Live.mkClock 9000 9001 9002 9004)
                {| Live.store := Example.one_tool;
                   Live.recorderRef := Some RecorderExample.recorder |}
                RecorderExample.world)
      as (w' & ref' & Heq & _ & _ & _ & Hquiet & _ & _ & Hpong);
      [discriminate | discriminate|].
    rewrite Heq. cbn [fst]. split; [apply Hpong; reflexivity|].
    destruct Hquiet as [(_ & _ & _ & Hheap & _) _]; [intros t; discriminate|].
    exact Hheap.
  - destruct (only_terminal_messages_save (Demo.platform [])
                [("type", VStr "error"); ("error", VStr "bad request")] true
                (Live.mkClock 9000 9001 9002 9004)
                {| Live.store := Example.one_tool;
                   Live.recorderRef := Some RecorderExample.recorder |}
                RecorderExample.world)
      as (w' & ref' & Heq & _ & _ & _ & _ & Herr & _); [discriminate | discriminate|].
    rewrite Heq. cbn [fst]. apply Herr. reflexivity.
  - destruct (only_terminal_messages_save (Demo.platform [])
                [("type", VStr "hello")] true (Live.mkClock 9000 9001 9002 9004)
                {| Live.store := Example.one_tool;
                   Live.recorderRef := Some RecorderExample.recorder |}
                RecorderExample.world)
      as (w' & ref' & Heq & _ & _ & _ & _ & _ & Hunknown & _); [discriminate | discriminate|].
    rewrite Heq. cbn [fst]. apply Hunknown. reflexivity.
Defined.

(** ** Hashing and normalisation *)

Lemma ToInt32_range (z : Z) : - 2 ^ 31 <= ToInt32 z < 2 ^ 31.
Proof.
  unfold ToInt32.
  pose proof (Z.mod_pos_bound (z + 2 ^ 31) (2 ^ 32) ltac:(lia)). lia.
Qed.

Lemma ToInt32_congruent (a k : Z) : ToInt32 (a + k * 2 ^ 32) = ToInt32 a.
Proof.
  unfold ToInt32. f_equal.
  replace (a + k * 2 ^ 32 + 2 ^ 31) with (a + 2 ^ 31 + k * 2 ^ 32) by lia.
  apply Z_mod_plus_full.
Qed.

Lemma hash_step_31 (hash : Z) (c : ascii) :
  Storage.hash_step hash c = ToInt32 (31 * hash + charCodeAt c).
Proof.
  unfold Storage.hash_step.
  assert (Hwrap : ToInt32 (hash * 32) = hash * 32 + (- ((hash * 32 + 2 ^ 31) / 2 ^ 32)) * 2 ^ 32).
  { unfold ToInt32. rewrite Z.mod_eq by lia. lia. }
  rewrite Hwrap.
  replace (hash * 32 + - ((hash * 32 + 2 ^ 31) / 2 ^ 32) * 2 ^ 32 - hash + charCodeAt c)
    with (31 * hash + charCodeAt c + (- ((hash * 32 + 2 ^ 31) / 2 ^ 32)) * 2 ^ 32) by lia.
  apply ToInt32_congruent.
Qed.

Lemma hash_loop_range (s : string) :
  forall hash, - 2 ^ 31 <= hash < 2 ^ 31 ->
               - 2 ^ 31 <= Storage.hash_loop hash s < 2 ^ 31.
Proof.
  induction s as [|c rest IH]; intros hash Hrange; [exact Hrange|].
  cbn [Storage.hash_loop]. apply IH. unfold Storage.hash_step. apply ToInt32_range.
Qed.

Lemma digit_value_digit36 (d : Z) : 0 <= d < 36 -> digit_value (digit36 d) = d.
Proof.
  intros Hd. unfold digit_value, digit36.
  destruct (Z.ltb_spec d 10).
  - rewrite nat_ascii_embedding by lia. rewrite Z2Nat.id by lia.
    destruct (Z.ltb_spec (48 + d) 58); lia.
  - rewrite nat_ascii_embedding by lia. rewrite Z2Nat.id by lia.
    destruct (Z.ltb_spec (87 + d) 58); lia.
Qed.

Lemma parse36_toString36_fuel (fuel : nat) :
  forall n acc, 0 <= n < 36 ^ Z.of_nat fuel ->
    parse36_onto (toString36_fuel fuel n acc) 0 = parse36_onto acc n.
Proof.
  induction fuel as [|fuel IH]; intros n acc Hn.
  - cbn in Hn. cbn. now replace n with 0 by lia.
  - cbn [toString36_fuel].
    pose proof (Z.mod_pos_bound n 36 ltac:(lia)) as Hmod.
    destruct (Z.ltb_spec n 36) as [Hlt | Hge].
    + cbn [parse36_onto]. rewrite digit_value_digit36 by lia.
      rewrite Z.mod_small by lia. f_equal.
    + rewrite IH.
      * cbn [parse36_onto]. rewrite digit_value_digit36 by lia. f_equal.
        pose proof (Z.div_mod n 36 ltac:(lia)). lia.
      * rewrite Nat2Z.inj_succ, Z.pow_succ_r in Hn by lia.
        split; [apply Z.div_pos; lia|]. apply Z.div_lt_upper_bound; lia.
Qed.

Lemma parse36_toString36 (n : Z) : 0 <= n -> parse36 (toString36 n) = n.
Proof.
  intros Hn. unfold parse36, toString36. rewrite parse36_toString36_fuel; [reflexivity|].
  split; [exact Hn|].
  rewrite Nat2Z.inj_succ, Z2Nat.id by apply Z.log2_nonneg.
  destruct (Z.eq_dec n 0) as [-> | Hpos]; [cbn; lia|].
  pose proof (Z.log2_spec n ltac:(lia)) as [_ Hlt].
  pose proof (Z.log2_nonneg n).
  assert (2 ^ Z.succ (Z.log2 n) <= 36 ^ Z.succ (Z.log2 n))
    by (apply Z.pow_le_mono_l; lia).
  lia.
Qed.

(** X15. The cache key of a prompt.  The hash of [hashPrompt] is the
    polynomial hash with multiplier 31 over the character codes, kept in the
    signed 32-bit range at every step; the key is the base-36 text of its
    absolute value and decodes back to it.  Hence two prompts get the same
    key exactly when their 32-bit hashes are equal or opposite. *)
Theorem hashPrompt_is_base36_of_the_int32_hash :
  (forall hash c, Storage.hash_step hash c = ToInt32 (31 * hash + charCodeAt c))
  /\ (forall prompt, - 2 ^ 31 <= Storage.hash_loop 0 prompt < 2 ^ 31)
  /\ (forall prompt,
         parse36 (Storage.hashPrompt prompt) = Z.abs (Storage.hash_loop 0 prompt))
  /\ (forall p q,
         Storage.hashPrompt p = Storage.hashPrompt q <->
         Storage.hash_loop 0 p = Storage.hash_loop 0 q \/
         Storage.hash_loop 0 p = - Storage.hash_loop 0 q).
Proof.
  assert (Hdecode : forall prompt,
             parse36 (Storage.hashPrompt prompt) = Z.abs (Storage.hash_loop 0 prompt)).
  { intros prompt. unfold Storage.hashPrompt. apply parse36_toString36. lia. }
  split; [exact hash_step_31|]. split; [|split; [exact Hdecode|]].
  - intros prompt. apply hash_loop_range. lia.
  - intros p q. split.
    + intros Heq. apply (f_equal parse36) in Heq. rewrite !Hdecode in Heq. lia.
    + intros Habs. unfold Storage.hashPrompt. f_equal. lia.
Qed.

Lemma hashPrompt_is_base36_of_the_int32_hash_witness :
  Storage.hash_loop 0 "hi" = 3329
  /\ parse36 (Storage.hashPrompt "hi") = 3329
  /\ Storage.hashPrompt "hi" = Storage.hashPrompt "hi".
Proof.
  destruct hashPrompt_is_base36_of_the_int32_hash as (_ & _ & Hdecode & Hsame).
  split; [reflexivity|]. split; [apply (Hdecode "hi")|].
  apply (Hsame "hi" "hi"). left. reflexivity.
Defined.

Lemma append_assoc (a b c : string) : ((a ++ b) ++ c)%string = (a ++ (b ++ c))%string.
Proof.
  induction a as [|x a IH]; [reflexivity|].
  change (String x ((a ++ b) ++ c) = String x (a ++ (b ++ c)))%string. now f_equal.
Qed.

Lemma append_empty_r (a : string) : (a ++ "")%string = a.
Proof.
  induction a as [|x a IH]; [reflexivity|].
  change (String x (a ++ "") = String x a)%string. now f_equal.
Qed.

Lemma string_rev_onto_append (s acc : string) :
  string_rev_onto s acc = (string_rev s ++ acc)%string.
Proof.
  revert acc. induction s as [|c s IH]; intros acc; [reflexivity|].
  unfold string_rev. cbn [string_rev_onto].
  rewrite (IH (String c acc)), (IH (String c "")), append_assoc. reflexivity.
Qed.

Lemma string_rev_cons (c : ascii) (s : string) :
  string_rev (String c s) = (string_rev s ++ String c "")%string.
Proof. unfold string_rev at 1. cbn [string_rev_onto]. apply string_rev_onto_append. Qed.

Lemma string_rev_append (a b : string) :
  string_rev (a ++ b) = (string_rev b ++ string_rev a)%string.
Proof.
  induction a as [|c a IH].
  - change (string_rev b = (string_rev b ++ "")%string). now rewrite append_empty_r.
  - change (String c a ++ b)%string with (String c (a ++ b))%string.
    rewrite !string_rev_cons, IH. apply append_assoc.
Qed.

Lemma string_rev_involutive (s : string) : string_rev (string_rev s) = s.
Proof.
  induction s as [|c s IH]; [reflexivity|].
  rewrite string_rev_cons, string_rev_append, IH. reflexivity.
Qed.

Lemma trimStart_clean (s : string) : starts_clean (trimStart s).
Proof.
  induction s as [|c s IH]; [exact I|].
  cbn [trimStart]. destruct (is_space c) eqn:Hc; [exact IH | exact Hc].
Qed.

Lemma trimStart_of_clean (s : string) : starts_clean s -> trimStart s = s.
Proof. destruct s as [|c s]; [reflexivity|]. cbn. now intros ->. Qed.

Lemma trimStart_suffix (s : string) : exists p, s = (p ++ trimStart s)%string.
Proof.
  induction s as [|c s [p IH]]; [now exists ""|].
  cbn [trimStart]. destruct (is_space c).
  - exists (String c p). change (String c s = String c (p ++ trimStart s))%string.
    now f_equal.
  - now exists "".
Qed.

Lemma starts_clean_prefix (a b : string) :
  starts_clean (a ++ b) -> a <> "" -> starts_clean a.
Proof. destruct a as [|c a]; [congruence|]. intros Hc _. exact Hc. Qed.

Lemma trim_clean_both (s : string) :
  starts_clean (trim s) /\ starts_clean (string_rev (trim s)).
Proof.
  unfold trim. set (a := trimStart s). set (b := trimStart (string_rev a)).
  rewrite string_rev_involutive. split; [|apply trimStart_clean].
  destruct (trimStart_suffix (string_rev a)) as [p Hp]. fold b in Hp.
  assert (Ha : a = (string_rev b ++ string_rev p)%string).
  { rewrite <- (string_rev_involutive a), Hp. apply string_rev_append. }
  destruct b as [|c b'] eqn:Hb; [exact I|].
  apply (starts_clean_prefix _ (string_rev p)).
  - rewrite <- Ha. apply trimStart_clean.
  - rewrite string_rev_cons. destruct (string_rev b'); discriminate.
Qed.

Lemma trim_idempotent (s : string) : trim (trim s) = trim s.
Proof.
  destruct (trim_clean_both s) as [Hstart Hend].
  unfold trim at 1. rewrite (trimStart_of_clean _ Hstart), (trimStart_of_clean _ Hend).
  apply string_rev_involutive.
Qed.

Lemma lower_ascii_idempotent (c : ascii) : lower_ascii (lower_ascii c) = lower_ascii c.
Proof. destruct c as [[] [] [] [] [] [] [] []]; reflexivity. Qed.

Lemma is_space_lower (c : ascii) : is_space (lower_ascii c) = is_space c.
Proof. destruct c as [[] [] [] [] [] [] [] []]; reflexivity. Qed.

Lemma toLowerCase_idempotent (s : string) : toLowerCase (toLowerCase s) = toLowerCase s.
Proof.
  induction s as [|c s IH]; [reflexivity|].
  cbn. now rewrite lower_ascii_idempotent, IH.
Qed.

Lemma toLowerCase_append (a b : string) :
  toLowerCase (a ++ b) = (toLowerCase a ++ toLowerCase b)%string.
Proof.
  induction a as [|c a IH]; [reflexivity|].
  change (String (lower_ascii c) (toLowerCase (a ++ b)) =
          String (lower_ascii c) (toLowerCase a ++ toLowerCase b))%string.
  now f_equal.
Qed.

Lemma toLowerCase_rev (s : string) : toLowerCase (string_rev s) = string_rev (toLowerCase s).
Proof.
  induction s as [|c s IH]; [reflexivity|].
  cbn [toLowerCase]. rewrite !string_rev_cons, toLowerCase_append, IH. reflexivity.
Qed.

Lemma toLowerCase_trimStart (s : string) :
  toLowerCase (trimStart s) = trimStart (toLowerCase s).
Proof.
  induction s as [|c s IH]; [reflexivity|].
  cbn [trimStart toLowerCase]. rewrite is_space_lower.
  destruct (is_space c); [exact IH | reflexivity].
Qed.

Lemma toLowerCase_trim (s : string) : toLowerCase (trim s) = trim (toLowerCase s).
Proof.
  unfold trim.
  now rewrite toLowerCase_rev, toLowerCase_trimStart, toLowerCase_rev, toLowerCase_trimStart.
Qed.

(** X16. Normalising a prompt twice changes nothing more: the lower-cased
    and trimmed form of a prompt is its own normal form, begins and ends
    without white space, and has the same cache key as the prompt, so the
    recorder of a prompt and a later lookup of its normal form (or of any
    variant in case and surrounding white space) use the same storage key. *)
Theorem normalize_is_idempotent (prompt : string) :
  normalize (normalize prompt) = normalize prompt
  /\ starts_clean (normalize prompt)
  /\ starts_clean (string_rev (normalize prompt))
  /\ key_of_prompt (normalize prompt) = key_of_prompt prompt
  /\ (forall now w,
         option_map CacheRecorder.promptHash
           (snd (Recorder.createRecorder (normalize prompt) now w)) =
         option_map CacheRecorder.promptHash
           (snd (Recorder.createRecorder prompt now w))).
Proof.
  assert (Hidem : normalize (normalize prompt) = normalize prompt).
  { unfold normalize.
    now rewrite toLowerCase_trim, toLowerCase_idempotent, trim_idempotent. }
  split; [exact Hidem|].
  split; [apply trim_clean_both|]. split; [apply trim_clean_both|].
  split.
  - unfold key_of_prompt. fold (normalize (normalize prompt)) (normalize prompt).
    now rewrite Hidem.
  - intros now w. cbn. fold (normalize (normalize prompt)) (normalize prompt).
    now rewrite Hidem.
Qed.

(** ** The store actions *)

Lemma with_agents_same (s : AgentStore.t) : AgentStore.with_agents (AgentStore.agents s) s = s.
Proof. now destruct s. Qed.

Lemma map_unmatched (f : Agent.t -> Agent.t) (agentId : value) (l : list Agent.t) :
  List.find (fun a => strict_eq (Agent.id a) agentId) l = None ->
  map (fun a => if strict_eq (Agent.id a) agentId then f a else a) l = l.
Proof.
  induction l as [|a l IH]; [reflexivity|].
  cbn. destruct (strict_eq (Agent.id a) agentId); [discriminate|].
  intros Hnone. now rewrite IH.
Qed.

Lemma find_map_matched (f : Agent.t -> Agent.t) (agentId : value) (l : list Agent.t) :
  (forall a, Agent.id (f a) = Agent.id a) ->
  List.find (fun a => strict_eq (Agent.id a) agentId)
    (map (fun a => if strict_eq (Agent.id a) agentId then f a else a) l) =
  option_map f (List.find (fun a => strict_eq (Agent.id a) agentId) l).
Proof.
  intros Hf. induction l as [|a l IH]; [reflexivity|].
  cbn. destruct (strict_eq (Agent.id a) agentId) eqn:Ha.
  - now rewrite Hf, Ha.
  - now rewrite Ha.
Qed.

(** X17. Actions that name an agent change nothing when no agent has the
    id: an update, a tool call or a tool completion for an agent that was
    never registered is dropped silently, without an error and without
    creating the agent. *)
Theorem actions_on_unknown_agent_change_nothing
    (s : AgentStore.t) (agentId : value) :
  AgentStore.find_agent agentId s = None ->
  (forall updates, AgentStore.updateAgent agentId updates s = s)
  /\ (forall toolCall, AgentStore.addToolCall agentId toolCall s = s)
  /\ (forall toolCallId result, AgentStore.completeToolCall agentId toolCallId result s = s).
Proof.
  unfold AgentStore.find_agent. intros Hnone.
  unfold AgentStore.updateAgent, AgentStore.addToolCall, AgentStore.completeToolCall.
  repeat split; intros;
    rewrite (map_unmatched _ _ _ Hnone); apply with_agents_same.
Qed.

Lemma actions_on_unknown_agent_change_nothing_witness :
  AgentStore.addToolCall (VStr "agent-9") (Example.running_tool "tool-1" "geocode")
    Example.one_tool = Example.one_tool
  /\ AgentStore.completeToolCall (VStr "agent-9") "tool-1000"
       (ToolCall.mkPartial None None None None None None None) Example.one_tool =
     Example.one_tool.
Proof.
  destruct (actions_on_unknown_agent_change_nothing Example.one_tool (VStr "agent-9"))
    as (_ & Hadd & Hcomplete); [reflexivity|].
  split; [apply Hadd | apply Hcomplete].
Defined.

Lemma map_tool_unmatched (f : ToolCall.t -> ToolCall.t) (id : string) (l : list ToolCall.t) :
  Forall (fun tc => ToolCall.id tc <> id) l ->
  map (fun tc => if String.eqb (ToolCall.id tc) id then f tc else tc) l = l.
Proof.
  induction 1 as [|tc l Hne _ IH]; [reflexivity|].
  cbn. destruct (String.eqb_spec (ToolCall.id tc) id); [contradiction|]. now rewrite IH.
Qed.

Lemma find_running_appended (l : list ToolCall.t) (tc : ToolCall.t) :
  Forall (fun x => AgentStore.is_running x = false) l ->
  AgentStore.is_running tc = true ->
  List.find AgentStore.is_running (l ++ [tc]) = Some tc.
Proof.
  induction 1 as [|x l Hx _ IH]; intros Htc.
  - cbn. now rewrite Htc.
  - cbn. rewrite Hx. now apply IH.
Qed.

(** X18. A tool call and its result, in the player.  For an agent of the
    store that has no running tool call and no tool call with the id given
    to the new one, a [tool_called] event followed by a [tool_result] event
    for that agent leaves the agent with its earlier tool calls unchanged,
    followed by the new tool call, complete, with the row count of the
    result. *)
Theorem tool_called_then_tool_result
    (P : Platform) (s : AgentStore.t) (agent : Agent.t) (called result : CacheEvent.t)
    (t1 t2 : Z) :
  let agentId := field "agent_id" (CacheEvent.data called) in
  CacheEvent.type called = tool_called ->
  CacheEvent.type result = tool_result ->
  truthy agentId = true ->
  field "agent_id" (CacheEvent.data result) = agentId ->
  AgentStore.find_agent agentId s = Some agent ->
  Forall (fun tc => AgentStore.is_running tc = false) (Agent.toolCalls agent) ->
  Forall (fun tc => ToolCall.id tc <> "tool-" ++ pretty t1) (Agent.toolCalls agent) ->
  AgentStore.find_agent agentId
    (Player.processEvent t2 result (Player.processEvent t1 called s)) =
  Some (Agent.with_toolCalls
          (Agent.toolCalls agent ++
             [completed_toolCall t1 (CacheEvent.data called) (CacheEvent.data result)])
          agent).
Proof.
  cbn zeta. intros Hcalled Hresult Htruthy Hsame Hfind Hidle Hfresh.
  set (agentId := field "agent_id" (CacheEvent.data called)) in *.
  set (tc := new_toolCall t1 (or (field "tool_name" (CacheEvent.data called)) (VStr "unknown"))
               (or (field "tool_input" (CacheEvent.data called)) (VObj []))).
  assert (Hs1 : Player.processEvent t1 called s = AgentStore.addToolCall agentId tc s).
  { unfold Player.processEvent. rewrite Hcalled. fold agentId. now rewrite Htruthy. }
  rewrite Hs1.
  assert (Hfind1 : AgentStore.find_agent agentId (AgentStore.addToolCall agentId tc s) =
            Some (Agent.with_toolCalls (Agent.toolCalls agent ++ [tc]) agent)).
  { unfold AgentStore.find_agent, AgentStore.addToolCall in *.
    cbn [AgentStore.agents AgentStore.with_agents].
    rewrite find_map_matched by reflexivity. now rewrite Hfind. }
  unfold Player.processEvent at 1. rewrite Hresult, Hsame, Htruthy, Hfind1.
  cbn [AgentStore.find_running Agent.toolCalls Agent.with_toolCalls].
  rewrite (find_running_appended _ tc Hidle eq_refl).
  unfold AgentStore.find_agent, AgentStore.completeToolCall, AgentStore.addToolCall in *.
  cbn [AgentStore.agents AgentStore.with_agents].
  rewrite find_map_matched by reflexivity.
  rewrite find_map_matched by reflexivity. rewrite Hfind.
  cbn [option_map Agent.with_toolCalls Agent.toolCalls]. f_equal.
  unfold Agent.with_toolCalls. cbn [Agent.id Agent.type Agent.description Agent.status
    Agent.inputId Agent.startedAt Agent.completedAt Agent.error Agent.output Agent.toolCalls].
  f_equal. rewrite map_app. cbn [map ToolCall.id tc new_toolCall].
  rewrite (map_tool_unmatched _ _ _ Hfresh). rewrite String.eqb_refl. reflexivity.
Qed.

Lemma tool_called_then_tool_result_witness :
  let called := Example.event_of tool_called
                  [("type", VStr "tool_called"); ("agent_id", VStr "agent-1");
                   ("tool_name", VStr "query_incidents")] 100 in
  let result := Example.event_of tool_result Example.tool_result_message 700 in
  AgentStore.find_agent (VStr "agent-1")
    (Player.processEvent (H := Demo.platform []) 20300 result
       (Player.processEvent (H := Demo.platform []) 20200 called Example.idle_agent_store)) =
  Some (Agent.with_toolCalls
          [completed_toolCall 20200 (CacheEvent.data called) (CacheEvent.data result)]
          (Example.agent_with "agent-1" [])).
Proof.
  cbn zeta.
  apply (tool_called_then_tool_result (Demo.platform []) Example.idle_agent_store
           (Example.agent_with "agent-1" [])
           (Example.event_of tool_called
              [("type", VStr "tool_called"); ("agent_id", VStr "agent-1");
               ("tool_name", VStr "query_incidents")] 100)
           (Example.event_of tool_result Example.tool_result_message 700)
           20200 20300).
  - reflexivity.
  - reflexivity.
  - reflexivity.
  - reflexivity.
  - reflexivity.
  - constructor.
  - constructor.
Defined.

(** ** Starting a session *)




(** ** Saving, then listing *)

(** X20. A recording saved into a store that has no index yet is then
    listed: in a browser, when both writes fit the storage and the platform
    parses the two written texts back, [listCachedPrompts] after
    [saveCache] returns exactly the prompt of the recording (for a prompt
    that is not empty and a hash other than ['index']). *)
Theorem saved_recording_is_listed (P : Platform) (cache : SessionCache.t) (w : World) :
  let hash := SessionCache.promptHash cache in
  let key := (Storage.CACHE_PREFIX ++ hash)%string in
  let doc := Storage.SessionCache_to_value (heap w) cache in
  let index := VArr [VStr hash] in
  hasWindow w = true ->
  hash <> "index" ->
  SessionCache.prompt cache <> "" ->
  localStorage w !! Storage.CACHE_INDEX_KEY = None ->
  storage_accepts (localStorage w) key (JSON_stringify doc) = true ->
  storage_accepts (<[key := JSON_stringify doc]> (localStorage w))
    Storage.CACHE_INDEX_KEY (JSON_stringify index) = true ->
  JSON_stringify doc <> "" ->
  JSON_stringify index <> "" ->
  JSON_parse (JSON_stringify doc) = Some doc ->
  JSON_parse (JSON_stringify index) = Some index ->
  snd (Storage.listCachedPrompts (fst (Storage.saveCache cache w))) =
  Some [VStr (SessionCache.prompt cache)].
Proof.
  cbn zeta. intros Hwin Hhash Hprompt Hnoindex Hacc1 Hacc2 Hne1 Hne2 Hparse1 Hparse2.
  pose proof (entry_key_not_index _ Hhash) as Hkey.
  rewrite (saveCache_cases cache w Hwin). cbn zeta. rewrite Hacc1.
  cbn [localStorage set_localStorage].
  rewrite (stored_index_insert_ne _ _ _ Hkey).
  unfold stored_index at 1. rewrite Hnoindex. cbn [Storage.present existsb app].
  rewrite Hacc2. unfold save_done. cbn [fst].
  rewrite listCachedPrompts_cases.
  cbn [snd hasWindow set_console set_localStorage localStorage]. rewrite Hwin.
  unfold stored_index. rewrite lookup_insert_eq. unfold Storage.present.
  destruct (String.eqb_spec (JSON_stringify (VArr [VStr (SessionCache.promptHash cache)])) "");
    [contradiction|].
  rewrite Hparse2. cbn [load_all]. unfold load_prompt. cbn [Storage.entry_key].
  rewrite lookup_insert_ne by congruence. rewrite lookup_insert_eq.
  unfold Storage.present.
  destruct (String.eqb_spec
              (JSON_stringify (Storage.SessionCache_to_value (heap w) cache)) "");
    [contradiction|].
  rewrite Hparse1. cbn.
  destruct (String.eqb_spec (SessionCache.prompt cache) ""); [contradiction | reflexivity].
Qed.

Lemma saved_recording_is_listed_witness :
  snd (Storage.listCachedPrompts (H := RoundTripExample.platform)
         (fst (Storage.saveCache (H := RoundTripExample.platform)
                 (snapshot (H := RoundTripExample.platform)
                    RecorderExample.recorder 9000 9000)
                 RecorderExample.world))) =
  Some [VStr "Is Union Square safe at night?"].
Proof.
  apply (saved_recording_is_listed RoundTripExample.platform
           (snapshot (H := RoundTripExample.platform) RecorderExample.recorder 9000 9000)
           RecorderExample.world).
  - reflexivity.
  - discriminate.
  - discriminate.
  - reflexivity.
  - reflexivity.
  - reflexivity.
  - vm_compute. discriminate.
  - vm_compute. discriminate.
  - vm_compute. reflexivity.
  - vm_compute. reflexivity.
Defined.

(** ** A live session and its recording *)

Section LiveSession.

Context `{Platform}.

(** One message that does not end the session, handled with a live
    recorder: the recorder stays live on the same array, which grows by
    the event of the message when its type is recordable. *)
Lemma handleEvent_live_step (message : obj) (clock : Live.Clock) (s : AgentStore.t)
    (recorder : CacheRecorder.t) (w : World) :
  CacheRecorder.isFinalized recorder = false ->
  (CacheRecorder.events recorder < List.length (heap w))%nat ->
  not_terminal (message, clock) ->
  exists w' recorder',
    Live.handleEvent message true clock
      {| Live.store := s; Live.recorderRef := Some recorder |} w =
    (w', Some {| Live.store := Live.dispatch message (Live.at_switch clock) s;
                 Live.recorderRef := Some recorder' |})
    /\ CacheRecorder.isFinalized recorder' = false
    /\ CacheRecorder.events recorder' = CacheRecorder.events recorder
    /\ List.length (heap w') = List.length (heap w)
    /\ localStorage w' = localStorage w
    /\ forall rest,
         (deref (heap w) (CacheRecorder.events recorder) ++
            events_of_appends (CacheRecorder.lastEventTime recorder)
              (recordable_appends ((message, clock) :: rest)))%list =
         (deref (heap w') (CacheRecorder.events recorder) ++
            events_of_appends (CacheRecorder.lastEventTime recorder')
              (recordable_appends rest))%list.
Proof.
  intros Hfin Hloc [Hsc Hfr]. cbn [fst] in Hsc, Hfr.
  unfold Live.handleEvent, Live.record_if_active. cbn [Live.recorderRef Live.store].
  rewrite Hfin. cbn [negb andb recordable_appends].
  assert (Hmid : forall ref,
             match Live.classify (field "type" message) with
             | Live.Recordable session_complete | Live.Recordable final_result =>
                 Live.finalize_if_active (Live.at_finalize_date clock)
                   (Live.at_finalize clock) ref
             | _ => Eff.ret ref
             end = Eff.ret ref).
  { intros ref. destruct (Live.classify (field "type" message)) as [[]| | |];
      try reflexivity; congruence. }
  destruct (Live.classify (field "type" message)) as [t| | |] eqn:Hclass.
  - unfold Recorder.recordEvent. rewrite Hfin.
    unfold Eff.bind at 1 2 3 4, Recorder.array_push, Eff.print at 1, Eff.ret at 1 2.
    cbn [heap set_heap set_console console].
    match goal with
    | |- context [Eff.bind _ _ ?w1] =>
        destruct (print_call_prints
                    (Live.console_call message (Live.at_switch clock)) w1)
          as (w' & Hprint & _ & _ & Hls & Hheap & _)
    end.
    rewrite Hmid. unfold Eff.bind, Eff.ret. rewrite Hprint.
    cbn [heap localStorage set_heap set_console] in Hls, Hheap.
    eexists w', _. split; [reflexivity|].
    cbn [CacheRecorder.isFinalized CacheRecorder.events CacheRecorder.lastEventTime].
    split; [reflexivity|]. split; [reflexivity|].
    split; [now rewrite Hheap, length_insert|]. split; [exact Hls|].
    intros rest. rewrite Hheap, deref_push_same by exact Hloc.
    cbn [events_of_appends]. now rewrite <- app_assoc.
  - unfold Eff.bind at 1, Eff.ret at 1.
    destruct (print_call_prints (Live.console_call message (Live.at_switch clock)) w)
      as (w' & Hprint & _ & _ & Hls & Hheap & _).
    unfold Eff.bind, Eff.ret. rewrite Hprint.
    exists w', recorder. split; [reflexivity|]. split; [exact Hfin|].
    split; [reflexivity|]. split; [now rewrite Hheap|]. split; [exact Hls|].
    intros rest. now rewrite Hheap.
  - unfold Eff.bind at 1, Eff.ret at 1.
    destruct (print_call_prints (Live.console_call message (Live.at_switch clock)) w)
      as (w' & Hprint & _ & _ & Hls & Hheap & _).
    unfold Eff.bind, Eff.ret. rewrite Hprint.
    exists w', recorder. split; [reflexivity|]. split; [exact Hfin|].
    split; [reflexivity|]. split; [now rewrite Hheap|]. split; [exact Hls|].
    intros rest. now rewrite Hheap.
  - unfold Eff.bind at 1, Eff.ret at 1.
    destruct (print_call_prints (Live.console_call message (Live.at_switch clock)) w)
      as (w' & Hprint & _ & _ & Hls & Hheap & _).
    unfold Eff.bind, Eff.ret. rewrite Hprint.
    exists w', recorder. split; [reflexivity|]. split; [exact Hfin|].
    split; [reflexivity|]. split; [now rewrite Hheap|]. split; [exact Hls|].
    intros rest. now rewrite Hheap.
Qed.

Lemma run_live_records (messages : list (obj * Live.Clock)) :
  forall (s : AgentStore.t) (recorder : CacheRecorder.t) (w : World),
    CacheRecorder.isFinalized recorder = false ->
    (CacheRecorder.events recorder < List.length (heap w))%nat ->
    Forall not_terminal messages ->
    exists w' recorder',
      run_live messages {| Live.store := s; Live.recorderRef := Some recorder |} w =
      (w', Some {| Live.store :=
                     fold_left (fun st m => Live.dispatch (fst m) (Live.at_switch (snd m)) st)
                       messages s;
                   Live.recorderRef := Some recorder' |})
      /\ deref (heap w') (CacheRecorder.events recorder) =
         (deref (heap w) (CacheRecorder.events recorder) ++
            events_of_appends (CacheRecorder.lastEventTime recorder)
              (recordable_appends messages))%list
      /\ CacheRecorder.isFinalized recorder' = false
      /\ CacheRecorder.events recorder' = CacheRecorder.events recorder
      /\ localStorage w' = localStorage w.
Proof.
  induction messages as [|[message clock] rest IH]; intros s recorder w Hfin Hloc Hall.
  - exists w, recorder. cbn. rewrite app_nil_r. repeat split. exact Hfin.
  - inversion Hall as [|m l Hm Hrest]; subst.
    destruct (handleEvent_live_step message clock s recorder w Hfin Hloc Hm)
      as (w1 & r1 & Hstep & Hfin1 & Hev1 & Hlen1 & Hls1 & Happ).
    destruct (IH (Live.dispatch message (Live.at_switch clock) s) r1 w1 Hfin1)
      as (w' & r' & Hrun & Harr & Hfin' & Hev' & Hls'); [congruence | exact Hrest|].
    exists w', r'. split.
    { cbn [run_live fold_left fst snd]. unfold Eff.bind at 1. rewrite Hstep. exact Hrun. }
    rewrite Hev1 in Harr. split; [now rewrite Harr, Happ|].
    split; [exact Hfin'|]. split; [congruence | congruence].
Qed.

End LiveSession.

(** X21. The recording of a live session is its messages.  While a
    recorder is live and no message ends the session, handling a series of
    messages applies each of them to the store in arrival order and extends
    the recorder's array by exactly the messages whose type is recordable,
    in arrival order, each as an event whose data is the whole message,
    whose timestamp is the clock reading of its [recordEvent] and whose
    delay is the time since the previous recorded message; the storage is
    not written. *)
Theorem live_session_records_its_messages
    (P : Platform) (messages : list (obj * Live.Clock)) (s : AgentStore.t)
    (recorder : CacheRecorder.t) (w : World) :
  CacheRecorder.isFinalized recorder = false ->
  (CacheRecorder.events recorder < List.length (heap w))%nat ->
  Forall not_terminal messages ->
  exists w' recorder',
    run_live messages {| Live.store := s; Live.recorderRef := Some recorder |} w =
    (w', Some {| Live.store :=
                   fold_left (fun st m => Live.dispatch (fst m) (Live.at_switch (snd m)) st)
                     messages s;
                 Live.recorderRef := Some recorder' |})
    /\ deref (heap w') (CacheRecorder.events recorder) =
       (deref (heap w) (CacheRecorder.events recorder) ++
          events_of_appends (CacheRecorder.lastEventTime recorder)
            (recordable_appends messages))%list
    /\ CacheRecorder.isFinalized recorder' = false
    /\ CacheRecorder.events recorder' = CacheRecorder.events recorder
    /\ localStorage w' = localStorage w.
Proof.
  intros Hfin Hloc Hall. now apply run_live_records.
Qed.

Lemma live_session_records_its_messages_witness :
  let messages :=
    [([("type", VStr "agent_spawned"); ("agent_id", VStr "agent-2")],
      Live.mkClock 7400 7401 7402 7403);
     ([("type", VStr "pong")], Live.mkClock 7450 7451 7452 7453);
     ([("type", VStr "tool_called"); ("agent_id", VStr "agent-2")],
      Live.mkClock 7500 7501 7502 7503)] in
  exists w' recorder',
    run_live (H := Demo.platform []) messages
      {| Live.store := Example.one_tool;
         Live.recorderRef := Some RecorderExample.recorder |} RecorderExample.world =
    (w', Some {| Live.store :=
                   fold_left (fun st m => Live.dispatch (H := Demo.platform [])
                                            (fst m) (Live.at_switch (snd m)) st)
                     messages Example.one_tool;
                 Live.recorderRef := Some recorder' |})
    /\ map CacheEvent.type (deref (heap w') 0%nat) =
       [session_started; agent_spawned; tool_called]
    /\ map CacheEvent.timestamp (deref (heap w') 0%nat) = [7300; 7400; 7500]
    /\ map CacheEvent.delay (deref (heap w') 0%nat) = [300; 100; 100].
Proof.
  cbn zeta.
  destruct (live_session_records_its_messages (Demo.platform [])
              [([("type", VStr "agent_spawned"); ("agent_id", VStr "agent-2")],
                Live.mkClock 7400 7401 7402 7403);
               ([("type", VStr "pong")], Live.mkClock 7450 7451 7452 7453);
               ([("type", VStr "tool_called"); ("agent_id", VStr "agent-2")],
                Live.mkClock 7500 7501 7502 7503)]
              Example.one_tool RecorderExample.recorder RecorderExample.world)
    as (w' & r' & Hrun & Harr & _).
  - reflexivity.
  - cbn. lia.
  - repeat constructor; discriminate.
  - exists w', r'. split; [exact Hrun|].
    change (CacheRecorder.events RecorderExample.recorder) with 0%nat in Harr.
    rewrite Harr. repeat split.
Defined.
